(** * Credential and token lifecycle of the Zotok catalogue backend

    A shallow embedding of [app.py]: the HMAC signature, the S3-backed
    credential store, the token validity check and the Flask handlers
    [login], [get_token], [refresh_token] and [user_settings], followed by the
    properties of the specification that concern them and by further
    properties of the code.

    Conventions of the embedding.
    - A Python [str] is a Rocq [string]; its characters are the code points
      U+0000..U+00FF.  Code points above U+00FF are outside the alphabet of
      the model.
    - A value produced by [json.loads] or [request.get_json] is a [value];
      [JNull] is Python's [None].  Numbers are integers: [json_loads]
      decodes no literal with a fraction or an exponent, no [NaN] or
      [Infinity], and no escape above U+00FF, and it has no limit on the
      digits of an integer; what is proved about a decoded body assumes
      that [json_loads] decodes it.
    - Time is an integer count of microseconds since the epoch, the
      resolution of [datetime]; the clock does not advance while a request
      is handled. A Python float is the rational it stands for, and float
      arithmetic rounds to the nearest double ([to_double]).
    - [print] calls are dropped, with the expressions that are computed
      only to be printed; where such an expression can raise, as
      [days_remaining] in [is_token_valid] and [len(products_array)] in
      [proxy_products], its exception is kept.

    The second part of the embedding covers the rest of the endpoints: the
    CORS hooks [after_request] and [handle_preflight], [is_valid_image_url],
    the image proxies [proxy_image] and [proxy_image_base64], and the Zotok
    proxies [proxy_products], [proxy_product_detail] and
    [test_zotok_connection].
    - Response headers are a map keyed by the lower-cased name, one value
      per name.
    - A GET that leaves the process is answered by a function from the call
      to its result; a handler returns its response together with the list
      of calls it made. [urlparse], [unquote] and the texts of exceptions
      are parameters.
    - [response.json()] is [json_loads] of [response.text]. *)

From Stdlib Require Import ZArith NArith QArith List String Ascii Lia Bool.
From Stdlib Require Import DecimalFacts DecimalPos DecimalN.
From Stdlib Require Import Qround Qpower Lqa.
From stdpp Require Import base option gmap strings list.
Import ListNotations.

Local Open Scope Z_scope.
Local Set Warnings "-register-all".

(** ** hashlib.sha256 and hmac.new *)

Module SHA256.

Definition wrap32 (x : Z) : Z := x mod 2 ^ 32.
Definition add32 (x y : Z) : Z := wrap32 (x + y).
Definition rotr (n x : Z) : Z :=
  wrap32 (Z.lor (Z.shiftr x n) (Z.shiftl x (32 - n))).
Definition shr (n x : Z) : Z := Z.shiftr x n.
Definition not32 (x : Z) : Z := Z.lxor x 0xffffffff.

Definition Ch (x y z : Z) : Z := Z.lxor (Z.land x y) (Z.land (not32 x) z).
Definition Maj (x y z : Z) : Z :=
  Z.lxor (Z.lxor (Z.land x y) (Z.land x z)) (Z.land y z).
Definition Sigma0 (x : Z) : Z := Z.lxor (Z.lxor (rotr 2 x) (rotr 13 x)) (rotr 22 x).
Definition Sigma1 (x : Z) : Z := Z.lxor (Z.lxor (rotr 6 x) (rotr 11 x)) (rotr 25 x).
Definition sigma0 (x : Z) : Z := Z.lxor (Z.lxor (rotr 7 x) (rotr 18 x)) (shr 3 x).
Definition sigma1 (x : Z) : Z := Z.lxor (Z.lxor (rotr 17 x) (rotr 19 x)) (shr 10 x).

(** The round constants and the initial state are, as FIPS 180-4 defines
    them, the first 32 bits of the fractional parts of the cube roots of the
    first 64 primes and of the square roots of the first 8. *)
Definition is_prime (n : Z) : bool :=
  (2 <=? n)
  && forallb (fun d => negb (n mod Z.of_nat d =? 0)) (seq 2 (Z.to_nat n - 2)).

Definition first_primes (count : nat) : list Z :=
  firstn count (filter is_prime (map Z.of_nat (seq 2 400))).

(** The integer cube root, one bit at a time from the top. *)
Fixpoint cube_root (bits : nat) (n acc : Z) : Z :=
  match bits with
  | O => acc
  | S bits' =>
      let candidate := acc + 2 ^ Z.of_nat bits' in
      if candidate ^ 3 <=? n then cube_root bits' n candidate
      else cube_root bits' n acc
  end.

Definition K : list Z :=
  Eval vm_compute in
    map (fun p => wrap32 (cube_root 40 (p * 2 ^ 96) 0)) (first_primes 64).

(** The eight working variables a..h. *)
Definition state : Type := (Z * Z * Z * Z * Z * Z * Z * Z)%type.

Definition H0 : state :=
  Eval vm_compute in
    match map (fun p => wrap32 (Z.sqrt (p * 2 ^ 64))) (first_primes 8) with
    | [a; b; c; d; e; f; g; h] => (a, b, c, d, e, f, g, h)
    | _ => (0, 0, 0, 0, 0, 0, 0, 0)
    end.

(** Padding: a 1 bit, zeros up to 56 mod 64 bytes, the bit length on 64 bits. *)
Definition be_bytes (n : nat) (x : Z) : list Z :=
  map (fun i => Z.shiftr x (8 * Z.of_nat i) mod 256) (rev (seq 0 n)).

Definition pad (msg : list Z) : list Z :=
  let len := Z.of_nat (length msg) in
  msg ++ [0x80] ++ repeat 0 (Z.to_nat ((55 - len) mod 64)) ++ be_bytes 8 (8 * len).

Definition be_word (bs : list Z) : Z :=
  fold_left (fun acc b => Z.lor (Z.shiftl acc 8) (b mod 256)) bs 0.

Fixpoint words (n : nat) (bs : list Z) : list Z :=
  match n with
  | O => []
  | S n' => be_word (firstn 4 bs) :: words n' (skipn 4 bs)
  end.

(** The message schedule: [win] holds the sixteen words W(t-16) .. W(t-1). *)
Fixpoint schedule (n : nat) (win : list Z) : list Z :=
  match n with
  | O => []
  | S n' =>
      match win with
      | [] => []
      | w0 :: rest =>
          let wt := add32 (add32 (sigma1 (nth 13 rest 0)) (nth 8 rest 0))
                          (add32 (sigma0 (nth 0 rest 0)) w0) in
          w0 :: schedule n' (rest ++ [wt])
      end
  end.

Definition round (s : state) (kw : Z * Z) : state :=
  let '(a, b, c, d, e, f, g, h) := s in
  let t1 := add32 (add32 (add32 h (Sigma1 e)) (add32 (Ch e f g) (fst kw))) (snd kw) in
  let t2 := add32 (Sigma0 a) (Maj a b c) in
  (add32 t1 t2, a, b, c, add32 d t1, e, f, g).

Definition compress (s : state) (block : list Z) : state :=
  let '(a, b, c, d, e, f, g, h) := s in
  let '(a', b', c', d', e', f', g', h') :=
    fold_left round (combine K (schedule 64 (words 16 block))) s in
  (add32 a a', add32 b b', add32 c c', add32 d d',
   add32 e e', add32 f f', add32 g g', add32 h h').

Fixpoint blocks (n : nat) (s : state) (bs : list Z) : state :=
  match n with
  | O => s
  | S n' => blocks n' (compress s (firstn 64 bs)) (skipn 64 bs)
  end.

Definition digest_of (s : state) : list Z :=
  let '(a, b, c, d, e, f, g, h) := s in
  flat_map (be_bytes 4) [a; b; c; d; e; f; g; h].

(** [hashlib.sha256(msg).digest()] on a list of bytes. *)
Definition sha256 (msg : list Z) : list Z :=
  let p := pad msg in
  digest_of (blocks (Nat.div (length p) 64) H0 p).

Definition block_size : nat := 64.

End SHA256.

(** [hmac.new(key, msg, hashlib.sha256).digest()]: a key longer than the
    block is hashed first, then padded with zero bytes to the block size. *)
Definition hmac_sha256 (key msg : list Z) : list Z :=
  let key := if (SHA256.block_size <? length key)%nat then SHA256.sha256 key else key in
  let key := key ++ repeat 0 (SHA256.block_size - length key) in
  let inner := SHA256.sha256 (map (Z.lxor 0x36) key ++ msg) in
  SHA256.sha256 (map (Z.lxor 0x5c) key ++ inner).

Definition hex_digit (n : Z) : ascii :=
  nth (Z.to_nat n) (list_ascii_of_string "0123456789abcdef") "0"%char.

(** [bytes.hex()] / [.hexdigest()]: two lowercase digits per byte. *)
Definition hexdigest (bs : list Z) : string :=
  string_of_list_ascii
    (flat_map (fun b => [hex_digit (b / 16 mod 16); hex_digit (b mod 16)]) bs).

(** [str.encode('utf-8')] on the code points U+0000..U+00FF. *)
Definition utf8_char (c : ascii) : list Z :=
  let n := Z.of_N (N_of_ascii c) in
  if n <? 0x80 then [n] else [0xC0 + n / 64; 0x80 + n mod 64].

Definition encode_utf8 (s : string) : list Z :=
  flat_map utf8_char (list_ascii_of_string s).


(** ** Python values

    The values that [json.loads] and [request.get_json] produce. A [dict] is
    an association list in insertion order; its keys are distinct ([wf]). *)

Inductive value : Type :=
| JNull
| JBool (b : bool)
| JInt (n : Z)
| JStr (s : string)
| JArr (items : list value)
| JObj (members : list (string * value)).

Definition chars (s : string) : list ascii := list_ascii_of_string s.

Fixpoint nodup_keys (ks : list string) : bool :=
  match ks with
  | [] => true
  | k :: ks' => negb (existsb (String.eqb k) ks') && nodup_keys ks'
  end.

(** Well-formed values: every dict has distinct keys. *)
Fixpoint wf (v : value) : bool :=
  match v with
  | JArr items => forallb wf items
  | JObj members =>
      nodup_keys (map fst members) && forallb (fun kv => wf (snd kv)) members
  | _ => true
  end.

(** [bool(v)]: None, False, 0 and the empty str, list and dict are falsy. *)
Definition truthy (v : value) : bool :=
  match v with
  | JNull => false
  | JBool b => b
  | JInt n => negb (n =? 0)
  | JStr s => negb (String.eqb s "")
  | JArr items => match items with [] => false | _ => true end
  | JObj members => match members with [] => false | _ => true end
  end.

(** [a or b] *)
Definition py_or (a b : value) : value := if truthy a then a else b.

Fixpoint dict_lookup (k : string) (d : list (string * value)) : option value :=
  match d with
  | [] => None
  | (k', v) :: d' => if String.eqb k k' then Some v else dict_lookup k d'
  end.

(** [d[k] = v]: an existing key keeps its position. *)
Fixpoint dict_set (k : string) (v : value) (d : list (string * value))
  : list (string * value) :=
  match d with
  | [] => [(k, v)]
  | (k', v') :: d' =>
      if String.eqb k k' then (k, v) :: d' else (k', v') :: dict_set k v d'
  end.

Definition dict_of_pairs (kvs : list (string * value)) : list (string * value) :=
  fold_left (fun d kv => dict_set (fst kv) (snd kv) d) kvs [].

(** Exceptions, by class. *)
Inductive exn : Type :=
| AttributeError
| KeyError
| TypeError
| ValueError
| RequestException
| ClientError
| OverflowError.

(** [obj.get(k)] and [obj.get(k, default)]: only a dict has [get]. *)
Definition py_get (obj : value) (k : string) (default : value) : exn + value :=
  match obj with
  | JObj d => inr (match dict_lookup k d with Some v => v | None => default end)
  | _ => inl AttributeError
  end.

(** [obj[k]] with a str key. *)
Definition py_index (obj : value) (k : string) : exn + value :=
  match obj with
  | JObj d => match dict_lookup k d with Some v => inr v | None => inl KeyError end
  | _ => inl TypeError
  end.

(** [obj[k] = v] *)
Definition py_setitem (obj : value) (k : string) (v : value) : exn + value :=
  match obj with
  | JObj d => inr (JObj (dict_set k v d))
  | _ => inl TypeError
  end.

(** *** Decimal digits, shared by [str(int)], [json.dumps] and [json.loads] *)

Fixpoint uint_chars (u : Decimal.uint) : list ascii :=
  match u with
  | Decimal.Nil => []
  | Decimal.D0 u' => "0"%char :: uint_chars u'
  | Decimal.D1 u' => "1"%char :: uint_chars u'
  | Decimal.D2 u' => "2"%char :: uint_chars u'
  | Decimal.D3 u' => "3"%char :: uint_chars u'
  | Decimal.D4 u' => "4"%char :: uint_chars u'
  | Decimal.D5 u' => "5"%char :: uint_chars u'
  | Decimal.D6 u' => "6"%char :: uint_chars u'
  | Decimal.D7 u' => "7"%char :: uint_chars u'
  | Decimal.D8 u' => "8"%char :: uint_chars u'
  | Decimal.D9 u' => "9"%char :: uint_chars u'
  end.

Definition int_chars (n : Z) : list ascii :=
  match n with
  | Z0 => ["0"%char]
  | Zpos p => uint_chars (Pos.to_uint p)
  | Zneg p => "-"%char :: uint_chars (Pos.to_uint p)
  end.

Definition digit_of (c : ascii) : option (Decimal.uint -> Decimal.uint) :=
  if Ascii.eqb c "0" then Some Decimal.D0
  else if Ascii.eqb c "1" then Some Decimal.D1
  else if Ascii.eqb c "2" then Some Decimal.D2
  else if Ascii.eqb c "3" then Some Decimal.D3
  else if Ascii.eqb c "4" then Some Decimal.D4
  else if Ascii.eqb c "5" then Some Decimal.D5
  else if Ascii.eqb c "6" then Some Decimal.D6
  else if Ascii.eqb c "7" then Some Decimal.D7
  else if Ascii.eqb c "8" then Some Decimal.D8
  else if Ascii.eqb c "9" then Some Decimal.D9
  else None.

(** *** [repr] and [str], as an f-string applies them *)

Definition code (c : ascii) : Z := Z.of_N (N_of_ascii c).

Definition is_printable (c : ascii) : bool :=
  ((0x20 <=? code c) && (code c <? 0x7f))
  || ((0xa1 <=? code c) && negb (code c =? 0xad)).

Definition dquote : ascii := "034"%char.
Definition backslash : ascii := "092"%char.

Definition repr_char (quote : ascii) (c : ascii) : list ascii :=
  if Ascii.eqb c quote || Ascii.eqb c backslash then [backslash; c]
  else if Ascii.eqb c "009" then [backslash; "t"%char]
  else if Ascii.eqb c "010" then [backslash; "n"%char]
  else if Ascii.eqb c "013" then [backslash; "r"%char]
  else if is_printable c then [c]
  else [backslash; "x"%char; hex_digit (code c / 16); hex_digit (code c mod 16)].

Definition repr_str (s : string) : list ascii :=
  let cs := chars s in
  let quote :=
    if existsb (Ascii.eqb "'") cs && negb (existsb (Ascii.eqb dquote) cs)
    then dquote else "'"%char in
  quote :: flat_map (repr_char quote) cs ++ [quote].

Fixpoint join_sep (parts : list (list ascii)) : list ascii :=
  match parts with
  | [] => []
  | [p] => p
  | p :: ps => p ++ chars ", " ++ join_sep ps
  end.

Fixpoint repr_chars (v : value) : list ascii :=
  match v with
  | JNull => chars "None"
  | JBool true => chars "True"
  | JBool false => chars "False"
  | JInt n => int_chars n
  | JStr s => repr_str s
  | JArr items => "["%char :: join_sep (map repr_chars items) ++ ["]"%char]
  | JObj members =>
      "{"%char
        :: join_sep (map (fun kv => repr_str (fst kv) ++ chars ": " ++ repr_chars (snd kv))
                         members)
        ++ ["}"%char]
  end.

(** [str(v)], which [f"{v}"] inserts. *)
Definition py_str (v : value) : string :=
  match v with
  | JStr s => s
  | _ => string_of_list_ascii (repr_chars v)
  end.


(** ** json.dumps and json.loads *)

(** [json.dumps] with its defaults: [ensure_ascii], separators [", "] and
    [": "]. Only the characters from the space to the tilde, the quote and
    the backslash apart, are written as they are. *)
Definition escape_char (c : ascii) : list ascii :=
  if Ascii.eqb c dquote then [backslash; dquote]
  else if Ascii.eqb c backslash then [backslash; backslash]
  else if Ascii.eqb c "010" then [backslash; "n"%char]
  else if Ascii.eqb c "013" then [backslash; "r"%char]
  else if Ascii.eqb c "009" then [backslash; "t"%char]
  else if Ascii.eqb c "008" then [backslash; "b"%char]
  else if Ascii.eqb c "012" then [backslash; "f"%char]
  else if (0x20 <=? code c) && (code c <=? 0x7e) then [c]
  else [backslash; "u"%char; "0"%char; "0"%char;
        hex_digit (code c / 16); hex_digit (code c mod 16)].

Definition dumps_str (s : string) : list ascii :=
  dquote :: flat_map escape_char (chars s) ++ [dquote].

Fixpoint dumps_chars (v : value) : list ascii :=
  match v with
  | JNull => chars "null"
  | JBool true => chars "true"
  | JBool false => chars "false"
  | JInt n => int_chars n
  | JStr s => dumps_str s
  | JArr items => "["%char :: join_sep (map dumps_chars items) ++ ["]"%char]
  | JObj members =>
      "{"%char
        :: join_sep (map (fun kv => dumps_str (fst kv) ++ chars ": " ++ dumps_chars (snd kv))
                         members)
        ++ ["}"%char]
  end.

Definition json_dumps (v : value) : string := string_of_list_ascii (dumps_chars v).

(** The decoder. Whitespace is the space, tab, line feed and carriage return. *)
Definition is_ws (c : ascii) : bool :=
  Ascii.eqb c " " || Ascii.eqb c "009" || Ascii.eqb c "010" || Ascii.eqb c "013".

Fixpoint skip_ws (s : list ascii) : list ascii :=
  match s with
  | c :: s' => if is_ws c then skip_ws s' else s
  | [] => []
  end.

Definition hex_value (c : ascii) : option Z :=
  let n := code c in
  if (0x30 <=? n) && (n <=? 0x39) then Some (n - 0x30)
  else if (0x61 <=? n) && (n <=? 0x66) then Some (n - 0x61 + 10)
  else if (0x41 <=? n) && (n <=? 0x46) then Some (n - 0x41 + 10)
  else None.

Definition hex4 (a b c d : ascii) : option Z :=
  match hex_value a, hex_value b, hex_value c, hex_value d with
  | Some x, Some y, Some z, Some t => Some (((x * 16 + y) * 16 + z) * 16 + t)
  | _, _, _, _ => None
  end.

Definition char_of_code (n : Z) : ascii := ascii_of_N (Z.to_N n).

Definition cons_char (c : ascii) (r : option (list ascii * list ascii))
  : option (list ascii * list ascii) :=
  match r with
  | Some (cs, rest) => Some (c :: cs, rest)
  | None => None
  end.

(** [scanstring], strict: the text after the opening quote, up to the
    closing one. A control character is an error; so is, in this model, an
    escape for a code point above U+00FF. *)
Fixpoint scanstring (s : list ascii) : option (list ascii * list ascii) :=
  match s with
  | [] => None
  | c :: r =>
      if Ascii.eqb c dquote then Some ([], r)
      else if Ascii.eqb c backslash then
        match r with
        | [] => None
        | e :: r1 =>
            if Ascii.eqb e dquote then cons_char dquote (scanstring r1)
            else if Ascii.eqb e backslash then cons_char backslash (scanstring r1)
            else if Ascii.eqb e "/" then cons_char "/"%char (scanstring r1)
            else if Ascii.eqb e "b" then cons_char "008"%char (scanstring r1)
            else if Ascii.eqb e "f" then cons_char "012"%char (scanstring r1)
            else if Ascii.eqb e "n" then cons_char "010"%char (scanstring r1)
            else if Ascii.eqb e "r" then cons_char "013"%char (scanstring r1)
            else if Ascii.eqb e "t" then cons_char "009"%char (scanstring r1)
            else if Ascii.eqb e "u" then
              match r1 with
              | a :: b :: c' :: d :: r2 =>
                  match hex4 a b c' d with
                  | Some n =>
                      if n <? 256 then cons_char (char_of_code n) (scanstring r2)
                      else None
                  | None => None
                  end
              | _ => None
              end
            else None
        end
      else if code c <? 0x20 then None
      else cons_char c (scanstring r)
  end.

Fixpoint scan_digits (s : list ascii) : Decimal.uint * list ascii :=
  match s with
  | [] => (Decimal.Nil, [])
  | c :: r =>
      match digit_of c with
      | Some d => let '(u, r') := scan_digits r in (d u, r')
      | None => (Decimal.Nil, s)
      end
  end.

(** An integer literal: an optional minus sign, then a single zero or a
    digit string without a leading zero, not followed by a fraction or an
    exponent. *)
Definition scan_number (s : list ascii) : option (value * list ascii) :=
  let '(neg, s1) :=
    match s with
    | c :: r => if Ascii.eqb c "-" then (true, r) else (false, s)
    | [] => (false, s)
    end in
  let '(u, r) := scan_digits s1 in
  let float_follows :=
    match r with
    | c :: _ => Ascii.eqb c "." || Ascii.eqb c "e" || Ascii.eqb c "E"
    | [] => false
    end in
  match u with
  | Decimal.Nil => None
  | Decimal.D0 (Decimal.Nil) =>
      if float_follows then None else Some (JInt 0, r)
  | Decimal.D0 _ => None
  | _ =>
      if float_follows then None
      else
        let n := Z.of_N (N.of_uint u) in
        Some (JInt (if neg then - n else n), r)
  end.

Fixpoint strip_prefix (p s : list ascii) : option (list ascii) :=
  match p with
  | [] => Some s
  | c :: p' =>
      match s with
      | c' :: s' => if Ascii.eqb c c' then strip_prefix p' s' else None
      | [] => None
      end
  end.

Section scan_loops.
Variable scan : list ascii -> option (value * list ascii).

(** The elements of an array, from the first one to the closing bracket. *)
Fixpoint scan_items (n : nat) (s : list ascii) : option (list value * list ascii) :=
  match n with
  | O => None
  | S n' =>
      match scan s with
      | None => None
      | Some (v, r) =>
          match skip_ws r with
          | c :: r' =>
              if Ascii.eqb c "]" then Some ([v], r')
              else if Ascii.eqb c "," then
                match scan_items n' (skip_ws r') with
                | Some (vs, r'') => Some (v :: vs, r'')
                | None => None
                end
              else None
          | [] => None
          end
      end
  end.

(** The members of an object, from the first key to the closing brace. *)
Fixpoint scan_members (n : nat) (s : list ascii)
  : option (list (string * value) * list ascii) :=
  match n with
  | O => None
  | S n' =>
      match s with
      | q :: r =>
          if Ascii.eqb q dquote then
            match scanstring r with
            | None => None
            | Some (k, r1) =>
                match skip_ws r1 with
                | c :: r2 =>
                    if Ascii.eqb c ":" then
                      match scan (skip_ws r2) with
                      | None => None
                      | Some (v, r3) =>
                          let kv := (string_of_list_ascii k, v) in
                          match skip_ws r3 with
                          | c' :: r4 =>
                              if Ascii.eqb c' "}" then Some ([kv], r4)
                              else if Ascii.eqb c' "," then
                                match scan_members n' (skip_ws r4) with
                                | Some (kvs, r5) => Some (kv :: kvs, r5)
                                | None => None
                                end
                              else None
                          | [] => None
                          end
                      end
                    else None
                | [] => None
                end
            end
          else None
      | [] => None
      end
  end.
End scan_loops.

(** [scan_once]: one value at the head of the text. A later duplicate of a
    key replaces the earlier value. *)
Fixpoint scan_once (fuel : nat) (s : list ascii) : option (value * list ascii) :=
  match fuel with
  | O => None
  | S fuel' =>
      match s with
      | [] => None
      | c :: r =>
          if Ascii.eqb c dquote then
            match scanstring r with
            | Some (cs, r') => Some (JStr (string_of_list_ascii cs), r')
            | None => None
            end
          else if Ascii.eqb c "{" then
            match skip_ws r with
            | c' :: r' =>
                if Ascii.eqb c' "}" then Some (JObj [], r')
                else
                  match scan_members (scan_once fuel') fuel' (c' :: r') with
                  | Some (kvs, r'') => Some (JObj (dict_of_pairs kvs), r'')
                  | None => None
                  end
            | [] => None
            end
          else if Ascii.eqb c "[" then
            match skip_ws r with
            | c' :: r' =>
                if Ascii.eqb c' "]" then Some (JArr [], r')
                else
                  match scan_items (scan_once fuel') fuel' (c' :: r') with
                  | Some (vs, r'') => Some (JArr vs, r'')
                  | None => None
                  end
            | [] => None
            end
          else
            match strip_prefix (chars "null") s with
            | Some r' => Some (JNull, r')
            | None =>
                match strip_prefix (chars "true") s with
                | Some r' => Some (JBool true, r')
                | None =>
                    match strip_prefix (chars "false") s with
                    | Some r' => Some (JBool false, r')
                    | None => scan_number s
                    end
                end
            end
      end
  end.

(** [json.loads]: one value, whitespace around it, nothing after it. Any
    decoding error is [None]. The fuel, one more than the length of the
    text, bounds both the nesting and the number of elements of a container;
    each nested call and each element follows at least one character read,
    so it does not run out. *)
Definition json_loads (text : string) : option value :=
  let s := chars text in
  match scan_once (S (length s)) (skip_ws s) with
  | Some (v, r) => match skip_ws r with [] => Some v | _ => None end
  | None => None
  end.

(** Measures and character classes used to reason about the decoder. *)
Fixpoint vsize (v : value) : nat :=
  match v with
  | JArr items => S (list_sum (map vsize items))
  | JObj members => S (list_sum (map (fun kv => vsize (snd kv)) members))
  | _ => 1%nat
  end.

(** What may follow a number: not a digit, a point or an exponent mark. *)
Definition stop (rest : list ascii) : bool :=
  match rest with
  | [] => true
  | c :: _ =>
      match digit_of c with
      | Some _ => false
      | None => negb (Ascii.eqb c "." || Ascii.eqb c "e" || Ascii.eqb c "E")
      end
  end.

(** The first character of an encoded value: no whitespace, no closing
    bracket or brace. *)
Definition starts_value (s : list ascii) : bool :=
  match s with
  | c :: _ => negb (is_ws c) && negb (Ascii.eqb c "]") && negb (Ascii.eqb c "}")
  | [] => false
  end.

Definition starts_number (c : ascii) : bool :=
  match digit_of c with
  | Some _ => true
  | None => Ascii.eqb c "-"
  end.

(** One member of an encoded dict. *)
Definition dumps_member (kv : string * value) : list ascii :=
  dumps_str (fst kv) ++ chars ": " ++ dumps_chars (snd kv).

(** [scan] decodes what [json.dumps] wrote for [v], whatever follows it. *)
Definition decodes_with (scan : list ascii -> option (value * list ascii))
    (v : value) : Prop :=
  forall rest, stop rest = true -> scan (dumps_chars v ++ rest) = Some (v, rest).

(** ** The world the handlers run in *)

(** What [requests.post] gives back: a [RequestException], or a response
    with its [status_code] and [text]. *)
Inductive http_result : Type :=
| HttpFailed
| HttpResponse (status_code : Z) (text : string).

(** Calls that leave the process. *)
Inductive event : Type :=
| S3Get (key : string)
| S3Put (key body : string)
| HttpPost (url : string) (payload : value).

Record world : Type := World {
  s3_client : bool;                 (* false: the global [s3_client] is None *)
  s3_up : bool;                     (* false: every call on the client raises *)
  bucket : gmap string string;      (* the objects of [Config.S3_BUCKET_NAME] *)
  clock : Z;                        (* [datetime.now(timezone.utc)] *)
  zotok : value -> http_result;     (* the auth endpoint of the Zotok API *)
  trace : list event                (* outbound calls so far, latest first *)
}.

Definition set_bucket (b : gmap string string) (w : world) : world :=
  World (s3_client w) (s3_up w) b (clock w) (zotok w) (trace w).

Definition log (e : event) (w : world) : world :=
  World (s3_client w) (s3_up w) (bucket w) (clock w) (zotok w) (e :: trace w).

(** Computations that read and change the world and may raise. *)
Definition Py (A : Type) : Type := world -> (exn + A) * world.

Definition ret {A} (a : A) : Py A := fun w => (inr a, w).

Definition bind {A B} (m : Py A) (k : A -> Py B) : Py B :=
  fun w =>
    match m w with
    | (inr a, w') => k a w'
    | (inl e, w') => (inl e, w')
    end.

Definition lift {A} (r : exn + A) : Py A := fun w => (r, w).

(** [try: body except Exception as e: handler] *)
Definition try_except {A} (body : Py A) (handler : exn -> Py A) : Py A :=
  fun w =>
    match body w with
    | (inl e, w') => handler e w'
    | r => r
    end.

Notation "'let!' x ':=' m 'in' k" := (bind m (fun x => k))
  (at level 10, x name, m at level 100, k at level 200, only parsing).

Definition datetime_now : Py Z := fun w => (inr (clock w), w).

(** [s3_client.put_object(Bucket, Key, Body)]: a full overwrite of the key. *)
Definition put_object (key body : string) : Py unit :=
  fun w =>
    let w := log (S3Put key body) w in
    if s3_up w then (inr tt, set_bucket (<[key := body]> (bucket w)) w)
    else (inl ClientError, w).

(** [s3_client.get_object(Bucket, Key)['Body'].read()]: a missing key raises. *)
Definition get_object (key : string) : Py string :=
  fun w =>
    let w := log (S3Get key) w in
    if s3_up w then
      match bucket w !! key with
      | Some body => (inr body, w)
      | None => (inl ClientError, w)
      end
    else (inl ClientError, w).

(** [Config.ZOTOK_API_BASE_URL], at the default of its environment variable. *)
Definition ZOTOK_API_BASE_URL : string := "https://api-qa.zono.digital".

Definition auth_url : string :=
  ZOTOK_API_BASE_URL +:+ "/mdm-integration/v1/api/auth/login".

(** [requests.post(url, json=payload, timeout=30)] *)
Definition requests_post (url : string) (payload : value) : Py (Z * string) :=
  fun w =>
    let w := log (HttpPost url payload) w in
    match zotok w payload with
    | HttpResponse status_code text => (inr (status_code, text), w)
    | HttpFailed => (inl RequestException, w)
    end.

(** ** The application *)

Definition TOKEN_EXPIRY_SECONDS : Z := 28 * 24 * 60 * 60.

(** [create_hmac_signature]: the secret must be a str to have [encode]. *)
Definition create_hmac_signature (workspace_id client_id client_secret : value)
  : exn + string :=
  let message := py_str workspace_id +:+ "_" +:+ py_str client_id in
  match client_secret with
  | JStr secret =>
      inr (hexdigest (hmac_sha256 (encode_utf8 secret) (encode_utf8 message)))
  | _ => inl AttributeError
  end.

Definition filename_of (canva_user_id : value) : string :=
  "canva-catalog-app/" +:+ py_str canva_user_id +:+ ".json".

(** [s.replace('Z', '+00:00')] *)
Definition replace_Z (s : string) : string :=
  string_of_list_ascii
    (flat_map (fun c => if Ascii.eqb c "Z" then chars "+00:00" else [c]) (chars s)).

(** *** Floats

    A Python float is the rational it stands for, and an operation on
    floats rounds its exact result to the nearest double, ties to the even
    significand. A double has a significand of 53 bits; the range of its
    exponent matters for the conversion of an int only, which raises when
    the int rounds beyond the largest double. *)
Definition pow2 (e : Z) : Q := (2 ^ e)%Q.

(** The integer nearest to [z], the even one of two that are equally near. *)
Definition round_half_even (z : Q) : Z :=
  let f := Qfloor z in
  match (z - inject_Z f ?= 1 # 2)%Q with
  | Lt => f
  | Gt => f + 1
  | Eq => if Z.even f then f else f + 1
  end.

(** For a positive [x], the exponent [e] with [2^e <= x < 2^(e+1)]. *)
Definition binade (x : Q) : Z :=
  let e := Z.log2 (Qnum x) - Z.log2 (Zpos (Qden x)) in
  if Qle_bool (pow2 e) x then e else e - 1.

Definition round_positive (x : Q) : Q :=
  let e := binade x in
  (inject_Z (round_half_even (x * pow2 (52 - e))) * pow2 (e - 52))%Q.

Definition to_double (x : Q) : Q :=
  match Qnum x with
  | Z0 => 0%Q
  | Zpos _ => round_positive x
  | Zneg _ => (- round_positive (- x))%Q
  end.

(** [float(n)] of an int, as an arithmetic operation with a float applies
    it: an [OverflowError] from 2^1024 - 2^970 on, which would round to
    2^1024. *)
Definition float_of_int (n : Z) : exn + Q :=
  if 2 ^ 1024 - 2 ^ 970 <=? Z.abs n then inl OverflowError
  else inr (to_double (inject_Z n)).

(** [timedelta.total_seconds()] of a difference in microseconds: the
    quotient by 10^6 as a float. *)
Definition total_seconds (d : Z) : Q := to_double (d # 1000000).

Definition Qltb (a b : Q) : bool := negb (Qle_bool b a).

(** [int(q)]: truncation towards zero. *)
Definition Qtrunc (q : Q) : Z := Z.quot (Qnum q) (Zpos (Qden q)).

(** The operand of a comparison with a float: an int, or a bool counted as
    0 or 1, compared by value; anything else is a [TypeError]. *)
Definition as_number (v : value) : exn + Z :=
  match v with
  | JInt n => inr n
  | JBool b => inr (if b then 1 else 0)
  | _ => inl TypeError
  end.

Definition as_str (v : value) : exn + string :=
  match v with
  | JStr s => inr s
  | _ => inl AttributeError
  end.

(** [str.isspace] on U+0000..U+00FF. *)
Definition is_space (c : ascii) : bool :=
  let n := code c in
  ((9 <=? n) && (n <=? 13)) || ((0x1c <=? n) && (n <=? 0x20))
  || (n =? 0x85) || (n =? 0xa0).

Fixpoint lstrip (s : list ascii) : list ascii :=
  match s with
  | c :: s' => if is_space c then lstrip s' else s
  | [] => []
  end.

(** [s.strip()] *)
Definition strip (s : string) : string :=
  string_of_list_ascii (rev (lstrip (rev (lstrip (chars s))))).

(** A Flask response: [jsonify(fields), status]. Two kinds of entries of the
    source's dicts are left out: [details] when it is [str(e)] of a caught
    exception, and the entries whose value is a float or is formatted from
    one ([expires_in_days], [remaining_days], the [message] of [get_token]). *)
Record response : Type := Response {
  status : Z;
  body : list (string * value)
}.

Definition jsonify (fields : list (string * value)) (st : Z) : response :=
  Response st fields.

Definition failure (msg : string) (st : Z) : response :=
  jsonify [("success", JBool false); ("error", JStr msg)] st.

(** The status of what a handler returned, None when it raised. *)
Definition status_of (r : exn + response) : option Z :=
  match r with
  | inr resp => Some (status resp)
  | inl _ => None
  end.

Inductive http_method : Type := GET | POST.

Record request : Type := Request {
  method : http_method;
  args : list (string * string);    (* the query string *)
  authorization : option string;    (* the Authorization header *)
  json : option value               (* [get_json()]; None when it raises *)
}.

Definition get_json (req : request) : Py value :=
  lift (match json req with Some v => inr v | None => inl ValueError end).

Fixpoint args_get (k : string) (a : list (string * string)) : option string :=
  match a with
  | [] => None
  | (k', v) :: a' => if String.eqb k k' then Some v else args_get k a'
  end.

(** [not s] for an optional str: None or the empty str. *)
Definition missing (s : option string) : bool :=
  match s with
  | Some s => String.eqb s ""
  | None => true
  end.

(** [auth_data.get('token') or auth_data.get('access_token')], the
    expression that [login] and [refresh_token] share. *)
Definition token_or_access_token (auth_data : value) : exn + value :=
  match py_get auth_data "token" JNull with
  | inl e => inl e
  | inr token =>
      if truthy token then inr token
      else py_get auth_data "access_token" JNull
  end.

(** The body posted to the auth endpoint. *)
Definition auth_payload_of (workspace_id client_id : value) (signature : string)
  : value :=
  JObj [ ("workspaceId", workspace_id);
         ("clientId", client_id);
         ("signature", JStr signature) ].

(** [status_code not in [200, 201, 202]] *)
Definition rejected (status_code : Z) : bool :=
  negb (existsb (Z.eqb status_code) [200; 201; 202]).

Section Service.

(** The two [datetime] conversions are taken from the platform:
    [isoformat t] is the text of the instant [t]; [fromisoformat s] is the
    instant that [s] denotes, and None when [datetime.fromisoformat] raises
    or gives a naive datetime, which cannot be subtracted from an aware one. *)
Variable isoformat : Z -> string.
Variable fromisoformat : string -> option Z.

Definition store_user_credentials
    (canva_user_id workspace_id client_id client_secret login_token : value)
    (expires_in : Z) : Py bool :=
  fun w =>
    if negb (s3_client w) then (inr false, w)
    else
      try_except
        (let! now := datetime_now in
         let user_data := JObj
           [ ("canva_user_id", canva_user_id);
             ("workspace_id", workspace_id);
             ("client_id", client_id);
             ("client_secret", client_secret);
             ("login_token", login_token);
             ("token_timestamp", JStr (isoformat now));
             ("token_expires_in", JInt expires_in) ] in
         let filename := filename_of canva_user_id in
         let! _ := put_object filename (json_dumps user_data) in
         ret true)
        (fun _ => ret false) w.

(** The result is the decoded document, or [JNull] for Python's None. *)
Definition get_user_credentials (canva_user_id : value) : Py value :=
  fun w =>
    if negb (s3_client w) then (inr JNull, w)
    else
      try_except
        (let filename := filename_of canva_user_id in
         let! content := get_object filename in
         let! user_data :=
           lift (match json_loads content with
                 | Some v => inr v
                 | None => inl ValueError
                 end) in
         ret user_data)
        (fun _ => ret JNull) w.

Definition update_user_credentials (canva_user_id updated_data : value) : Py bool :=
  fun w =>
    if negb (s3_client w) then (inr false, w)
    else
      try_except
        (let filename := filename_of canva_user_id in
         let! _ := put_object filename (json_dumps updated_data) in
         ret true)
        (fun _ => ret false) w.

Definition parse_timestamp (user_data : value) : Py Z :=
  let! ts := lift (py_index user_data "token_timestamp") in
  let! ts := lift (as_str ts) in
  lift (match fromisoformat (replace_Z ts) with
        | Some t => inr t
        | None => inl ValueError
        end).

Definition is_token_valid (user_data : value) : Py bool :=
  try_except
    (let! token_timestamp := parse_timestamp user_data in
     let! expires_in :=
       lift (py_get user_data "token_expires_in" (JInt TOKEN_EXPIRY_SECONDS)) in
     let! now := datetime_now in
     let token_age := total_seconds (now - token_timestamp) in
     let! limit := lift (as_number expires_in) in
     let is_valid := Qltb token_age (inject_Z limit) in
     (* days_remaining = (expires_in - token_age) / (24 * 60 * 60), for the
        log line: the int becomes a float *)
     let! limit_float := lift (float_of_int limit) in
     let days_remaining :=
       to_double (to_double (limit_float - token_age) / inject_Z (24 * 60 * 60)) in
     ret is_valid)
    (fun _ => ret false).

Definition login (req : request) : Py response :=
  try_except
    (let! data := get_json req in
     let! workspace_id := lift (py_get data "workspaceId" JNull) in
     let! client_id := lift (py_get data "clientId" JNull) in
     let! client_secret := lift (py_get data "clientSecret" JNull) in
     let! canva_user_id := lift (py_get data "canvaUserId" JNull) in
     if negb (forallb truthy [workspace_id; client_id; client_secret; canva_user_id])
     then ret (failure "Missing required credentials" 400)
     else
       let! signature :=
         lift (create_hmac_signature workspace_id client_id client_secret) in
       let auth_payload := auth_payload_of workspace_id client_id signature in
       let! auth_response := requests_post auth_url auth_payload in
       let '(status_code, text) := auth_response in
       if rejected status_code
       then ret (jsonify
                   [ ("success", JBool false);
                     ("error", JStr "Authentication failed with Zotok API");
                     ("details", JStr text);
                     ("status_code", JInt status_code) ] 401)
       else
         match json_loads text with
         | None =>
             ret (jsonify
                    [ ("success", JBool false);
                      ("error", JStr "Invalid JSON response from Zotok API");
                      ("details", JStr text) ] 401)
         | Some auth_data =>
             let! login_token := lift (token_or_access_token auth_data) in
             if negb (truthy login_token)
             then ret (failure "No token received from Zotok API" 401)
             else
               let! stored :=
                 store_user_credentials canva_user_id workspace_id client_id
                   client_secret login_token TOKEN_EXPIRY_SECONDS in
               if stored
               then ret (jsonify
                           [ ("success", JBool true);
                             ("token", login_token);
                             ("expires_in", JInt TOKEN_EXPIRY_SECONDS);
                             ("message",
                              JStr "Authentication successful - token valid for 28 days") ]
                           200)
               else ret (failure "Failed to store credentials" 500)
         end)
    (fun e =>
       match e with
       | RequestException => ret (failure "Network error during authentication" 500)
       | _ => ret (failure "Internal server error" 500)
       end).

Definition get_token (req : request) : Py response :=
  try_except
    (let canva_user_id := args_get "canvaUserId" (args req) in
     if missing canva_user_id
     then ret (failure "Missing canvaUserId parameter" 400)
     else
       let canva_user_id := JStr (default "" canva_user_id) in
       let! user_data := get_user_credentials canva_user_id in
       if negb (truthy user_data)
       then ret (failure "No stored credentials found" 404)
       else
         let! valid := is_token_valid user_data in
         if valid then
           let! token_timestamp := parse_timestamp user_data in
           let! expires_in :=
             lift (py_get user_data "token_expires_in" (JInt TOKEN_EXPIRY_SECONDS)) in
           let! now := datetime_now in
           let token_age := total_seconds (now - token_timestamp) in
           let! limit := lift (as_number expires_in) in
           let! limit_float := lift (float_of_int limit) in
           let remaining_seconds := to_double (limit_float - token_age) in
           let! token := lift (py_index user_data "login_token") in
           ret (jsonify
                  [ ("success", JBool true);
                    ("token", token);
                    ("remaining_seconds", JInt (Qtrunc remaining_seconds)) ] 200)
         else ret (failure "Stored token has expired" 401))
    (fun _ => ret (failure "Error retrieving token" 500)).

Definition refresh_token (req : request) : Py response :=
  try_except
    (let! data := get_json req in
     let! canva_user_id := lift (py_get data "canvaUserId" JNull) in
     if negb (truthy canva_user_id)
     then ret (failure "Missing canvaUserId" 400)
     else
       let! user_data := get_user_credentials canva_user_id in
       if negb (truthy user_data)
       then ret (failure "No stored credentials found" 404)
       else
         let! workspace_id := lift (py_index user_data "workspace_id") in
         let! client_id := lift (py_index user_data "client_id") in
         let! client_secret := lift (py_index user_data "client_secret") in
         let! signature :=
           lift (create_hmac_signature workspace_id client_id client_secret) in
         let auth_payload := auth_payload_of workspace_id client_id signature in
         let! auth_response := requests_post auth_url auth_payload in
         let '(status_code, text) := auth_response in
         if rejected status_code
         then ret (jsonify
                     [ ("success", JBool false);
                       ("error", JStr "Token refresh failed");
                       ("details", JStr text);
                       ("status_code", JInt status_code) ] 401)
         else
           match json_loads text with
           | None =>
               ret (jsonify
                      [ ("success", JBool false);
                        ("error",
                         JStr "Invalid JSON response from Zotok API during refresh");
                        ("details", JStr text) ] 401)
           | Some auth_data =>
               let! new_token := lift (token_or_access_token auth_data) in
               if negb (truthy new_token)
               then ret (failure "No token received during refresh" 401)
               else
                 let! stored :=
                   store_user_credentials canva_user_id workspace_id client_id
                     client_secret new_token TOKEN_EXPIRY_SECONDS in
                 if stored
                 then ret (jsonify
                             [ ("success", JBool true);
                               ("token", new_token);
                               ("expires_in", JInt TOKEN_EXPIRY_SECONDS);
                               ("message",
                                JStr "Token refreshed successfully - valid for 28 days") ]
                             200)
                 else ret (failure "Failed to store refreshed token" 500)
           end)
    (fun _ => ret (failure "Error refreshing token" 500)).

Definition user_settings (req : request) : Py response :=
  try_except
    (match method req with
     | GET =>
         let canva_user_id := args_get "canvaUserId" (args req) in
         if missing canva_user_id
         then ret (failure "Missing canvaUserId parameter" 400)
         else
           if missing (authorization req)
           then ret (failure "Authorization header missing" 401)
           else
             let canva_user_id := JStr (default "" canva_user_id) in
             let! user_data := get_user_credentials canva_user_id in
             if negb (truthy user_data)
             then ret (failure "User data not found" 404)
             else
               let! valid := is_token_valid user_data in
               if negb valid
               then ret (failure "Token expired" 401)
               else
                 let! phone_number := lift (py_get user_data "phoneNumber" (JStr "")) in
                 ret (jsonify
                        [ ("success", JBool true);
                          ("phoneNumber", phone_number) ] 200)
     | POST =>
         let! data := get_json req in
         if negb (truthy data)
         then ret (failure "No data provided" 400)
         else
           let! canva_user_id := lift (py_get data "canvaUserId" JNull) in
           let! phone_number := lift (py_get data "phoneNumber" (JStr "")) in
           let! phone_number := lift (as_str phone_number) in
           let phone_number := strip phone_number in
           if negb (truthy canva_user_id)
           then ret (failure "Missing canvaUserId" 400)
           else
             if String.eqb phone_number ""
             then ret (failure "Phone number is required" 400)
             else
               if missing (authorization req)
               then ret (failure "Authorization header missing" 401)
               else
                 let! user_data := get_user_credentials canva_user_id in
                 if negb (truthy user_data)
                 then ret (failure "User data not found" 404)
                 else
                   let! valid := is_token_valid user_data in
                   if negb valid
                   then ret (failure "Token expired" 401)
                   else
                     let! user_data :=
                       lift (py_setitem user_data "phoneNumber" (JStr phone_number)) in
                     let! now := datetime_now in
                     let! user_data :=
                       lift (py_setitem user_data "settings_updated"
                                        (JStr (isoformat now))) in
                     let! saved := update_user_credentials canva_user_id user_data in
                     if saved
                     then ret (jsonify
                                 [ ("success", JBool true);
                                   ("message", JStr "Settings saved successfully");
                                   ("phoneNumber", JStr phone_number) ] 200)
                     else ret (failure "Failed to save settings to storage" 500)
     end)
    (fun _ => ret (failure "Internal server error" 500)).

End Service.

(** ** The two operations that call the auth API *)

Inductive operation : Type := OpLogin | OpRefresh.

Definition run (isoformat : Z -> string) (op : operation) : request -> Py response :=
  match op with
  | OpLogin => login isoformat
  | OpRefresh => refresh_token isoformat
  end.

(** [reaches_api op req w uid ws cid secret sig w0]: the request passes every
    check that precedes the call to the auth API; the credentials [ws], [cid]
    and [secret] (taken from the request by login, from the stored record by
    refresh) sign as [sig], and [w0] is the world at the time of the call. *)
Inductive reaches_api :
  operation -> request -> world -> value -> value -> value -> value -> string ->
  world -> Prop :=
| login_reaches req w data workspace_id client_id client_secret canva_user_id sig :
    json req = Some data ->
    py_get data "workspaceId" JNull = inr workspace_id ->
    py_get data "clientId" JNull = inr client_id ->
    py_get data "clientSecret" JNull = inr client_secret ->
    py_get data "canvaUserId" JNull = inr canva_user_id ->
    forallb truthy [workspace_id; client_id; client_secret; canva_user_id] = true ->
    create_hmac_signature workspace_id client_id client_secret = inr sig ->
    reaches_api OpLogin req w canva_user_id workspace_id client_id client_secret sig w
| refresh_reaches req w data user_data workspace_id client_id client_secret
                  canva_user_id sig :
    json req = Some data ->
    py_get data "canvaUserId" JNull = inr canva_user_id ->
    truthy canva_user_id = true ->
    fst (get_user_credentials canva_user_id w) = inr user_data ->
    truthy user_data = true ->
    py_index user_data "workspace_id" = inr workspace_id ->
    py_index user_data "client_id" = inr client_id ->
    py_index user_data "client_secret" = inr client_secret ->
    create_hmac_signature workspace_id client_id client_secret = inr sig ->
    reaches_api OpRefresh req w canva_user_id workspace_id client_id client_secret sig
      (log (S3Get (filename_of canva_user_id)) w).

(** The error messages in which the two handlers differ. *)
Definition rejected_message (op : operation) : string :=
  match op with
  | OpLogin => "Authentication failed with Zotok API"
  | OpRefresh => "Token refresh failed"
  end.

Definition invalid_json_message (op : operation) : string :=
  match op with
  | OpLogin => "Invalid JSON response from Zotok API"
  | OpRefresh => "Invalid JSON response from Zotok API during refresh"
  end.

Definition no_token_message (op : operation) : string :=
  match op with
  | OpLogin => "No token received from Zotok API"
  | OpRefresh => "No token received during refresh"
  end.

Definition store_failed_message (op : operation) : string :=
  match op with
  | OpLogin => "Failed to store credentials"
  | OpRefresh => "Failed to store refreshed token"
  end.

Definition stored_message (op : operation) : string :=
  match op with
  | OpLogin => "Authentication successful - token valid for 28 days"
  | OpRefresh => "Token refreshed successfully - valid for 28 days"
  end.

Definition exception_message (op : operation) : string :=
  match op with
  | OpLogin => "Internal server error"
  | OpRefresh => "Error refreshing token"
  end.

(** The record that both operations write. *)
Definition credentials_record (isoformat : Z -> string)
    (canva_user_id workspace_id client_id client_secret login_token : value)
    (now : Z) : value :=
  JObj [ ("canva_user_id", canva_user_id);
         ("workspace_id", workspace_id);
         ("client_id", client_id);
         ("client_secret", client_secret);
         ("login_token", login_token);
         ("token_timestamp", JStr (isoformat now));
         ("token_expires_in", JInt TOKEN_EXPIRY_SECONDS) ].

(** The specification's reading of the token lookup: an ordered list of
    candidate field names, tried in sequence; the first truthy value wins,
    and the last candidate's value (None when absent) is what remains. *)
Fixpoint try_candidates (names : list string) (fields : list (string * value))
  : value :=
  match names with
  | [] => JNull
  | [name] => default JNull (dict_lookup name fields)
  | name :: rest =>
      let v := default JNull (dict_lookup name fields) in
      if truthy v then v else try_candidates rest fields
  end.

(** A stub of the auth API that answers every call alike. *)
Definition stub_api (status_code : Z) (text : string) : value -> http_result :=
  fun _ => HttpResponse status_code text.

(** ** A platform instance for concrete runs

    [datetime.isoformat] of a UTC instant and the reading of that same
    format, [YYYY-MM-DDTHH:MM:SS[.ffffff]+00:00]. The properties below hold
    for every pair of conversions; this one instantiates them on examples. *)

Definition usec_per_day : Z := 86400 * 1000000.

(** The civil date of a day number counted from 1970-01-01. *)
Definition civil_from_days (days : Z) : Z * Z * Z :=
  let z := days + 719468 in
  let era := z / 146097 in
  let doe := z mod 146097 in
  let yoe := (doe - doe / 1460 + doe / 36524 - doe / 146096) / 365 in
  let doy := doe - (365 * yoe + yoe / 4 - yoe / 100) in
  let mp := (5 * doy + 2) / 153 in
  let d := doy - (153 * mp + 2) / 5 + 1 in
  let m := if mp <? 10 then mp + 3 else mp - 9 in
  let y := yoe + era * 400 + (if m <=? 2 then 1 else 0) in
  (y, m, d).

Definition days_from_civil (y m d : Z) : Z :=
  let y := if m <=? 2 then y - 1 else y in
  let era := y / 400 in
  let yoe := y mod 400 in
  let doy := (153 * (if 2 <? m then m - 3 else m + 9) + 2) / 5 + d - 1 in
  let doe := yoe * 365 + yoe / 4 - yoe / 100 + doy in
  era * 146097 + doe - 719468.

Fixpoint pad_digits (width : nat) (n : Z) (acc : list ascii) : list ascii :=
  match width with
  | O => acc
  | S width' => pad_digits width' (n / 10) (hex_digit (n mod 10) :: acc)
  end.

Definition utc_isoformat (t : Z) : string :=
  let '(y, m, d) := civil_from_days (t / usec_per_day) in
  let us := t mod usec_per_day in
  let secs := us / 1000000 in
  let frac := us mod 1000000 in
  string_of_list_ascii
    (pad_digits 4 y [] ++ "-"%char :: pad_digits 2 m [] ++ "-"%char :: pad_digits 2 d []
       ++ "T"%char :: pad_digits 2 (secs / 3600) []
       ++ ":"%char :: pad_digits 2 (secs / 60 mod 60) []
       ++ ":"%char :: pad_digits 2 (secs mod 60) []
       ++ (if frac =? 0 then [] else "."%char :: pad_digits 6 frac [])
       ++ chars "+00:00").

(** [n] decimal digits at the head of the text. *)
Fixpoint read_digits (n : nat) (acc : Z) (s : list ascii) : option (Z * list ascii) :=
  match n with
  | O => Some (acc, s)
  | S n' =>
      match s with
      | c :: r =>
          if (0x30 <=? code c) && (code c <=? 0x39)
          then read_digits n' (acc * 10 + (code c - 0x30)) r
          else None
      | [] => None
      end
  end.

Definition expect (c : ascii) (s : list ascii) : option (list ascii) :=
  match s with
  | c' :: r => if Ascii.eqb c c' then Some r else None
  | [] => None
  end.

Definition utc_fromisoformat (text : string) : option Z :=
  '(y, s) ← read_digits 4 0 (chars text);
  s ← expect "-" s;
  '(m, s) ← read_digits 2 0 s;
  s ← expect "-" s;
  '(d, s) ← read_digits 2 0 s;
  s ← expect "T" s;
  '(hh, s) ← read_digits 2 0 s;
  s ← expect ":" s;
  '(mm, s) ← read_digits 2 0 s;
  s ← expect ":" s;
  '(ss, s) ← read_digits 2 0 s;
  '(frac, s) ← match expect "." s with
                | Some s' => read_digits 6 0 s'
                | None => Some (0, s)
                end;
  if (1 <=? y) && (1 <=? m) && (m <=? 12) && (1 <=? d)
     && (days_from_civil y m d + 1 <=? days_from_civil (y + m / 12) (m mod 12 + 1) 1)
     && (hh <? 24) && (mm <? 60) && (ss <? 60)
     && bool_decide (s = chars "+00:00")
  then Some ((((days_from_civil y m d * 24 + hh) * 60 + mm) * 60 + ss) * 1000000 + frac)
  else None.


(** ** Concrete requests and worlds for the examples *)

Definition example_login_request : request :=
  Request POST [] None
    (Some (JObj [ ("workspaceId", JStr "w1");
                  ("clientId", JStr "c1");
                  ("clientSecret", JStr "s1");
                  ("canvaUserId", JStr "u1") ])).

Definition example_refresh_request : request :=
  Request POST [] None (Some (JObj [ ("canvaUserId", JStr "u1") ])).

(** A record as login and a later settings update leave it. *)
Definition example_record : value :=
  JObj [ ("canva_user_id", JStr "u1");
         ("workspace_id", JStr "w1");
         ("client_id", JStr "c1");
         ("client_secret", JStr "s1");
         ("login_token", JStr "tok123");
         ("token_timestamp", JStr "2024-11-03T20:00:00+00:00");
         ("token_expires_in", JInt 2419200);
         ("phoneNumber", JStr "+15550100");
         ("settings_updated", JStr "2024-11-03T20:05:00+00:00") ].

(** 2024-11-03 21:00 UTC, an hour after the example record was written. *)
Definition example_now : Z := 1730667600000000.

Definition empty_world (api : value -> http_result) : world :=
  World true true ∅ example_now api [].

Definition example_world (api : value -> http_result) : world :=
  World true true {[ "canva-catalog-app/u1.json" := json_dumps example_record ]}
        example_now api [].

(** A world whose blob-store client failed to initialise. *)
Definition unavailable_world (api : value -> http_result) : world :=
  World false true {[ "canva-catalog-app/u1.json" := json_dumps example_record ]}
        example_now api [].

Definition example_token_request : request :=
  Request GET [("canvaUserId", "u1")] None None.

Definition set_phone_request (canva_user_id phone_number : string) : request :=
  Request POST [] (Some "Bearer tok123")
    (Some (JObj [ ("canvaUserId", JStr canva_user_id);
                  ("phoneNumber", JStr phone_number) ])).

(** ** Variations of a world or a request, for stating what does not matter *)

(** The same world at another time. *)
Definition with_clock (t : Z) (w : world) : world :=
  World (s3_client w) (s3_up w) (bucket w) t (zotok w) (trace w).

(** The same request under another Authorization header. *)
Definition with_authorization (a : option string) (req : request) : request :=
  Request (method req) (args req) a (json req).

(** A settings query for a user. *)
Definition get_phone_request (canva_user_id : string) (a : option string) : request :=
  Request GET [("canvaUserId", canva_user_id)] a None.

(** The response of both operations when the new token is stored. *)
Definition stored_response (op : operation) (login_token : value) : response :=
  jsonify [ ("success", JBool true);
            ("token", login_token);
            ("expires_in", JInt TOKEN_EXPIRY_SECONDS);
            ("message", JStr (stored_message op)) ] 200.

(** The response of [get_token] for a token with [remaining] seconds left. *)
Definition token_response (login_token : value) (remaining : Z) : response :=
  jsonify [ ("success", JBool true);
            ("token", login_token);
            ("remaining_seconds", JInt remaining) ] 200.

(** The fields of [example_record]. *)
Definition example_fields : list (string * value) :=
  match example_record with
  | JObj d => d
  | _ => []
  end.

(** ** Strings, headers and responses of the remaining endpoints *)

(** [str.lower] on U+0000..U+00FF: the letters A-Z and the capital letters
    of U+00C0..U+00DE, the multiplication sign U+00D7 apart. *)
Definition lower_char (c : ascii) : ascii :=
  let n := code c in
  if ((0x41 <=? n) && (n <=? 0x5a))
     || ((0xc0 <=? n) && (n <=? 0xde) && negb (n =? 0xd7))
  then char_of_code (n + 32)
  else c.

Definition lower (s : string) : string :=
  string_of_list_ascii (map lower_char (chars s)).

Fixpoint starts_with (prefix s : list ascii) : bool :=
  match prefix, s with
  | [], _ => true
  | a :: prefix', b :: s' => Ascii.eqb a b && starts_with prefix' s'
  | _ :: _, [] => false
  end.

(** [s.endswith(suffix)] *)
Definition endswith (s suffix : string) : bool :=
  starts_with (rev (chars suffix)) (rev (chars s)).

(** [needle in s] for two strs: [needle] occurs somewhere in [s]. *)
Fixpoint contains (needle s : list ascii) : bool :=
  starts_with needle s
  || match s with
     | [] => false
     | _ :: s' => contains needle s'
     end.

(** [k in data] for a str [k]: a key of a dict, an element of a list, a
    substring of a str; any other operand is not iterable. *)
Definition py_in (k : string) (data : value) : exn + bool :=
  match data with
  | JObj d => inr (match dict_lookup k d with Some _ => true | None => false end)
  | JArr items =>
      inr (existsb (fun v => match v with
                             | JStr s => String.eqb k s
                             | _ => false
                             end) items)
  | JStr s => inr (contains (chars k) (chars s))
  | _ => inl TypeError
  end.

(** [len(v)] *)
Definition py_len (v : value) : exn + Z :=
  match v with
  | JStr s => inr (Z.of_nat (String.length s))
  | JArr items => inr (Z.of_nat (length items))
  | JObj d => inr (Z.of_nat (length d))
  | _ => inl TypeError
  end.

(** [int(s)] for a str. Blanks around the literal are skipped (the
    whitespace of [str.isspace] but for U+001C..U+001F, which [int] does
    not accept); then an optional sign and decimal digits, single
    underscores allowed between digits. More than [int_max_str_digits]
    digits are refused, as CPython does at its default setting. *)
Definition int_max_str_digits : nat := 4300.

Definition is_int_space (c : ascii) : bool :=
  let n := code c in
  ((9 <=? n) && (n <=? 13)) || (n =? 0x20) || (n =? 0x85) || (n =? 0xa0).

Fixpoint int_lstrip (s : list ascii) : list ascii :=
  match s with
  | c :: s' => if is_int_space c then int_lstrip s' else s
  | [] => []
  end.

Definition digit_value (c : ascii) : option Z :=
  let n := code c in
  if (48 <=? n) && (n <=? 57) then Some (n - 48) else None.

Fixpoint int_digits (acc : Z) (count : nat) (s : list ascii) : option (Z * nat) :=
  match s with
  | [] => Some (acc, count)
  | c :: r =>
      match digit_value c with
      | Some d => int_digits (acc * 10 + d) (S count) r
      | None =>
          if Ascii.eqb c "_" then
            match r with
            | c' :: _ =>
                match digit_value c' with
                | Some _ => int_digits acc count r
                | None => None
                end
            | [] => None
            end
          else None
      end
  end.

Definition int_of_str (s : string) : exn + Z :=
  let cs := rev (int_lstrip (rev (int_lstrip (chars s)))) in
  let '(neg, ds) :=
    match cs with
    | c :: r =>
        if Ascii.eqb c "-" then (true, r)
        else if Ascii.eqb c "+" then (false, r)
        else (false, cs)
    | [] => (false, cs)
    end in
  match ds with
  | c :: _ =>
      match digit_value c, int_digits 0 0 ds with
      | Some _, Some (n, count) =>
          if (count <=? int_max_str_digits)%nat
          then inr (if neg then - n else n)
          else inl ValueError
      | _, _ => inl ValueError
      end
  | [] => inl ValueError
  end.

(** [base64.b64encode]: three bytes give four characters of the standard
    alphabet; a last group of one or two bytes is padded with [=]. *)
Definition b64_alphabet : list ascii :=
  chars "ABCDEFGHIJKLMNOPQRSTUVWXYZabcdefghijklmnopqrstuvwxyz0123456789+/".

Definition b64_char (i : Z) : ascii := nth (Z.to_nat i) b64_alphabet "="%char.

Fixpoint b64_chars (bs : list Z) : list ascii :=
  match bs with
  | a :: b :: c :: rest =>
      b64_char (a / 4) :: b64_char (a mod 4 * 16 + b / 16)
      :: b64_char (b mod 16 * 4 + c / 64) :: b64_char (c mod 64)
      :: b64_chars rest
  | [a; b] =>
      [b64_char (a / 4); b64_char (a mod 4 * 16 + b / 16);
       b64_char (b mod 16 * 4); "="%char]
  | [a] => [b64_char (a / 4); b64_char (a mod 4 * 16); "="%char; "="%char]
  | [] => []
  end.

Definition b64encode (bs : list Z) : string := string_of_list_ascii (b64_chars bs).

(** Response headers. Names are compared without regard to case, as
    werkzeug's [Headers] does: the map is keyed by the lower-cased name.
    Assigning a header replaces its value. *)
Definition headers : Type := gmap string string.

Definition header_set (name v : string) (h : headers) : headers :=
  <[lower name := v]> h.

Definition header_get (name : string) (h : headers) : option string :=
  h !! lower name.

(** A response with its headers: a JSON document or raw bytes. *)
Inductive content : Type :=
| JsonContent (fields : list (string * value))
| RawContent (data : list Z).

Record flask_response : Type := FlaskResponse {
  response_status : Z;
  response_headers : headers;
  response_content : content
}.

Definition set_header (name v : string) (r : flask_response) : flask_response :=
  FlaskResponse (response_status r) (header_set name v (response_headers r))
                (response_content r).

(** What [jsonify(...), status] becomes when Flask builds the response. *)
Definition make_response (r : response) : flask_response :=
  FlaskResponse (status r) (header_set "Content-Type" "application/json" ∅)
                (JsonContent (body r)).

(** ** The CORS hooks *)

(** The two lists that [after_request] and [handle_preflight] each define. *)
Definition allowed_origins : list string :=
  [ "https://app-aagune4gw3o.canva-apps.com";
    "https://localhost:8080";
    "http://localhost:8080" ].

Definition allowed_domains : list string :=
  [ ".canva.com"; ".canva-apps.com"; ".devtunnels.ms" ].

(** [origin in allowed_origins or any(origin.endswith(domain) ...)] *)
Definition origin_allowed (origin : string) : bool :=
  existsb (String.eqb origin) allowed_origins
  || existsb (endswith origin) allowed_domains.

(** [after_request]; [origin] is [request.headers.get('Origin')]. *)
Definition after_request (origin : option string) (response : flask_response)
  : flask_response :=
  let response :=
    if negb (missing origin) then
      if origin_allowed (default "" origin) then
        set_header "Access-Control-Allow-Credentials" "true"
          (set_header "Access-Control-Allow-Origin" (default "" origin) response)
      else response
    else response in
  let response :=
    set_header "Access-Control-Allow-Methods" "GET, POST, OPTIONS, PUT, DELETE"
               response in
  let response :=
    set_header "Access-Control-Allow-Headers"
               "Content-Type, Authorization, X-Requested-With, Accept, Origin"
               response in
  set_header "Access-Control-Max-Age" "3600" response.

(** [handle_preflight]: None when the hook returns nothing and the request
    goes on to its view. *)
Definition handle_preflight (method : string) (origin : option string)
  : option flask_response :=
  if String.eqb method "OPTIONS" then
    let response := make_response (jsonify [("status", JStr "OK")] 200) in
    let response :=
      if negb (missing origin) then
        if origin_allowed (default "" origin) then
          set_header "Access-Control-Allow-Credentials" "true"
            (set_header "Access-Control-Allow-Origin" (default "" origin) response)
        else response
      else response in
    let response :=
      set_header "Access-Control-Allow-Methods" "GET, POST, OPTIONS, PUT, DELETE"
                 response in
    let response :=
      set_header "Access-Control-Allow-Headers"
                 "Content-Type, Authorization, X-Requested-With, Accept, Origin"
                 response in
    Some (set_header "Access-Control-Max-Age" "3600" response)
  else None.

(** ** Outbound GET requests *)

(** [requests.get(url, headers=..., params=...)] as the call that leaves
    the process, and what comes back: an exception of [requests] with its
    text, or a response. [reply_raw] is the undecoded stream [resp.raw]. *)
Record get_call : Type := GetCall {
  get_url : string;
  get_headers : list (string * string);
  get_params : list (string * string)
}.

Record get_reply : Type := GetReply {
  reply_status : Z;
  reply_content_type : option string;
  reply_content : list Z;
  reply_raw : list Z;
  reply_text : string
}.

Inductive get_result : Type :=
| GetFailed (message : string)
| GetAnswered (reply : get_reply).

Definition products_url : string :=
  ZOTOK_API_BASE_URL +:+ "/hub/mdm-integration/v1/api/products".

Definition zotok_headers (auth_header : string) : list (string * string) :=
  [ ("Authorization", auth_header); ("Content-Type", "application/json") ].

(** The query of [proxy_products]: [page] and [limit] with their defaults,
    [search] and [category] only when they are not empty. *)
Definition products_params (args : list (string * string))
  : list (string * string) :=
  let page := default "1" (args_get "page" args) in
  let limit := default "20" (args_get "limit" args) in
  let search := default "" (args_get "search" args) in
  let category := default "" (args_get "category" args) in
  [("page", page); ("limit", limit)]
  ++ (if negb (String.eqb search "") then [("search", search)] else [])
  ++ (if negb (String.eqb category "") then [("category", category)] else []).

Section Proxy.

(** [urllib.parse.urlparse] on a str, as (scheme, netloc, path), None when
    it raises; [urllib.parse.unquote]; [str(e)] of an exception raised inside
    the process; the text of the [HTTPError] of [raise_for_status];
    and the outside world that answers a GET. *)
Variable urlparse : string -> option (string * string * string).
Variable unquote : string -> string.
Variable describe : exn -> string.
Variable http_error_text : get_reply -> string.
Variable web : get_call -> get_result.

(** [is_valid_image_url]. Of what is not a str, [urlparse] makes an empty
    bytes result or an exception: False either way. *)
Definition is_valid_image_url (url : value) : bool :=
  match url with
  | JStr s =>
      match urlparse s with
      | Some (scheme, netloc, path) =>
          if negb (existsb (String.eqb scheme) ["http"; "https"]) then false
          else if String.eqb netloc "" then false
          else
            let path := lower path in
            let image_extensions :=
              [".jpg"; ".jpeg"; ".png"; ".gif"; ".bmp"; ".webp"; ".svg"] in
            let has_image_ext := existsb (endswith path) image_extensions in
            let trusted_domains :=
              ["api-qa.zono.digital"; "images-qa.zono.digital";
               "images.unsplash.com"; "cdn.shopify.com"; "example.com"] in
            let is_trusted :=
              existsb (fun domain => contains (chars domain) (chars netloc))
                      trusted_domains in
            has_image_ext || is_trusted
      | None => false
      end
  | _ => false
  end.

(** [proxy_image]; [url] is [request.args.get("url")]. Only a
    [RequestException] is caught, and nothing else is raised. *)
Definition proxy_image (url : option string) : flask_response * list get_call :=
  if missing url then
    (make_response (jsonify [("error", JStr "Missing image URL")] 400), [])
  else
    let image_url := unquote (default "" url) in
    let call := GetCall image_url [("User-Agent", "Mozilla/5.0")] [] in
    let failed message :=
      make_response
        (jsonify [("error", JStr ("Image fetch failed: " +:+ message))] 400) in
    match web call with
    | GetFailed message => (failed message, [call])
    | GetAnswered resp =>
        if (400 <=? reply_status resp) && (reply_status resp <? 600) then
          (failed (http_error_text resp), [call])
        else
          let content_type := default "image/jpeg" (reply_content_type resp) in
          (FlaskResponse (reply_status resp)
             (header_set "Cache-Control" "public, max-age=3600"
                (header_set "Access-Control-Allow-Origin" "*"
                   (header_set "Content-Type" content_type ∅)))
             (RawContent (reply_raw resp)),
           [call])
    end.

(** [proxy_image_base64]; [data] is [request.get_json()], None when it
    raises. [requests.get] refuses a URL that is not a str before anything
    is sent. *)
Definition proxy_image_base64 (data : option value) : response * list get_call :=
  let conversion_error e :=
    failure ("Base64 conversion error: " +:+ describe e) 500 in
  match data with
  | None => (conversion_error ValueError, [])
  | Some data =>
      if negb (truthy data) then (failure "Missing url in request body" 400, [])
      else
        match py_in "url" data with
        | inl e => (conversion_error e, [])
        | inr false => (failure "Missing url in request body" 400, [])
        | inr true =>
            match py_index data "url" with
            | inl e => (conversion_error e, [])
            | inr image_url =>
                if negb (is_valid_image_url image_url) then
                  (failure "Invalid or unsafe image URL" 400, [])
                else
                  match image_url with
                  | JStr u =>
                      let call :=
                        GetCall u [("User-Agent", "ZotokCanvaApp/1.0");
                                   ("Accept", "image/*")] [] in
                      match web call with
                      | GetFailed message =>
                          (failure ("Network error: " +:+ message) 500, [call])
                      | GetAnswered resp =>
                          if negb (reply_status resp =? 200) then
                            (failure ("Failed to fetch image: HTTP "
                                      +:+ py_str (JInt (reply_status resp))) 404,
                             [call])
                          else
                            let image_data := reply_content resp in
                            let content_type :=
                              default "image/jpeg" (reply_content_type resp) in
                            let base64_data := b64encode image_data in
                            let data_url :=
                              "data:" +:+ content_type +:+ ";base64,"
                              +:+ base64_data in
                            (jsonify
                               [ ("success", JBool true);
                                 ("data_url", JStr data_url);
                                 ("content_type", JStr content_type);
                                 ("size", JInt (Z.of_nat (length image_data))) ]
                               200,
                             [call])
                      end
                  | _ =>
                      (failure ("Network error: " +:+ describe RequestException) 500,
                       [])
                  end
            end
        end
  end.

(** [proxy_products]; [auth_header] is the Authorization header and [args]
    the query string. The status of the upstream answer is not looked at.
    [len(products_array)] is first evaluated for a log line, before
    [int(page)]; the inner handler catches the [ValueError] of
    [response.json()] and of [int], the outer one everything else. *)
Definition proxy_products (auth_header : option string)
    (args : list (string * string)) : response * list get_call :=
  if missing auth_header then (failure "Authorization header missing" 401, [])
  else
    let auth_header := default "" auth_header in
    let page := default "1" (args_get "page" args) in
    let limit := default "20" (args_get "limit" args) in
    let call :=
      GetCall products_url (zotok_headers auth_header) (products_params args) in
    let internal := failure "Internal server error" 500 in
    match web call with
    | GetFailed _ => (failure "Network error connecting to Zotok API" 500, [call])
    | GetAnswered resp =>
        let invalid :=
          jsonify [ ("success", JBool false);
                    ("error", JStr "Invalid response from Zotok API");
                    ("details", JStr (reply_text resp)) ] 500 in
        match json_loads (reply_text resp) with
        | None => (invalid, [call])
        | Some response_data =>
            let products_array :=
              match response_data with
              | JArr _ => response_data
              | JObj d =>
                  match dict_lookup "products" d with
                  | Some products => products
                  | None =>
                      match dict_lookup "data" d with
                      | Some products => products
                      | None => JArr []
                      end
                  end
              | _ => JArr []
              end in
            match py_len products_array with
            | inl _ => (internal, [call])
            | inr total =>
                match int_of_str page with
                | inl _ => (invalid, [call])
                | inr page =>
                    match int_of_str limit with
                    | inl _ => (invalid, [call])
                    | inr limit =>
                        (jsonify
                           [ ("success", JBool true);
                             ("data",
                              JObj [ ("products", products_array);
                                     ("page", JInt page);
                                     ("limit", JInt limit);
                                     ("total", JInt total) ]) ]
                           200,
                         [call])
                    end
                end
            end
        end
    end.

(** [proxy_product_detail]. An answer other than 200 is passed on with its
    status. The error of [response.json()] on a 200 answer is, in the
    current [requests], a [RequestException]. *)
Definition proxy_product_detail (auth_header : option string)
    (product_id : string) : response * list get_call :=
  if missing auth_header then (failure "Authorization header missing" 401, [])
  else
    let auth_header := default "" auth_header in
    let call :=
      GetCall (products_url +:+ "/" +:+ product_id) (zotok_headers auth_header) [] in
    match web call with
    | GetFailed _ => (failure "Network error connecting to Zotok API" 500, [call])
    | GetAnswered resp =>
        if reply_status resp =? 200 then
          match json_loads (reply_text resp) with
          | Some product_data =>
              (jsonify [("success", JBool true); ("data", product_data)] 200,
               [call])
          | None =>
              (failure "Network error connecting to Zotok API" 500, [call])
          end
        else
          (jsonify
             [ ("success", JBool false);
               ("error",
                JStr ("Product not found or API error: "
                      +:+ py_str (JInt (reply_status resp))));
               ("details", JStr (reply_text resp)) ]
             (reply_status resp),
           [call])
    end.

(** [test_zotok_connection] *)
Definition test_zotok_connection (auth_header : option string)
  : response * list get_call :=
  if missing auth_header then (failure "Authorization header missing" 401, [])
  else
    let auth_header := default "" auth_header in
    let call := GetCall products_url (zotok_headers auth_header) [("limit", "1")] in
    match web call with
    | GetFailed _ => (failure "Failed to connect to Zotok API" 500, [call])
    | GetAnswered resp =>
        (jsonify
           [ ("success", JBool true);
             ("status_code", JInt (reply_status resp));
             ("response_size", JInt (Z.of_nat (String.length (reply_text resp))));
             ("content_type",
              match reply_content_type resp with
              | Some t => JStr t
              | None => JNull
              end);
             ("message", JStr "Connection to Zotok API successful") ]
           200,
         [call])
    end.

End Proxy.

(** Instances for the examples: a parser for URLs of the plain form
    [scheme://netloc/path], and an image server. *)
Fixpoint split_on (sep s : list ascii) : option (list ascii * list ascii) :=
  if starts_with sep s then Some ([], drop (length sep) s)
  else
    match s with
    | [] => None
    | c :: s' =>
        match split_on sep s' with
        | Some (a, b) => Some (c :: a, b)
        | None => None
        end
    end.

Fixpoint span_until (stop : list ascii) (s : list ascii) : list ascii * list ascii :=
  match s with
  | [] => ([], [])
  | c :: s' =>
      if existsb (Ascii.eqb c) stop then ([], s)
      else let '(a, b) := span_until stop s' in (c :: a, b)
  end.

Definition plain_urlparse (s : string) : option (string * string * string) :=
  match split_on (chars "://") (chars s) with
  | Some (scheme, rest) =>
      let '(netloc, rest') := span_until (chars "/?#") rest in
      let '(path, _) := span_until (chars "?#;") rest' in
      Some (lower (string_of_list_ascii scheme), string_of_list_ascii netloc,
            string_of_list_ascii path)
  | None => Some ("", "", s)
  end.

Definition png_reply : get_reply :=
  GetReply 200 (Some "image/png") [137; 80; 78; 71] [137; 80; 78; 71] "".

Definition image_server (answer : get_reply) : get_call -> get_result :=
  fun _ => GetAnswered answer.

(** The decoding that undoes [b64_chars], to state that the encoding loses
    nothing. *)
Fixpoint index_of (c : ascii) (l : list ascii) (i : Z) : option Z :=
  match l with
  | [] => None
  | x :: l' => if Ascii.eqb c x then Some i else index_of c l' (i + 1)
  end.

Definition b64_index (c : ascii) : option Z := index_of c b64_alphabet 0.

Fixpoint b64_bytes (cs : list ascii) : option (list Z) :=
  match cs with
  | [] => Some []
  | c0 :: c1 :: c2 :: c3 :: rest =>
      match b64_index c0, b64_index c1 with
      | Some i0, Some i1 =>
          let a := i0 * 4 + i1 / 16 in
          match b64_index c2 with
          | None => Some [a]
          | Some i2 =>
              let b := i1 mod 16 * 16 + i2 / 4 in
              match b64_index c3 with
              | None => Some [a; b]
              | Some i3 =>
                  match b64_bytes rest with
                  | Some bs => Some (a :: b :: (i2 mod 4 * 64 + i3) :: bs)
                  | None => None
                  end
              end
          end
      | _, _ => None
      end
  | _ => None
  end.

Definition is_byte (b : Z) : Prop := 0 <= b < 256.

Definition json_reply (status_code : Z) (text : string) : get_reply :=
  GetReply status_code (Some "application/json") [] [] text.

(* ==== Properties ==== *)

(** ** json.loads after json.dumps *)

Lemma chars_of_string (l : list ascii) : chars (string_of_list_ascii l) = l.
Proof. apply list_ascii_of_string_of_list_ascii. Qed.

Lemma string_of_chars (s : string) : string_of_list_ascii (chars s) = s.
Proof. apply string_of_list_ascii_of_string. Qed.

Lemma scanstring_escape_char (c : ascii) (tail : list ascii) :
  scanstring (escape_char c ++ tail) = cons_char c (scanstring tail).
Proof.
  destruct c as [[] [] [] [] [] [] [] []]; reflexivity.
Qed.

Lemma scanstring_escaped (cs rest : list ascii) :
  scanstring (flat_map escape_char cs ++ dquote :: rest) = Some (cs, rest).
Proof.
  induction cs as [|c cs IH]; [reflexivity|].
  cbn [flat_map]. rewrite <- app_assoc, scanstring_escape_char, IH.
  reflexivity.
Qed.

Lemma value_ind' (P : value -> Prop) :
  P JNull ->
  (forall b, P (JBool b)) ->
  (forall n, P (JInt n)) ->
  (forall s, P (JStr s)) ->
  (forall items, Forall P items -> P (JArr items)) ->
  (forall members, Forall (fun kv => P (snd kv)) members -> P (JObj members)) ->
  forall v, P v.
Proof.
  intros Hnull Hbool Hint Hstr Harr Hobj.
  fix IH 1. intros [ | b | n | s | items | members].
  - exact Hnull.
  - apply Hbool.
  - apply Hint.
  - apply Hstr.
  - apply Harr. induction items as [|v items IHitems]; constructor.
    + apply IH.
    + exact IHitems.
  - apply Hobj. induction members as [|[k v] members IHmembers]; constructor.
    + apply IH.
    + exact IHmembers.
Qed.

Lemma scan_digits_uint_chars (u : Decimal.uint) (rest : list ascii) :
  stop rest = true -> scan_digits (uint_chars u ++ rest) = (u, rest).
Proof.
  intros Hstop.
  induction u; cbn [uint_chars app scan_digits]; try (cbn; rewrite IHu; reflexivity).
  destruct rest as [|c rest]; [reflexivity|].
  cbn [scan_digits]. cbn [stop] in Hstop.
  destruct (digit_of c); [discriminate|reflexivity].
Qed.

Lemma to_uint_unorm (p : positive) : Decimal.unorm (Pos.to_uint p) = Pos.to_uint p.
Proof.
  rewrite <- DecimalPos.Unsigned.to_of, DecimalPos.Unsigned.of_to. reflexivity.
Qed.

Lemma to_uint_no_leading_zero (p : positive) (u : Decimal.uint) :
  Pos.to_uint p <> Decimal.D0 u.
Proof.
  intros Hu. pose proof (to_uint_unorm p) as Hn. rewrite Hu in Hn.
  rewrite unorm_D0 in Hn.
  destruct (Decimal.uint_eq_dec u Decimal.Nil) as [->|Hnil].
  - apply (DecimalPos.Unsigned.to_uint_nonzero p). exact Hu.
  - pose proof (nb_digits_unorm u Hnil) as Hle. rewrite Hn in Hle.
    cbn in Hle. lia.
Qed.

Lemma uint_chars_head (u : Decimal.uint) :
  u <> Decimal.Nil ->
  exists c t, uint_chars u = c :: t /\ starts_number c = true /\ Ascii.eqb c "-" = false.
Proof.
  destruct u; [congruence| ..]; intros _; cbn [uint_chars];
    eexists _, _; repeat split; reflexivity.
Qed.

Lemma int_chars_head (n : Z) :
  exists c t, int_chars n = c :: t /\ starts_number c = true.
Proof.
  destruct n as [|p|p]; cbn [int_chars].
  - eexists _, _; split; reflexivity.
  - destruct (uint_chars_head (Pos.to_uint p)) as (c & t & -> & Hc & _).
    + apply DecimalPos.Unsigned.to_uint_nonnil.
    + eexists _, _; split; [reflexivity|exact Hc].
  - eexists _, _; split; reflexivity.
Qed.

Lemma scan_number_uint (p : positive) (neg : bool) (rest : list ascii) :
  stop rest = true ->
  (let '(u, r) := scan_digits (uint_chars (Pos.to_uint p) ++ rest) in
   let float_follows :=
     match r with
     | c :: _ => Ascii.eqb c "." || Ascii.eqb c "e" || Ascii.eqb c "E"
     | [] => false
     end in
   match u with
   | Decimal.Nil => None
   | Decimal.D0 (Decimal.Nil) =>
       if float_follows then None else Some (JInt 0, r)
   | Decimal.D0 _ => None
   | _ =>
       if float_follows then None
       else
         let n := Z.of_N (N.of_uint u) in
         Some (JInt (if neg then - n else n), r)
   end) = Some (JInt (if neg then Zneg p else Zpos p), rest).
Proof.
  intros Hstop. rewrite scan_digits_uint_chars by exact Hstop.
  assert (Hff : match rest with
                | c :: _ => Ascii.eqb c "." || Ascii.eqb c "e" || Ascii.eqb c "E"
                | [] => false
                end = false).
  { destruct rest as [|c rest]; [reflexivity|]. cbn [stop] in Hstop.
    destruct (digit_of c); [discriminate|].
    apply negb_true_iff in Hstop. exact Hstop. }
  pose proof (DecimalPos.Unsigned.of_to p) as Hof.
  pose proof (DecimalPos.Unsigned.to_uint_nonnil p) as Hnil.
  pose proof (to_uint_no_leading_zero p) as Hlz.
  unfold N.of_uint.
  destruct (Pos.to_uint p) as [|u|u|u|u|u|u|u|u|u|u];
    [congruence | exfalso; apply (Hlz u); reflexivity | ..];
    rewrite Hff, Hof; destruct neg; reflexivity.
Qed.

Lemma scan_number_int_chars (n : Z) (rest : list ascii) :
  stop rest = true -> scan_number (int_chars n ++ rest) = Some (JInt n, rest).
Proof.
  intros Hstop. destruct n as [|p|p]; cbn [int_chars].
  - unfold scan_number. cbn [app Ascii.eqb Bool.eqb].
    change ("0"%char :: rest) with (uint_chars (Decimal.D0 Decimal.Nil) ++ rest).
    rewrite scan_digits_uint_chars by exact Hstop.
    destruct rest as [|c rest]; [reflexivity|]. cbn [stop] in Hstop.
    destruct (digit_of c); [discriminate|].
    apply negb_true_iff in Hstop. rewrite Hstop. reflexivity.
  - unfold scan_number.
    destruct (uint_chars_head (Pos.to_uint p)) as (c & t & Hct & _ & Hminus).
    { apply DecimalPos.Unsigned.to_uint_nonnil. }
    rewrite Hct. cbn [app]. rewrite Hminus. change (c :: t ++ rest) with ((c :: t) ++ rest).
    rewrite <- Hct. apply (scan_number_uint p false rest Hstop).
  - unfold scan_number. cbn [app]. change (Ascii.eqb "-" "-") with true. cbv iota.
    apply (scan_number_uint p true rest Hstop).
Qed.

Lemma scan_once_number (fuel : nat) (c : ascii) (t : list ascii) :
  starts_number c = true ->
  scan_once (S fuel) (c :: t) = scan_number (c :: t).
Proof.
  destruct c as [[] [] [] [] [] [] [] []]; intros H;
    first [discriminate H | reflexivity].
Qed.

Lemma skip_ws_starts (s : list ascii) : starts_value s = true -> skip_ws s = s.
Proof.
  destruct s as [|c s]; [reflexivity|]. cbn [starts_value skip_ws].
  destruct (is_ws c); [discriminate|reflexivity].
Qed.

Lemma dumps_chars_starts (v : value) (tail : list ascii) :
  starts_value (dumps_chars v ++ tail) = true.
Proof.
  destruct v as [ | [] | n | s | items | members]; try reflexivity.
  cbn [dumps_chars]. destruct (int_chars_head n) as (c & t & -> & Hc).
  cbn [app starts_value]. revert Hc.
  destruct c as [[] [] [] [] [] [] [] []]; intros H;
    first [discriminate H | reflexivity].
Qed.

Lemma skip_ws_space_dumps (v : value) (tail : list ascii) :
  skip_ws (" "%char :: dumps_chars v ++ tail) = dumps_chars v ++ tail.
Proof.
  cbn [skip_ws]. change (is_ws " ") with true. cbv iota.
  apply skip_ws_starts, dumps_chars_starts.
Qed.

Section decode_loops.
Variable scan : list ascii -> option (value * list ascii).

Lemma scan_items_dumps (items : list value) (n : nat) (rest : list ascii) :
  Forall (decodes_with scan) items ->
  items <> [] ->
  (length items <= n)%nat ->
  scan_items scan n (join_sep (map dumps_chars items) ++ "]"%char :: rest)
  = Some (items, rest).
Proof.
  revert n. induction items as [|v items IH]; intros n Hall Hne Hn; [congruence|].
  destruct n as [|n]; [cbn in Hn; lia|].
  apply Forall_cons in Hall as [Hv Hall].
  destruct items as [|v' items].
  - cbn [map join_sep scan_items]. rewrite Hv by reflexivity. reflexivity.
  - change (join_sep (map dumps_chars (v :: v' :: items)))
      with (dumps_chars v ++ chars ", " ++ join_sep (map dumps_chars (v' :: items))).
    rewrite <- !app_assoc. cbn [scan_items]. rewrite Hv by reflexivity.
    cbn [chars list_ascii_of_string app skip_ws].
    change (is_ws ",") with false. cbv iota.
    change (Ascii.eqb "," "]") with false. change (Ascii.eqb "," ",") with true.
    cbv iota.
    assert (Hskip : skip_ws (" "%char :: join_sep (map dumps_chars (v' :: items))
                               ++ "]"%char :: rest)
                    = join_sep (map dumps_chars (v' :: items)) ++ "]"%char :: rest).
    { destruct items as [|v'' items].
      - cbn [map join_sep]. apply skip_ws_space_dumps.
      - change (join_sep (map dumps_chars (v' :: v'' :: items)))
          with (dumps_chars v' ++ chars ", "
                  ++ join_sep (map dumps_chars (v'' :: items))).
        rewrite <- !app_assoc. apply skip_ws_space_dumps. }
    rewrite Hskip, IH; [reflexivity|exact Hall|congruence|cbn in Hn |- *; lia].
Qed.

Lemma scan_members_dumps (members : list (string * value)) (n : nat)
      (rest : list ascii) :
  Forall (fun kv => decodes_with scan (snd kv)) members ->
  members <> [] ->
  (length members <= n)%nat ->
  scan_members scan n (join_sep (map dumps_member members) ++ "}"%char :: rest)
  = Some (members, rest).
Proof.
  revert n. induction members as [|[k v] members IH]; intros n Hall Hne Hn;
    [congruence|].
  destruct n as [|n]; [cbn in Hn; lia|].
  apply Forall_cons in Hall as [Hv Hall]. cbn [snd] in Hv.
  assert (Hhead : forall tail,
    scan_members scan (S n) (dumps_member (k, v) ++ tail)
    = match skip_ws tail with
      | c' :: r4 =>
          if Ascii.eqb c' "}" then Some ([(k, v)], r4)
          else if Ascii.eqb c' "," then
            match scan_members scan n (skip_ws r4) with
            | Some (kvs, r5) => Some ((k, v) :: kvs, r5)
            | None => None
            end
          else None
      | [] => None
      end \/ stop tail = false).
  { intros tail. destruct (stop tail) eqn:Hstop; [left|right; reflexivity].
    unfold dumps_member, dumps_str. cbn [fst snd]. rewrite <- !app_assoc.
    cbn [app scan_members]. change (Ascii.eqb dquote dquote) with true. cbv iota.
    rewrite <- app_assoc. cbn [app]. rewrite scanstring_escaped.
    cbn [chars list_ascii_of_string app skip_ws].
    change (is_ws ":") with false. cbv iota.
    change (Ascii.eqb ":" ":") with true. cbv iota.
    rewrite skip_ws_space_dumps, Hv by exact Hstop.
    fold (chars k). rewrite string_of_chars. reflexivity. }
  destruct members as [|kv' members].
  - cbn [map join_sep]. destruct (Hhead ("}"%char :: rest)) as [->|H];
      [reflexivity|discriminate H].
  - change (join_sep (map dumps_member ((k, v) :: kv' :: members)))
      with (dumps_member (k, v) ++ chars ", "
              ++ join_sep (map dumps_member (kv' :: members))).
    rewrite <- !app_assoc.
    destruct (Hhead (chars ", " ++ join_sep (map dumps_member (kv' :: members))
                       ++ "}"%char :: rest)) as [->|H]; [|discriminate H].
    cbn [chars list_ascii_of_string app skip_ws].
    change (is_ws ",") with false. cbv iota.
    change (Ascii.eqb "," "}") with false. change (Ascii.eqb "," ",") with true.
    cbv iota. cbn [skip_ws]. change (is_ws " ") with true. cbv iota.
    assert (Hskip : skip_ws (join_sep (map dumps_member (kv' :: members))
                               ++ "}"%char :: rest)
                    = join_sep (map dumps_member (kv' :: members)) ++ "}"%char :: rest).
    { apply skip_ws_starts. destruct members; reflexivity. }
    rewrite Hskip, IH; [reflexivity|exact Hall|congruence|cbn in Hn |- *; lia].
Qed.
End decode_loops.

Lemma dict_set_fresh (k : string) (v : value) (d : list (string * value)) :
  existsb (String.eqb k) (map fst d) = false -> dict_set k v d = d ++ [(k, v)].
Proof.
  induction d as [|[k' v'] d IH]; [reflexivity|].
  cbn [map fst existsb dict_set app]. intros H.
  apply orb_false_iff in H as [Hk Hd]. rewrite Hk, IH by exact Hd. reflexivity.
Qed.

Lemma nodup_keys_app_fresh (xs ys : list string) (k : string) :
  nodup_keys (xs ++ k :: ys) = true -> existsb (String.eqb k) xs = false.
Proof.
  induction xs as [|x xs IH]; [reflexivity|].
  cbn [app nodup_keys existsb]. intros H.
  apply andb_true_iff in H as [Hx Hxs]. apply negb_true_iff in Hx.
  rewrite existsb_app in Hx. apply orb_false_iff in Hx as [_ Hx].
  cbn [existsb] in Hx. apply orb_false_iff in Hx as [Hx _].
  rewrite String.eqb_sym, Hx. cbn [orb]. apply IH, Hxs.
Qed.

Lemma fold_dict_set_nodup (kvs acc : list (string * value)) :
  nodup_keys (map fst (acc ++ kvs)) = true ->
  fold_left (fun d kv => dict_set (fst kv) (snd kv) d) kvs acc = acc ++ kvs.
Proof.
  revert acc. induction kvs as [|[k v] kvs IH]; intros acc H.
  - rewrite app_nil_r. reflexivity.
  - cbn [fold_left fst snd]. rewrite dict_set_fresh.
    + rewrite IH; rewrite <- app_assoc; [reflexivity|exact H].
    + rewrite map_app in H. apply (nodup_keys_app_fresh _ _ _ H).
Qed.

Lemma dict_of_pairs_nodup (kvs : list (string * value)) :
  nodup_keys (map fst kvs) = true -> dict_of_pairs kvs = kvs.
Proof. intros H. apply (fold_dict_set_nodup kvs [] H). Qed.

Lemma scan_once_array (fuel : nat) (r : list ascii) :
  scan_once (S fuel) ("["%char :: r)
  = match skip_ws r with
    | c' :: r' =>
        if Ascii.eqb c' "]" then Some (JArr [], r')
        else
          match scan_items (scan_once fuel) fuel (c' :: r') with
          | Some (vs, r'') => Some (JArr vs, r'')
          | None => None
          end
    | [] => None
    end.
Proof. reflexivity. Qed.

Lemma scan_once_object (fuel : nat) (r : list ascii) :
  scan_once (S fuel) ("{"%char :: r)
  = match skip_ws r with
    | c' :: r' =>
        if Ascii.eqb c' "}" then Some (JObj [], r')
        else
          match scan_members (scan_once fuel) fuel (c' :: r') with
          | Some (kvs, r'') => Some (JObj (dict_of_pairs kvs), r'')
          | None => None
          end
    | [] => None
    end.
Proof. reflexivity. Qed.

Lemma vsize_pos (v : value) : (1 <= vsize v)%nat.
Proof. destruct v; cbn; lia. Qed.

Lemma length_le_list_sum {A} (f : A -> nat) (l : list A) :
  (forall x, 1 <= f x)%nat -> (length l <= list_sum (map f l))%nat.
Proof.
  intros Hf. induction l as [|x l IH]; [reflexivity|].
  cbn [length map].
  change (list_sum (f x :: map f l)) with (f x + list_sum (map f l))%nat.
  specialize (Hf x). lia.
Qed.

(** A non-empty sequence of encoded parts begins like its first part. *)
Lemma starts_value_open (s : list ascii) :
  starts_value s = true ->
  exists c r, s = c :: r /\ Ascii.eqb c "]" = false /\ Ascii.eqb c "}" = false.
Proof.
  destruct s as [|c r]; [discriminate|]. cbn [starts_value]. intros H.
  apply andb_true_iff in H as [H H2]. apply andb_true_iff in H as [_ H1].
  apply negb_true_iff in H1, H2. eauto.
Qed.

(** The decoder reads back every well-formed value, given fuel for its size. *)
Lemma scan_once_dumps (v : value) :
  wf v = true ->
  forall fuel, (vsize v <= fuel)%nat -> decodes_with (scan_once fuel) v.
Proof.
  induction v as [ | b | n | s | items IH | members IH] using value_ind';
    intros Hwf fuel Hfuel rest Hstop;
    (destruct fuel as [|fuel]; [pose proof (vsize_pos JNull); cbn in Hfuel; lia|]).
  - reflexivity.
  - destruct b; reflexivity.
  - cbn [dumps_chars]. destruct (int_chars_head n) as (c & t & Hct & Hc).
    rewrite Hct. cbn [app]. rewrite scan_once_number by exact Hc.
    change (c :: t ++ rest) with ((c :: t) ++ rest). rewrite <- Hct.
    apply scan_number_int_chars, Hstop.
  - cbn [dumps_chars]. unfold dumps_str. cbn [app scan_once].
    change (Ascii.eqb dquote dquote) with true. cbv iota.
    rewrite <- app_assoc. cbn [app]. rewrite scanstring_escaped.
    fold (chars s). rewrite string_of_chars. reflexivity.
  - cbn [dumps_chars app]. rewrite scan_once_array, <- app_assoc. cbn [app].
    destruct items as [|v0 items]; [reflexivity|].
    cbn [wf] in Hwf. cbn [vsize] in Hfuel.
    assert (Hdec : Forall (decodes_with (scan_once fuel)) (v0 :: items)).
    { rewrite Forall_forall in IH |- *. intros x Hx. apply IH; [exact Hx| |].
      - rewrite forallb_forall in Hwf. apply Hwf.
        apply list_elem_of_In. exact Hx.
      - apply list_elem_of_In, in_split in Hx as (l1 & l2 & Heq).
        rewrite Heq, map_app, list_sum_app in Hfuel. cbn in Hfuel. lia. }
    assert (Hstart : starts_value (join_sep (map dumps_chars (v0 :: items))
                                     ++ "]"%char :: rest) = true).
    { destruct items; cbn [map join_sep]; rewrite <- ?app_assoc;
        apply dumps_chars_starts. }
    rewrite skip_ws_starts by exact Hstart.
    destruct (starts_value_open _ Hstart) as (c & r & Heq & Hc & _).
    rewrite Heq, Hc, <- Heq, scan_items_dumps; [reflexivity|exact Hdec|congruence|].
    pose proof (length_le_list_sum vsize (v0 :: items) vsize_pos). lia.
  - cbn [dumps_chars app]. rewrite scan_once_object, <- app_assoc. cbn [app].
    destruct members as [|kv0 members]; [reflexivity|].
    cbn [wf] in Hwf. apply andb_true_iff in Hwf as [Hnodup Hwf].
    cbn [vsize] in Hfuel.
    assert (Hdec : Forall (fun kv => decodes_with (scan_once fuel) (snd kv))
                          (kv0 :: members)).
    { rewrite Forall_forall in IH |- *. intros x Hx. apply IH; [exact Hx| |].
      - rewrite forallb_forall in Hwf. apply Hwf.
        apply list_elem_of_In. exact Hx.
      - apply list_elem_of_In, in_split in Hx as (l1 & l2 & Heq).
        rewrite Heq, map_app, list_sum_app in Hfuel. cbn in Hfuel. lia. }
    change (fun kv : string * value =>
              dumps_str (fst kv) ++ chars ": " ++ dumps_chars (snd kv))
      with dumps_member.
    assert (Hstart : starts_value (join_sep (map dumps_member (kv0 :: members))
                                     ++ "}"%char :: rest) = true).
    { destruct members; reflexivity. }
    rewrite skip_ws_starts by exact Hstart.
    destruct (starts_value_open _ Hstart) as (c & r & Heq & _ & Hc).
    rewrite Heq, Hc, <- Heq, scan_members_dumps;
      [rewrite dict_of_pairs_nodup by exact Hnodup; reflexivity
      |exact Hdec|congruence|].
    pose proof (length_le_list_sum (fun kv => vsize (snd kv)) (kv0 :: members)
                  (fun kv => vsize_pos (snd kv))). lia.
Qed.

Lemma join_sep_length (parts : list (list ascii)) :
  (list_sum (map (@length ascii) parts) <= length (join_sep parts))%nat.
Proof.
  induction parts as [|p parts IH]; [reflexivity|].
  change (list_sum (map (@length ascii) (p :: parts)))
    with (length p + list_sum (map (@length ascii) parts))%nat.
  destruct parts as [|p' parts].
  - cbn. lia.
  - change (join_sep (p :: p' :: parts)) with (p ++ chars ", " ++ join_sep (p' :: parts)).
    rewrite !length_app. lia.
Qed.

Lemma list_sum_le {A} (f g : A -> nat) (l : list A) :
  Forall (fun x => f x <= g x)%nat l ->
  (list_sum (map f l) <= list_sum (map g l))%nat.
Proof.
  induction 1 as [|x l Hx _ IH]; [reflexivity|].
  change (list_sum (map f (x :: l))) with (f x + list_sum (map f l))%nat.
  change (list_sum (map g (x :: l))) with (g x + list_sum (map g l))%nat.
  lia.
Qed.

Lemma vsize_le_length (v : value) : (vsize v <= length (dumps_chars v))%nat.
Proof.
  induction v as [ | b | n | s | items IH | members IH] using value_ind'.
  - cbn. lia.
  - destruct b; cbn; lia.
  - cbn [vsize dumps_chars]. destruct (int_chars_head n) as (c & t & -> & _).
    cbn. lia.
  - cbn [vsize dumps_chars]. unfold dumps_str. cbn [length]. lia.
  - cbn [vsize dumps_chars length]. rewrite length_app.
    pose proof (join_sep_length (map dumps_chars items)) as Hj.
    rewrite map_map in Hj.
    pose proof (list_sum_le vsize (fun v => length (dumps_chars v)) items IH).
    lia.
  - cbn [vsize dumps_chars length]. rewrite length_app.
    change (fun kv : string * value =>
              dumps_str (fst kv) ++ chars ": " ++ dumps_chars (snd kv))
      with dumps_member.
    pose proof (join_sep_length (map dumps_member members)) as Hj.
    rewrite map_map in Hj.
    assert (Hle : Forall (fun kv => vsize (snd kv) <= length (dumps_member kv))%nat
                         members).
    { eapply Forall_impl; [exact IH|]. intros kv Hkv. cbn beta in Hkv.
      unfold dumps_member. rewrite !length_app. lia. }
    pose proof (list_sum_le _ _ members Hle). lia.
Qed.

(** [json.loads(json.dumps(v))] is [v], for every well-formed value. *)
Lemma json_loads_dumps (v : value) :
  wf v = true -> json_loads (json_dumps v) = Some v.
Proof.
  intros Hwf. unfold json_loads, json_dumps. rewrite chars_of_string.
  pose proof (dumps_chars_starts v []) as Hstart. rewrite app_nil_r in Hstart.
  rewrite skip_ws_starts by exact Hstart.
  pose proof (scan_once_dumps v Hwf (S (length (dumps_chars v)))) as Hdec.
  unfold decodes_with in Hdec. specialize (Hdec ltac:(pose proof (vsize_le_length v); lia) [] eq_refl).
  rewrite app_nil_r in Hdec. rewrite Hdec. reflexivity.
Qed.

(** ** The signature *)

Lemma chars_append (a b : string) : chars (a +:+ b) = chars a ++ chars b.
Proof.
  unfold chars. induction a as [|c a IH]; [reflexivity|].
  change (String c a +:+ b) with (String c (a +:+ b)).
  cbn [list_ascii_of_string app]. rewrite IH. reflexivity.
Qed.

Lemma encode_utf8_append (a b : string) :
  encode_utf8 (a +:+ b) = encode_utf8 a ++ encode_utf8 b.
Proof.
  unfold encode_utf8. fold (chars (a +:+ b)) (chars a) (chars b).
  rewrite chars_append, flat_map_app. reflexivity.
Qed.

Lemma sha256_length (msg : list Z) : length (SHA256.sha256 msg) = 32%nat.
Proof.
  unfold SHA256.sha256.
  destruct (SHA256.blocks _ SHA256.H0 (SHA256.pad msg)) as [[[[[[[a b] c] d] e] f] g] h].
  reflexivity.
Qed.

Lemma hmac_sha256_length (key msg : list Z) : length (hmac_sha256 key msg) = 32%nat.
Proof. apply sha256_length. Qed.

Lemma hex_digit_lower (n : Z) :
  In (hex_digit (n mod 16)) (chars "0123456789abcdef").
Proof.
  pose proof (Z.mod_pos_bound n 16 eq_refl) as Hb.
  assert (Hc : In (n mod 16) [0; 1; 2; 3; 4; 5; 6; 7; 8; 9; 10; 11; 12; 13; 14; 15]).
  { cbn. lia. }
  cbn [In] in Hc.
  repeat (destruct Hc as [<-|Hc]; [cbn; tauto|]). contradiction.
Qed.

Lemma hexdigest_chars (bs : list Z) :
  length (chars (hexdigest bs)) = (2 * length bs)%nat
  /\ Forall (fun c => In c (chars "0123456789abcdef")) (chars (hexdigest bs)).
Proof.
  unfold hexdigest. rewrite chars_of_string.
  induction bs as [|b bs [IHl IHf]]; [split; [reflexivity|constructor]|].
  cbn [flat_map app length]. split; [rewrite IHl; lia|].
  constructor; [apply hex_digit_lower|].
  constructor; [apply hex_digit_lower|exact IHf].
Qed.

(** C4. For every three strings, [create_hmac_signature] returns a result
    (it raises for none, the empty strings included), and this result is the
    lowercase hexadecimal digest, 64 digits for 256 bits, of the HMAC-SHA256
    of the UTF-8 message [workspace_id + "_" + client_id] under the UTF-8
    key [client_secret]. Being a function of its three arguments alone, it
    is deterministic and leaves the world untouched. *)
Theorem signature_is_hmac_sha256_hex (workspace_id client_id client_secret : string) :
  let sig :=
    hexdigest
      (hmac_sha256 (encode_utf8 client_secret)
         (encode_utf8 workspace_id ++ [0x5f] ++ encode_utf8 client_id)) in
  create_hmac_signature (JStr workspace_id) (JStr client_id) (JStr client_secret)
  = inr sig
  /\ length (chars sig) = 64%nat
  /\ Forall (fun c => In c (chars "0123456789abcdef")) (chars sig).
Proof.
  cbv zeta. split.
  - unfold create_hmac_signature. cbn [py_str].
    rewrite !encode_utf8_append. reflexivity.
  - pose proof (hexdigest_chars
                  (hmac_sha256 (encode_utf8 client_secret)
                     (encode_utf8 workspace_id ++ [0x5f] ++ encode_utf8 client_id)))
      as [Hl Hf].
    rewrite hmac_sha256_length in Hl. split; [exact Hl|exact Hf].
Qed.

(** The model of the hash agrees with the published test vectors: the
    SHA-256 of "abc" (FIPS 180-4) and test case 2 of RFC 4231. *)
Example sha256_abc :
  hexdigest (SHA256.sha256 (encode_utf8 "abc"))
  = "ba7816bf8f01cfea414140de5dae2223b00361a396177a9cb410ff61f20015ad".
Proof. vm_compute. reflexivity. Qed.

Example hmac_sha256_rfc4231_case2 :
  hexdigest (hmac_sha256 (encode_utf8 "Jefe") (encode_utf8 "what do ya want for nothing?"))
  = "5bdcc146bf60754e6a042426089575c75a003f089d2739839dec58b964ec3843".
Proof. vm_compute. reflexivity. Qed.

(** Empty strings are signed like any other: the key is empty and the
    message is the single underscore. *)
Example signature_of_empty_strings :
  create_hmac_signature (JStr "") (JStr "") (JStr "")
  = inr "fb691d48adcd611d66d5f61c6993743a24797632d8d6d64a93e6625c7e40705d".
Proof. vm_compute. reflexivity. Qed.

(** ** Rounding to a double *)

Lemma pow2_pos (e : Z) : (0 < pow2 e)%Q.
Proof. apply Qpower_0_lt. reflexivity. Qed.

Lemma pow2_add (a b : Z) : (pow2 (a + b) == pow2 a * pow2 b)%Q.
Proof. apply Qpower_plus. discriminate. Qed.

Lemma pow2_le (a b : Z) : a <= b -> (pow2 a <= pow2 b)%Q.
Proof. intros H. apply Qpower_le_compat_l; [exact H | discriminate]. Qed.

Lemma pow2_lt_inv (a b : Z) : (pow2 a < pow2 b)%Q -> a < b.
Proof. intros H. apply (Qpower_lt_compat_l_inv 2); [exact H | reflexivity]. Qed.

Lemma pow2_Z (e : Z) : 0 <= e -> (pow2 e == inject_Z (2 ^ e))%Q.
Proof. intros H. symmetry. apply (Zpower_Qpower 2 e H). Qed.

Lemma pow2_split (a b : Z) : (pow2 a * pow2 (b - a) == pow2 b)%Q.
Proof. rewrite <- pow2_add. replace (a + (b - a)) with b by lia. reflexivity. Qed.

Lemma binade_spec (x : Q) :
  (0 < x)%Q -> (pow2 (binade x) <= x)%Q /\ (x < pow2 (binade x + 1))%Q.
Proof.
  intros Hx. destruct x as [p q].
  assert (Hp : 0 < p) by (unfold Qlt in Hx; cbn in Hx; lia).
  unfold binade. cbn [Qnum Qden].
  set (a := Z.log2 p). set (b := Z.log2 (Z.pos q)).
  destruct (Z.log2_spec p Hp) as [Ha1 Ha2]. fold a in Ha1, Ha2.
  destruct (Z.log2_spec (Z.pos q) eq_refl) as [Hb1 Hb2]. fold b in Hb1, Hb2.
  assert (Ha0 : 0 <= a) by apply Z.log2_nonneg.
  assert (Hb0 : 0 <= b) by apply Z.log2_nonneg.
  assert (Pa : 0 < 2 ^ a) by (apply Z.pow_pos_nonneg; lia).
  assert (Pb : 0 < 2 ^ b) by (apply Z.pow_pos_nonneg; lia).
  rewrite <- Z.add_1_r in Ha2, Hb2.
  assert (Sa : 2 ^ (a + 1) = 2 * 2 ^ a) by (rewrite Z.pow_add_r by lia; lia).
  assert (Sb : 2 ^ (b + 1) = 2 * 2 ^ b) by (rewrite Z.pow_add_r by lia; lia).
  assert (Up : (p # q < pow2 (a - b + 1))%Q).
  { assert (E : (pow2 (a - b + 1) == inject_Z (2 ^ (a + 1)) / inject_Z (2 ^ b))%Q).
    { rewrite <- !pow2_Z by lia. unfold Qdiv.
      replace (a - b + 1) with ((a + 1) + - b) by lia.
      rewrite pow2_add. unfold pow2 at 2. rewrite Qpower_opp. reflexivity. }
    rewrite E. apply Qlt_shift_div_l.
    - change 0%Q with (inject_Z 0). rewrite <- Zlt_Qlt. exact Pb.
    - unfold Qlt, Qmult, inject_Z. cbn [Qnum Qden]. nia. }
  assert (Lo : (pow2 (a - b - 1) <= p # q)%Q).
  { assert (E : (pow2 (a - b - 1) == inject_Z (2 ^ a) / inject_Z (2 ^ (b + 1)))%Q).
    { rewrite <- !pow2_Z by lia. unfold Qdiv.
      replace (a - b - 1) with (a + - (b + 1)) by lia.
      rewrite pow2_add. unfold pow2 at 2. rewrite Qpower_opp. reflexivity. }
    rewrite E. apply Qle_shift_div_r.
    - change 0%Q with (inject_Z 0). rewrite <- Zlt_Qlt. lia.
    - unfold Qle, Qmult, inject_Z. cbn [Qnum Qden]. nia. }
  destruct (Qle_bool (pow2 (a - b)) (p # q)) eqn:E.
  - apply Qle_bool_iff in E. split; [exact E | exact Up].
  - split; [exact Lo|].
    replace (a - b - 1 + 1) with (a - b) by lia.
    apply Qnot_le_lt. intros H. apply Qle_bool_iff in H. congruence.
Qed.

Lemma binade_unique (x : Q) (e : Z) :
  (pow2 e <= x)%Q -> (x < pow2 (e + 1))%Q -> binade x = e.
Proof.
  intros H1 H2.
  assert (Hx : (0 < x)%Q) by (pose proof (pow2_pos e); lra).
  destruct (binade_spec x Hx) as [B1 B2].
  assert (binade x < e + 1) by (apply pow2_lt_inv; lra).
  assert (e < binade x + 1) by (apply pow2_lt_inv; lra).
  lia.
Qed.

Lemma binade_le (x y : Q) : (0 < x)%Q -> (x <= y)%Q -> binade x <= binade y.
Proof.
  intros Hx Hxy.
  destruct (binade_spec x Hx) as [B1 _].
  destruct (binade_spec y ltac:(lra)) as [_ B2].
  assert (binade x < binade y + 1) by (apply pow2_lt_inv; lra).
  lia.
Qed.

Lemma round_half_even_bounds (z : Q) :
  Qfloor z <= round_half_even z <= Qfloor z + 1.
Proof.
  unfold round_half_even. destruct (_ ?= _)%Q; [destruct (Z.even _)| |]; lia.
Qed.

Lemma round_half_even_Z (z : Q) (k : Z) :
  (z == inject_Z k)%Q -> round_half_even z = k.
Proof.
  intros H. unfold round_half_even.
  rewrite (Qfloor_comp _ _ H), Qfloor_Z.
  destruct (z - inject_Z k ?= 1 # 2)%Q eqn:C; [exfalso| reflexivity |exfalso].
  - apply Qeq_alt in C. lra.
  - apply Qgt_alt in C. lra.
Qed.

Lemma round_half_even_le (z z' : Q) :
  (z <= z')%Q -> round_half_even z <= round_half_even z'.
Proof.
  intros H. pose proof (Qfloor_resp_le _ _ H) as F.
  pose proof (round_half_even_bounds z) as B.
  pose proof (round_half_even_bounds z') as B'.
  destruct (Z.eq_dec (Qfloor z) (Qfloor z')) as [E|E]; [|lia].
  unfold round_half_even. rewrite <- E.
  destruct (z - inject_Z (Qfloor z) ?= 1 # 2)%Q eqn:C;
    destruct (z' - inject_Z (Qfloor z) ?= 1 # 2)%Q eqn:C';
    try (destruct (Z.even (Qfloor z)); lia); try lia; exfalso.
  - apply Qeq_alt in C. apply Qlt_alt in C'. lra.
  - apply Qgt_alt in C. apply Qeq_alt in C'. lra.
  - apply Qgt_alt in C. apply Qlt_alt in C'. lra.
Qed.

Lemma scaled_bounds (x : Q) :
  (0 < x)%Q ->
  (pow2 52 <= x * pow2 (52 - binade x))%Q /\ (x * pow2 (52 - binade x) < pow2 53)%Q.
Proof.
  intros Hx. destruct (binade_spec x Hx) as [B1 B2].
  pose proof (pow2_pos (52 - binade x)) as P.
  pose proof (pow2_split (binade x) 52) as S1.
  pose proof (pow2_split (binade x + 1) 53) as S2.
  replace (53 - (binade x + 1)) with (52 - binade x) in S2 by lia.
  split.
  - rewrite <- S1. apply Qmult_le_compat_r; lra.
  - rewrite <- S2. apply Qmult_lt_compat_r; lra.
Qed.

Lemma significand_bounds (x : Q) :
  (0 < x)%Q ->
  2 ^ 52 <= round_half_even (x * pow2 (52 - binade x)) <= 2 ^ 53.
Proof.
  intros Hx. destruct (scaled_bounds x Hx) as [S1 S2].
  pose proof (round_half_even_bounds (x * pow2 (52 - binade x))) as B.
  rewrite (pow2_Z 52) in S1 by lia. rewrite (pow2_Z 53) in S2 by lia.
  pose proof (Qfloor_resp_le _ _ S1) as F1. rewrite Qfloor_Z in F1.
  pose proof (Qfloor_le (x * pow2 (52 - binade x))) as F2.
  assert (F3 : Qfloor (x * pow2 (52 - binade x)) < 2 ^ 53).
  { rewrite Zlt_Qlt. lra. }
  lia.
Qed.

Lemma round_positive_bounds (x : Q) :
  (0 < x)%Q ->
  (pow2 (binade x) <= round_positive x)%Q
  /\ (round_positive x <= pow2 (binade x + 1))%Q.
Proof.
  intros Hx. destruct (significand_bounds x Hx) as [M1 M2].
  unfold round_positive. cbv zeta.
  set (m := round_half_even _) in *.
  pose proof (pow2_pos (binade x - 52)) as P.
  pose proof (pow2_split 52 (binade x)) as S1.
  pose proof (pow2_split 53 (binade x + 1)) as S2.
  replace (binade x + 1 - 53) with (binade x - 52) in S2 by lia.
  rewrite (pow2_Z 52) in S1 by lia. rewrite (pow2_Z 53) in S2 by lia.
  rewrite Zle_Qle in M1, M2.
  split.
  - rewrite <- S1. apply Qmult_le_compat_r; lra.
  - rewrite <- S2. apply Qmult_le_compat_r; lra.
Qed.

Lemma round_positive_le (x y : Q) :
  (0 < x)%Q -> (x <= y)%Q -> (round_positive x <= round_positive y)%Q.
Proof.
  intros Hx Hxy. assert (Hy : (0 < y)%Q) by lra.
  pose proof (binade_le x y Hx Hxy) as E.
  destruct (Z.eq_dec (binade x) (binade y)) as [Eq|Ne].
  - unfold round_positive. cbv zeta. rewrite Eq.
    apply Qmult_le_compat_r; [|pose proof (pow2_pos (binade y - 52)); lra].
    rewrite <- Zle_Qle. apply round_half_even_le.
    apply Qmult_le_compat_r; [exact Hxy|].
    pose proof (pow2_pos (52 - binade y)); lra.
  - destruct (round_positive_bounds x Hx) as [_ U].
    destruct (round_positive_bounds y Hy) as [L _].
    pose proof (pow2_le (binade x + 1) (binade y) ltac:(lia)). lra.
Qed.

Lemma to_double_pos (x : Q) : (0 < x)%Q -> to_double x = round_positive x.
Proof.
  destruct x as [[|p|p] q]; intros H; try reflexivity;
    unfold Qlt in H; cbn in H; lia.
Qed.

Lemma to_double_neg (x : Q) : (x < 0)%Q -> to_double x = (- round_positive (- x))%Q.
Proof.
  destruct x as [[|p|p] q]; intros H; try reflexivity;
    unfold Qlt in H; cbn in H; lia.
Qed.

Lemma to_double_zero (x : Q) : (x == 0)%Q -> to_double x = 0%Q.
Proof.
  destruct x as [[|p|p] q]; intros H; try reflexivity;
    unfold Qeq in H; cbn in H; lia.
Qed.

Lemma round_positive_pos (x : Q) : (0 < x)%Q -> (0 < round_positive x)%Q.
Proof.
  intros Hx. destruct (round_positive_bounds x Hx) as [L _].
  pose proof (pow2_pos (binade x)). lra.
Qed.

(** Rounding is monotone. *)
Lemma to_double_le (x y : Q) : (x <= y)%Q -> (to_double x <= to_double y)%Q.
Proof.
  intros H.
  destruct (Qlt_le_dec 0 x) as [Px|Nx].
  - rewrite (to_double_pos x Px), (to_double_pos y) by lra.
    apply round_positive_le; assumption.
  - destruct (Qlt_le_dec x 0) as [Nx'|Zx].
    + rewrite (to_double_neg x Nx').
      pose proof (round_positive_pos (- x) ltac:(lra)) as Rx.
      destruct (Qlt_le_dec 0 y) as [Py|Ny].
      * rewrite (to_double_pos y Py). pose proof (round_positive_pos y Py). lra.
      * destruct (Qlt_le_dec y 0) as [Ny'|Zy].
        -- rewrite (to_double_neg y Ny').
           pose proof (round_positive_le (- y) (- x) ltac:(lra) ltac:(lra)). lra.
        -- rewrite (to_double_zero y) by lra. lra.
    + rewrite (to_double_zero x) by lra.
      destruct (Qlt_le_dec 0 y) as [Py|Ny].
      * rewrite (to_double_pos y Py). pose proof (round_positive_pos y Py). lra.
      * rewrite (to_double_zero y) by lra. lra.
Qed.

(** A number with a significand below 2^53 is its own double. *)
Lemma round_positive_exact (x : Q) (k j : Z) :
  (x == inject_Z k * pow2 j)%Q -> 0 < k < 2 ^ 53 -> (round_positive x == x)%Q.
Proof.
  intros Hx Hk.
  pose proof (pow2_pos j) as Pj.
  assert (K0 : (0 < inject_Z k)%Q) by (change 0%Q with (inject_Z 0); rewrite <- Zlt_Qlt; lia).
  assert (K1 : (inject_Z k < pow2 53)%Q) by (rewrite pow2_Z by lia; rewrite <- Zlt_Qlt; lia).
  assert (Px : (0 < x)%Q) by (rewrite Hx; apply Qmult_lt_0_compat; assumption).
  destruct (binade_spec x Px) as [B1 B2].
  assert (U : (x < pow2 (53 + j))%Q).
  { rewrite Hx, pow2_add. apply Qmult_lt_compat_r; assumption. }
  assert (E : binade x < 53 + j) by (apply pow2_lt_inv; lra).
  unfold round_positive. cbv zeta.
  generalize dependent (binade x). intros e _ _ E.
  set (n := 52 - e + j).
  assert (Hn : 0 <= n) by (unfold n; lia).
  assert (Z : (x * pow2 (52 - e) == inject_Z (k * 2 ^ n))%Q).
  { rewrite Hx, inject_Z_mult, <- pow2_Z by exact Hn.
    unfold n. replace (52 - e + j) with (j + (52 - e)) by lia.
    rewrite pow2_add. ring. }
  rewrite (round_half_even_Z _ _ Z), inject_Z_mult, <- pow2_Z by exact Hn.
  rewrite Hx. unfold n.
  rewrite <- Qmult_assoc, <- pow2_add.
  replace (52 - e + j + (e - 52)) with j by lia. reflexivity.
Qed.

Lemma to_double_exact (x : Q) (k j : Z) :
  (x == inject_Z k * pow2 j)%Q -> Z.abs k < 2 ^ 53 -> (to_double x == x)%Q.
Proof.
  intros Hx Hk. pose proof (pow2_pos j) as Pj.
  destruct (Z.lt_trichotomy k 0) as [N|[Z|P]].
  - assert (K0 : (inject_Z k < 0)%Q) by (change 0%Q with (inject_Z 0); rewrite <- Zlt_Qlt; lia).
    assert (Nx : (x < 0)%Q).
    { rewrite Hx. nra. }
    rewrite (to_double_neg x Nx).
    rewrite (round_positive_exact (- x) (- k) j); [ring| |lia].
    rewrite Hx, inject_Z_opp. ring.
  - subst k. rewrite (to_double_zero x); [|rewrite Hx; ring].
    rewrite Hx. ring.
  - assert (K0 : (0 < inject_Z k)%Q) by (change 0%Q with (inject_Z 0); rewrite <- Zlt_Qlt; lia).
    assert (Px : (0 < x)%Q) by (rewrite Hx; apply Qmult_lt_0_compat; assumption).
    rewrite (to_double_pos x Px). apply (round_positive_exact x k j Hx). lia.
Qed.

Lemma to_double_comp (x y : Q) : (x == y)%Q -> (to_double x == to_double y)%Q.
Proof.
  intros H. apply Qle_antisym; apply to_double_le; rewrite H; apply Qle_refl.
Qed.

Lemma to_double_int (n : Z) :
  Z.abs n < 2 ^ 53 -> (to_double (inject_Z n) == inject_Z n)%Q.
Proof.
  intros H. apply (to_double_exact _ n 0); [|exact H].
  unfold pow2. rewrite Qpower_0_r. ring.
Qed.

(** ** The token validity check *)

Lemma Qltb_lt (a b : Q) : Qltb a b = true <-> (a < b)%Q.
Proof.
  unfold Qltb. rewrite negb_true_iff. split.
  - intros H. apply Qnot_le_lt. intros Hle. apply Qle_bool_iff in Hle. congruence.
  - intros H. destruct (Qle_bool b a) eqn:E; [|reflexivity].
    apply Qle_bool_iff in E. exfalso. exact (Qlt_not_le _ _ H E).
Qed.

Lemma grid_exact (K : Z) :
  Z.abs K < 2 ^ 53 -> (to_double (K # 2097152) == K # 2097152)%Q.
Proof.
  intros H. apply (to_double_exact _ K (-21)); [|exact H].
  assert (P : (pow2 (-21) == 1 # 2097152)%Q) by reflexivity.
  rewrite P. unfold Qeq, Qmult, inject_Z. cbn [Qnum Qden]. lia.
Qed.

Lemma Qfloor_unique (q : Q) (k : Z) :
  (inject_Z k <= q)%Q -> (q < inject_Z (k + 1))%Q -> Qfloor q = k.
Proof.
  intros L U. pose proof (Qfloor_resp_le _ _ L) as F. rewrite Qfloor_Z in F.
  pose proof (Qfloor_le q) as G.
  assert (Qfloor q < k + 1) by (rewrite Zlt_Qlt; lra). lia.
Qed.

Lemma Qtrunc_nonneg (q : Q) : (0 <= q)%Q -> Qtrunc q = Qfloor q.
Proof.
  destruct q as [n p]. unfold Qle, Qtrunc, Qfloor. cbn. intros H.
  apply Z.quot_div_nonneg; lia.
Qed.

(** Below 2^31 seconds a double resolves less than a microsecond: comparing
    the rounded age with a whole number of seconds is comparing the
    microseconds. *)
Lemma age_below (d n : Z) :
  Z.abs n <= 2 ^ 31 ->
  Qltb (total_seconds d) (inject_Z n) = (d <? n * 1000000).
Proof.
  intros Hn. unfold total_seconds.
  destruct (d <? n * 1000000) eqn:E.
  - apply Z.ltb_lt in E. apply Qltb_lt.
    pose proof (grid_exact (n * 2097152 - 1) ltac:(lia)) as G.
    assert (L : (d # 1000000 <= n * 2097152 - 1 # 2097152)%Q)
      by (unfold Qle; cbn [Qnum Qden]; lia).
    apply to_double_le in L.
    assert (U : (n * 2097152 - 1 # 2097152 < inject_Z n)%Q)
      by (unfold Qlt, inject_Z; cbn [Qnum Qden]; lia).
    lra.
  - apply Z.ltb_ge in E.
    destruct (Qltb _ _) eqn:E'; [|reflexivity]. apply Qltb_lt in E'.
    assert (L : (inject_Z n <= d # 1000000)%Q)
      by (unfold Qle, inject_Z; cbn [Qnum Qden]; lia).
    apply to_double_le in L.
    pose proof (to_double_int n ltac:(lia)). lra.
Qed.

(** The whole seconds that remain, computed on doubles, are those of the
    exact difference. *)
Lemma remaining_seconds_exact (ttl d : Z) :
  0 < ttl <= 2 ^ 31 ->
  0 <= d < ttl * 1000000 ->
  Qtrunc (to_double (to_double (inject_Z ttl) - total_seconds d))
  = Z.quot (ttl * 1000000 - d) 1000000.
Proof.
  intros Httl Hd. unfold total_seconds.
  rewrite Z.quot_div_nonneg by lia.
  set (k := (ttl * 1000000 - d) / 1000000).
  pose proof (Z.div_mod (ttl * 1000000 - d) 1000000 ltac:(lia)) as DM.
  pose proof (Z.mod_pos_bound (ttl * 1000000 - d) 1000000 ltac:(lia)) as MB.
  fold k in DM. set (rho := (ttl * 1000000 - d) mod 1000000) in *.
  assert (Hk : 0 <= k <= ttl) by (unfold k; split; [apply Z.div_pos; lia|apply Z.div_le_upper_bound; lia]).
  pose proof (to_double_int ttl ltac:(lia)) as F.
  assert (R : (inject_Z k <= to_double (to_double (inject_Z ttl) - to_double (d # 1000000)))%Q
              /\ (to_double (to_double (inject_Z ttl) - to_double (d # 1000000))
                  < inject_Z (k + 1))%Q).
  { destruct (Z.eq_dec rho 0) as [Z0|NZ].
    - assert (A : (d # 1000000 == inject_Z (ttl - k))%Q)
        by (unfold Qeq, inject_Z; cbn [Qnum Qden]; lia).
      pose proof (to_double_comp _ _ A) as A'.
      rewrite (to_double_int (ttl - k)) in A' by lia.
      assert (S : (to_double (inject_Z ttl) - to_double (d # 1000000) == inject_Z k)%Q).
      { rewrite A', F. unfold Qeq, Qminus, Qplus, Qopp, inject_Z. cbn [Qnum Qden]. lia. }
      pose proof (to_double_comp _ _ S) as S'.
      rewrite (to_double_int k) in S' by lia.
      rewrite inject_Z_plus. change (inject_Z 1) with 1%Q. lra.
    - pose proof (grid_exact ((ttl - k - 1) * 2097152 + 1) ltac:(lia)) as G1.
      pose proof (grid_exact ((ttl - k) * 2097152 - 1) ltac:(lia)) as G2.
      assert (L1 : ((ttl - k - 1) * 2097152 + 1 # 2097152 <= d # 1000000)%Q)
        by (unfold Qle; cbn [Qnum Qden]; lia).
      assert (L2 : (d # 1000000 <= (ttl - k) * 2097152 - 1 # 2097152)%Q)
        by (unfold Qle; cbn [Qnum Qden]; lia).
      apply to_double_le in L1, L2.
      pose proof (grid_exact (k * 2097152 + 1) ltac:(lia)) as H1.
      pose proof (grid_exact ((k + 1) * 2097152 - 1) ltac:(lia)) as H2.
      assert (E1 : (inject_Z ttl - ((ttl - k) * 2097152 - 1 # 2097152)
                    == k * 2097152 + 1 # 2097152)%Q)
        by (unfold Qeq, Qminus, Qplus, Qopp, inject_Z; cbn [Qnum Qden]; lia).
      assert (E2 : (inject_Z ttl - ((ttl - k - 1) * 2097152 + 1 # 2097152)
                    == (k + 1) * 2097152 - 1 # 2097152)%Q)
        by (unfold Qeq, Qminus, Qplus, Qopp, inject_Z; cbn [Qnum Qden]; lia).
      assert (M1 : (k * 2097152 + 1 # 2097152
                    <= to_double (inject_Z ttl) - to_double (d # 1000000))%Q) by lra.
      assert (M2 : (to_double (inject_Z ttl) - to_double (d # 1000000)
                    <= (k + 1) * 2097152 - 1 # 2097152)%Q) by lra.
      apply to_double_le in M1, M2.
      assert (B1 : (inject_Z k < k * 2097152 + 1 # 2097152)%Q)
        by (unfold Qlt, inject_Z; cbn [Qnum Qden]; lia).
      assert (B2 : ((k + 1) * 2097152 - 1 # 2097152 < inject_Z (k + 1))%Q)
        by (unfold Qlt, inject_Z; cbn [Qnum Qden]; lia).
      lra. }
  destruct R as [R1 R2].
  rewrite Qtrunc_nonneg.
  - apply Qfloor_unique; assumption.
  - assert ((0 <= inject_Z k)%Q) by (change 0%Q with (inject_Z 0); rewrite <- Zle_Qle; lia).
    lra.
Qed.

Lemma float_of_int_small (n : Z) :
  Z.abs n <= 2 ^ 31 -> float_of_int n = inr (to_double (inject_Z n)).
Proof.
  intros H. unfold float_of_int.
  destruct (Z.leb_spec (2 ^ 1024 - 2 ^ 970) (Z.abs n)) as [L|L]; [|reflexivity].
  exfalso. assert (B : 2 ^ 31 < 2 ^ 1024 - 2 ^ 970) by (vm_compute; reflexivity). lia.
Qed.

Section Validity.

Variable fromisoformat : string -> option Z.

(** The check leaves the world as it is and never raises. *)
Lemma is_token_valid_pure (user_data : value) (w : world) :
  exists valid, is_token_valid fromisoformat user_data w = (inr valid, w).
Proof.
  unfold is_token_valid, parse_timestamp, try_except, bind, lift, datetime_now, ret.
  destruct (py_index user_data "token_timestamp") as [e|ts]; [eauto|].
  destruct (as_str ts) as [e|s]; [eauto|].
  destruct (fromisoformat (replace_Z s)); [|eauto].
  destruct (py_get user_data "token_expires_in" _) as [e|x]; [eauto|].
  destruct (as_number x) as [e|n]; [eauto|].
  destruct (float_of_int n); eauto.
Qed.

(** C2, as the code has it. The validity of a record depends on the record
    and the clock only, and the check changes nothing. When
    [token_expires_in] is missing (then 2,419,200 seconds, 28 days, stand
    in) or is an integer of at most 2^31 seconds in magnitude, the record is
    valid exactly when [token_timestamp] is a string that reads as an
    instant and the age, now minus that instant, is strictly below the time
    to live; so a malformed timestamp gives an invalid record, and so does
    the exact instant of expiry. The age is compared as a double: within
    the bound this is the comparison of the microseconds. *)
Theorem token_validity (w : world) (d : list (string * value)) (ttl : option Z) :
  dict_lookup "token_expires_in" d = JInt <$> ttl ->
  Z.abs (default 2419200 ttl) <= 2 ^ 31 ->
  exists valid : bool,
    is_token_valid fromisoformat (JObj d) w = (inr valid, w)
    /\ (valid = true <->
        exists ts issued,
          dict_lookup "token_timestamp" d = Some (JStr ts)
          /\ fromisoformat (replace_Z ts) = Some issued
          /\ clock w - issued < default 2419200 ttl * 1000000)
    /\ (forall ts issued,
          dict_lookup "token_timestamp" d = Some (JStr ts) ->
          fromisoformat (replace_Z ts) = Some issued ->
          clock w = issued + default 2419200 ttl * 1000000 ->
          valid = false).
Proof.
  intros Httl Hbound.
  unfold is_token_valid, parse_timestamp, try_except, bind, lift, datetime_now, ret.
  cbn [py_index py_get]. rewrite Httl.
  destruct (dict_lookup "token_timestamp" d) as [v|] eqn:Hts.
  2:{ exists false. split; [reflexivity|]. split; [|intros; congruence].
      split; [discriminate|]. intros (ts & issued & H & _). congruence. }
  destruct v as [ | b | n | s | items | members];
    try (exists false; split; [reflexivity|]; split;
         [split; [discriminate|]; intros (ts & issued & H & _); congruence
         |intros; congruence]).
  cbn [as_str].
  destruct (fromisoformat (replace_Z s)) as [issued|] eqn:Hiso.
  2:{ exists false. split; [reflexivity|]. split; [|intros; congruence].
      split; [discriminate|]. intros (ts & issued & H & H' & _). congruence. }
  assert (Hnum : as_number (default (JInt TOKEN_EXPIRY_SECONDS) (JInt <$> ttl))
                 = inr (default 2419200 ttl)).
  { destruct ttl; reflexivity. }
  replace (match JInt <$> ttl with
           | Some v => v
           | None => JInt TOKEN_EXPIRY_SECONDS
           end) with (default (JInt TOKEN_EXPIRY_SECONDS) (JInt <$> ttl))
    by (destruct ttl; reflexivity).
  rewrite Hnum, (float_of_int_small _ Hbound), (age_below _ _ Hbound).
  exists (clock w - issued <? default 2419200 ttl * 1000000).
  split; [reflexivity|]. split.
  - rewrite Z.ltb_lt. split.
    + intros H. exists s, issued. auto.
    + intros (ts & issued' & H1 & H2 & H3). congruence.
  - intros ts issued' H1 H2 Hnow.
    assert (issued' = issued) as -> by congruence.
    apply Z.ltb_ge. lia.
Qed.

End Validity.

Lemma token_validity_witness :
  let d := [ ("login_token", JStr "tok123");
             ("token_timestamp", JStr "2024-11-03T20:00:00Z") ] in
  let w := World true true ∅ (1730664000000000 + 2419200 * 1000000 - 1)
                 (fun _ => HttpFailed) [] in
  dict_lookup "token_expires_in" d = None
  /\ is_token_valid utc_fromisoformat (JObj d) w = (inr true, w).
Proof.
  cbv zeta. split; [reflexivity|].
  destruct (token_validity utc_fromisoformat
              (World true true ∅ (1730664000000000 + 2419200 * 1000000 - 1)
                     (fun _ => HttpFailed) [])
              [ ("login_token", JStr "tok123");
                ("token_timestamp", JStr "2024-11-03T20:00:00Z") ]
              None eq_refl) as (valid & Heq & Hiff & _).
  { cbn. lia. }
  rewrite Heq. f_equal. f_equal. apply Hiff.
  exists "2024-11-03T20:00:00Z", 1730664000000000.
  split; [reflexivity|]. split; [vm_compute; reflexivity|].
  cbn. lia.
Defined.

(** C2, beyond the bound. The claim without a bound on the time to live
    does not hold of the code. A record issued at this very instant with a
    time to live of 10^309 seconds is invalid: the int is too large for the
    float that the log line computes, and the exception makes the check
    answer False. And with a time to live of 2 * 10^10 seconds a record is
    already invalid one microsecond before its expiry: the age, as a
    double, is then the time to live itself. *)
Lemma token_validity_not_for_every_ttl :
  let issued := 1730664000000000 in
  let w := World true true ∅ issued (fun _ => HttpFailed) [] in
  let record ttl := JObj [ ("login_token", JStr "tok123");
                           ("token_timestamp", JStr "2024-11-03T20:00:00Z");
                           ("token_expires_in", JInt ttl) ] in
  utc_fromisoformat (replace_Z "2024-11-03T20:00:00Z") = Some issued
  /\ (clock w - issued < 10 ^ 309 * 1000000
      /\ is_token_valid utc_fromisoformat (record (10 ^ 309)) w = (inr false, w))
  /\ (let w' := with_clock (issued + 20000000000 * 1000000 - 1) w in
      clock w' - issued < 20000000000 * 1000000
      /\ is_token_valid utc_fromisoformat (record 20000000000) w' = (inr false, w')).
Proof.
  cbv zeta. split; [vm_compute; reflexivity|]. split; split.
  - vm_compute. reflexivity.
  - vm_compute. reflexivity.
  - vm_compute. reflexivity.
  - vm_compute. reflexivity.
Qed.

(** ** The credential store *)

Ltac py_unfold :=
  unfold get_json, requests_post, datetime_now;
  unfold try_except, bind, lift, ret.

Ltac py_step H := rewrite H; cbv beta iota zeta; cbn [negb].

(** [get_user_credentials] in one equation: nothing happens without a
    client; otherwise one [get_object], and None unless the object is there
    and decodes. *)
Lemma get_user_credentials_eq (canva_user_id : value) (w : world) :
  get_user_credentials canva_user_id w
  = if s3_client w then
      (inr (default JNull
              ((if s3_up w then bucket w !! filename_of canva_user_id else None)
                 ≫= json_loads)),
       log (S3Get (filename_of canva_user_id)) w)
    else (inr JNull, w).
Proof.
  unfold get_user_credentials. destruct (s3_client w); [|reflexivity].
  cbn [negb]. py_unfold. unfold get_object. cbn [s3_up bucket log].
  destruct (s3_up w); [|reflexivity].
  destruct (bucket w !! filename_of canva_user_id) as [content|]; [|reflexivity].
  cbn [mbind option_bind]. destruct (json_loads content); reflexivity.
Qed.

(** A put in one equation: nothing happens without a client; otherwise one
    [put_object], which replaces the whole object when the backend answers. *)
Lemma update_user_credentials_eq (canva_user_id updated_data : value) (w : world) :
  update_user_credentials canva_user_id updated_data w
  = if s3_client w then
      let key := filename_of canva_user_id in
      let w1 := log (S3Put key (json_dumps updated_data)) w in
      if s3_up w
      then (inr true, set_bucket (<[key := json_dumps updated_data]> (bucket w)) w1)
      else (inr false, w1)
    else (inr false, w).
Proof.
  unfold update_user_credentials. destruct (s3_client w); [|reflexivity].
  cbn [negb]. py_unfold. unfold put_object. cbn [s3_up bucket log].
  destruct (s3_up w); reflexivity.
Qed.

Section Store.

Variable isoformat : Z -> string.

Lemma store_user_credentials_eq
      (canva_user_id workspace_id client_id client_secret login_token : value)
      (expires_in : Z) (w : world) :
  store_user_credentials isoformat canva_user_id workspace_id client_id
    client_secret login_token expires_in w
  = update_user_credentials canva_user_id
      (JObj [ ("canva_user_id", canva_user_id);
              ("workspace_id", workspace_id);
              ("client_id", client_id);
              ("client_secret", client_secret);
              ("login_token", login_token);
              ("token_timestamp", JStr (isoformat (clock w)));
              ("token_expires_in", JInt expires_in) ]) w.
Proof.
  rewrite update_user_credentials_eq. unfold store_user_credentials.
  destruct (s3_client w); [|reflexivity].
  cbn [negb]. py_unfold. unfold put_object. cbn [s3_up bucket log].
  destruct (s3_up w); reflexivity.
Qed.

(** C7. A put that succeeded, followed by a get for the same user with no
    write in between, gives back the record that was put: the key is the
    same function of the user id on both sides, the object is replaced
    whole, and decoding undoes encoding. The record is any well-formed
    value, that is, its dicts have distinct keys. *)
Theorem put_then_get (canva_user_id r : value) (w : world) :
  wf r = true ->
  fst (update_user_credentials canva_user_id r w) = inr true ->
  fst (get_user_credentials canva_user_id
         (snd (update_user_credentials canva_user_id r w))) = inr r.
Proof.
  intros Hwf. rewrite update_user_credentials_eq.
  destruct (s3_client w) eqn:Hclient; [|discriminate]. cbv zeta.
  destruct (s3_up w) eqn:Hup; [|discriminate]. intros _. cbn [snd].
  rewrite get_user_credentials_eq. cbn [s3_client s3_up bucket set_bucket log].
  rewrite Hclient, Hup, lookup_insert_eq. cbn [mbind option_bind fst].
  rewrite json_loads_dumps by exact Hwf. reflexivity.
Qed.

(** The same for the record that [store_user_credentials] builds from its
    arguments and the clock. *)
Lemma store_then_get
      (canva_user_id workspace_id client_id client_secret login_token : value)
      (expires_in : Z) (w : world) :
  forallb wf [canva_user_id; workspace_id; client_id; client_secret; login_token]
  = true ->
  fst (store_user_credentials isoformat canva_user_id workspace_id client_id
         client_secret login_token expires_in w) = inr true ->
  fst (get_user_credentials canva_user_id
         (snd (store_user_credentials isoformat canva_user_id workspace_id client_id
                 client_secret login_token expires_in w)))
  = inr (JObj [ ("canva_user_id", canva_user_id);
                ("workspace_id", workspace_id);
                ("client_id", client_id);
                ("client_secret", client_secret);
                ("login_token", login_token);
                ("token_timestamp", JStr (isoformat (clock w)));
                ("token_expires_in", JInt expires_in) ]).
Proof.
  intros Hwf. rewrite store_user_credentials_eq, update_user_credentials_eq.
  destruct (s3_client w) eqn:Hclient; [|discriminate]. cbv zeta.
  destruct (s3_up w) eqn:Hup; [|discriminate]. intros _. cbn [snd].
  rewrite get_user_credentials_eq. cbn [s3_client s3_up bucket set_bucket log].
  rewrite Hclient, Hup, lookup_insert_eq. cbn [mbind option_bind fst].
  rewrite json_loads_dumps; [reflexivity|].
  cbn [forallb] in Hwf. cbn [wf map fst snd forallb].
  destruct (wf canva_user_id), (wf workspace_id), (wf client_id),
    (wf client_secret), (wf login_token); try discriminate.
  reflexivity.
Qed.

End Store.

Lemma put_then_get_witness :
  let r := JObj [ ("canva_user_id", JStr "u1");
                  ("login_token", JStr "tok123");
                  ("token_expires_in", JInt 2419200);
                  ("phoneNumber", JStr "+15550100") ] in
  let w := World true true ∅ 0 (fun _ => HttpFailed) [] in
  wf r = true
  /\ fst (update_user_credentials (JStr "u1") r w) = inr true
  /\ fst (get_user_credentials (JStr "u1")
            (snd (update_user_credentials (JStr "u1") r w))) = inr r.
Proof.
  cbv zeta. split; [reflexivity|]. split; [reflexivity|].
  apply (put_then_get (JStr "u1")
           (JObj [ ("canva_user_id", JStr "u1");
                   ("login_token", JStr "tok123");
                   ("token_expires_in", JInt 2419200);
                   ("phoneNumber", JStr "+15550100") ])
           (World true true ∅ 0 (fun _ => HttpFailed) [])); reflexivity.
Defined.

(** ** Login and refresh around the call to the auth API *)

Lemma token_or_access_token_raises (auth_data : value) (e : exn) :
  token_or_access_token auth_data = inl e -> e = AttributeError.
Proof.
  unfold token_or_access_token.
  destruct auth_data as [ | b | n | s | items | members]; cbn [py_get];
    try congruence.
  destruct (truthy _); discriminate.
Qed.

Lemma get_user_credentials_truthy (canva_user_id user_data : value) (w : world) :
  fst (get_user_credentials canva_user_id w) = inr user_data ->
  truthy user_data = true ->
  get_user_credentials canva_user_id w
  = (inr user_data, log (S3Get (filename_of canva_user_id)) w).
Proof.
  rewrite get_user_credentials_eq. destruct (s3_client w); cbn [fst].
  - intros [= <-] _. reflexivity.
  - intros [= <-]. discriminate.
Qed.

Section AuthCall.

Variable isoformat : Z -> string.

(** What happens once the API has answered: the rest of either handler. *)
Lemma api_answered (op : operation) (req : request) (w w0 : world)
      (canva_user_id workspace_id client_id client_secret : value) (sig : string)
      (status_code : Z) (text : string) :
  reaches_api op req w canva_user_id workspace_id client_id client_secret sig w0 ->
  zotok w (auth_payload_of workspace_id client_id sig) = HttpResponse status_code text ->
  run isoformat op req w
  = let w1 := log (HttpPost auth_url (auth_payload_of workspace_id client_id sig)) w0 in
    if rejected status_code
    then (inr (jsonify
                 [ ("success", JBool false);
                   ("error", JStr (rejected_message op));
                   ("details", JStr text);
                   ("status_code", JInt status_code) ] 401), w1)
    else
      match json_loads text with
      | None =>
          (inr (jsonify
                  [ ("success", JBool false);
                    ("error", JStr (invalid_json_message op));
                    ("details", JStr text) ] 401), w1)
      | Some auth_data =>
          match token_or_access_token auth_data with
          | inl _ => (inr (failure (exception_message op) 500), w1)
          | inr login_token =>
              if negb (truthy login_token)
              then (inr (failure (no_token_message op) 401), w1)
              else
                match update_user_credentials canva_user_id
                        (credentials_record isoformat canva_user_id workspace_id
                           client_id client_secret login_token (clock w)) w1
                with
                | (inr true, w2) =>
                    (inr (jsonify
                            [ ("success", JBool true);
                              ("token", login_token);
                              ("expires_in", JInt TOKEN_EXPIRY_SECONDS);
                              ("message", JStr (stored_message op)) ] 200), w2)
                | (_, w2) => (inr (failure (store_failed_message op) 500), w2)
                end
          end
      end.
Proof.
  intros Hreach Hapi.
  destruct Hreach as
    [ req w data workspace_id client_id client_secret canva_user_id sig
        Hjson Hws Hcid Hsec Huid Hall Hsig
    | req w data user_data workspace_id client_id client_secret canva_user_id sig
        Hjson Huid Htruthy Hget Hdata Hws Hcid Hsec Hsig ];
    cbn [run].
  - unfold login. py_unfold.
    py_step Hjson. py_step Hws. py_step Hcid. py_step Hsec. py_step Huid.
    py_step Hall. py_step Hsig. cbn [zotok log]. py_step Hapi.
    destruct (rejected status_code); [reflexivity|].
    destruct (json_loads text) as [auth_data|]; [|reflexivity].
    destruct (token_or_access_token auth_data) as [e|login_token] eqn:Htok.
    { apply token_or_access_token_raises in Htok as ->. reflexivity. }
    destruct (truthy login_token); [|reflexivity]. cbn [negb].
    rewrite store_user_credentials_eq. unfold credentials_record. cbn [clock log].
    destruct (update_user_credentials _ _ _) as [[e|[]] w2] eqn:Hstore;
      try reflexivity.
    exfalso. revert Hstore. rewrite update_user_credentials_eq.
    destruct (s3_client _); [|discriminate]. cbv zeta.
    destruct (s3_up _); discriminate.
  - unfold refresh_token. py_unfold.
    py_step Hjson. py_step Huid. py_step Htruthy.
    rewrite (get_user_credentials_truthy _ _ _ Hget Hdata). cbv beta iota zeta.
    py_step Hdata. py_step Hws. py_step Hcid. py_step Hsec. py_step Hsig.
    cbn [zotok log]. py_step Hapi.
    destruct (rejected status_code); [reflexivity|].
    destruct (json_loads text) as [auth_data|]; [|reflexivity].
    destruct (token_or_access_token auth_data) as [e|login_token] eqn:Htok.
    { reflexivity. }
    destruct (truthy login_token); [|reflexivity]. cbn [negb].
    rewrite store_user_credentials_eq. unfold credentials_record. cbn [clock log].
    destruct (update_user_credentials _ _ _) as [[e|[]] w2] eqn:Hstore;
      try reflexivity.
    exfalso. revert Hstore. rewrite update_user_credentials_eq.
    destruct (s3_client _); [|discriminate]. cbv zeta.
    destruct (s3_up _); discriminate.
Qed.

(** What happens when the call itself fails. *)
Lemma api_failed (op : operation) (req : request) (w w0 : world)
      (canva_user_id workspace_id client_id client_secret : value) (sig : string) :
  reaches_api op req w canva_user_id workspace_id client_id client_secret sig w0 ->
  zotok w (auth_payload_of workspace_id client_id sig) = HttpFailed ->
  run isoformat op req w
  = (inr (failure match op with
                  | OpLogin => "Network error during authentication"
                  | OpRefresh => "Error refreshing token"
                  end 500),
     log (HttpPost auth_url (auth_payload_of workspace_id client_id sig)) w0).
Proof.
  intros Hreach Hapi.
  destruct Hreach as
    [ req w data workspace_id client_id client_secret canva_user_id sig
        Hjson Hws Hcid Hsec Huid Hall Hsig
    | req w data user_data workspace_id client_id client_secret canva_user_id sig
        Hjson Huid Htruthy Hget Hdata Hws Hcid Hsec Hsig ];
    cbn [run].
  - unfold login. py_unfold.
    py_step Hjson. py_step Hws. py_step Hcid. py_step Hsec. py_step Huid.
    py_step Hall. py_step Hsig. cbn [zotok log]. py_step Hapi. reflexivity.
  - unfold refresh_token. py_unfold.
    py_step Hjson. py_step Huid. py_step Htruthy.
    rewrite (get_user_credentials_truthy _ _ _ Hget Hdata). cbv beta iota zeta.
    py_step Hdata. py_step Hws. py_step Hcid. py_step Hsec. py_step Hsig.
    cbn [zotok log]. py_step Hapi. reflexivity.
Qed.

End AuthCall.

(** Up to the call, neither operation writes: the world at the time of the
    call has the bucket it began with and no new put or post in its trace. *)
Lemma reaches_api_world (op : operation) (req : request) (w w0 : world)
      (canva_user_id workspace_id client_id client_secret : value) (sig : string) :
  reaches_api op req w canva_user_id workspace_id client_id client_secret sig w0 ->
  bucket w0 = bucket w
  /\ clock w0 = clock w
  /\ (trace w0 = trace w \/ trace w0 = S3Get (filename_of canva_user_id) :: trace w).
Proof. destruct 1; cbn [bucket clock trace log]; auto. Qed.

Lemma still_in_trace (w w0 : world) (e : event) (e' : value) (k : string) :
  (trace w0 = trace w \/ trace w0 = S3Get k :: trace w) ->
  (forall url payload, e <> HttpPost url payload) ->
  (forall key, e <> S3Get key) ->
  In e (trace (log (HttpPost auth_url e') w0)) -> In e (trace w).
Proof.
  intros Htrace Hpost Hget. cbn [trace log In].
  intros [H|H]; [exfalso; exact (Hpost _ _ (eq_sym H))|].
  destruct Htrace as [Ht|Ht]; rewrite Ht in H; [exact H|].
  destruct H as [H|H]; [exfalso; exact (Hget _ (eq_sym H))|exact H].
Qed.

Section AuthOutcomes.

Variable isoformat : Z -> string.

(** C3. A login request with its four fields present, answered by the auth
    API with a status other than 200, 201 and 202, fails with status 401 and
    the error of a rejected authentication, carrying the upstream body and
    status; the only outbound call is the post to the API: there is no put,
    and the bucket is what it was. *)
Theorem login_auth_rejected (req : request) (w : world)
      (canva_user_id workspace_id client_id client_secret : value) (sig : string)
      (status_code : Z) (text : string) :
  reaches_api OpLogin req w canva_user_id workspace_id client_id client_secret sig w ->
  zotok w (auth_payload_of workspace_id client_id sig) = HttpResponse status_code text ->
  ~ In status_code [200; 201; 202] ->
  exists w',
    login isoformat req w
    = (inr (jsonify
              [ ("success", JBool false);
                ("error", JStr "Authentication failed with Zotok API");
                ("details", JStr text);
                ("status_code", JInt status_code) ] 401), w')
    /\ bucket w' = bucket w
    /\ trace w' = HttpPost auth_url (auth_payload_of workspace_id client_id sig) :: trace w
    /\ (forall key body, In (S3Put key body) (trace w') -> In (S3Put key body) (trace w)).
Proof.
  intros Hreach Hapi Hstatus.
  pose proof (api_answered isoformat _ _ _ _ _ _ _ _ _ _ _ Hreach Hapi) as Hrun.
  cbn [run] in Hrun.
  assert (Hrej : rejected status_code = true).
  { unfold rejected. cbn [existsb In] in *. apply negb_true_iff.
    repeat (apply orb_false_iff; split); try reflexivity; apply Z.eqb_neq; intuition. }
  rewrite Hrej in Hrun. cbv zeta in Hrun.
  eexists. split; [exact Hrun|]. cbn [bucket trace log].
  split; [reflexivity|]. split; [reflexivity|].
  intros key body [H|H]; [discriminate|exact H].
Qed.

(** C5. When the API has answered with an accepted status and a JSON
    object, the token that login or refresh goes on with is looked up under
    the candidate names [token] then [access_token], in this order: a truthy
    [token] is taken even when [access_token] is there too, and
    [access_token] is taken when [token] is absent or falsy. With a truthy
    token the operation writes the record that carries it and answers 200
    with it (500 when the store fails); when the object has neither field,
    the operation fails with status 401 and the error of a missing token,
    and stores nothing. *)
Theorem token_candidates_in_order (op : operation) (req : request) (w w0 : world)
      (canva_user_id workspace_id client_id client_secret : value) (sig : string)
      (status_code : Z) (text : string) (fields : list (string * value)) :
  reaches_api op req w canva_user_id workspace_id client_id client_secret sig w0 ->
  zotok w (auth_payload_of workspace_id client_id sig) = HttpResponse status_code text ->
  In status_code [200; 201; 202] ->
  json_loads text = Some (JObj fields) ->
  let login_token := try_candidates ["token"; "access_token"] fields in
  let w1 := log (HttpPost auth_url (auth_payload_of workspace_id client_id sig)) w0 in
  (forall v, dict_lookup "token" fields = Some v -> truthy v = true -> login_token = v)
  /\ ((forall v, dict_lookup "token" fields = Some v -> truthy v = false) ->
      login_token = default JNull (dict_lookup "access_token" fields))
  /\ (truthy login_token = true ->
      run isoformat op req w
      = match update_user_credentials canva_user_id
                (credentials_record isoformat canva_user_id workspace_id client_id
                   client_secret login_token (clock w)) w1
        with
        | (inr true, w2) => (inr (stored_response op login_token), w2)
        | (_, w2) => (inr (failure (store_failed_message op) 500), w2)
        end)
  /\ (dict_lookup "token" fields = None ->
      dict_lookup "access_token" fields = None ->
      exists w',
        run isoformat op req w = (inr (failure (no_token_message op) 401), w')
        /\ bucket w' = bucket w
        /\ (forall key body,
              In (S3Put key body) (trace w') -> In (S3Put key body) (trace w))).
Proof.
  intros Hreach Hapi Hstatus Hjson. cbv zeta.
  pose proof (api_answered isoformat _ _ _ _ _ _ _ _ _ _ _ Hreach Hapi) as Hrun.
  assert (Hrej : rejected status_code = false).
  { unfold rejected. cbn [In] in Hstatus.
    destruct Hstatus as [<-|[<-|[<-|[]]]]; reflexivity. }
  rewrite Hrej, Hjson in Hrun. cbv zeta in Hrun.
  assert (Htok : token_or_access_token (JObj fields)
                 = inr (try_candidates ["token"; "access_token"] fields)).
  { unfold token_or_access_token. cbn [py_get try_candidates].
    destruct (dict_lookup "token" fields); cbn [default];
      destruct (truthy _); reflexivity. }
  split; [|split; [|split]].
  - intros v Hv Ht. cbn [try_candidates]. rewrite Hv.
    change (default JNull (Some v)) with v. rewrite Ht. reflexivity.
  - intros Hfalsy. cbn [try_candidates].
    destruct (dict_lookup "token" fields) as [v|] eqn:Hv.
    + change (default JNull (Some v)) with v. rewrite (Hfalsy v eq_refl). reflexivity.
    + reflexivity.
  - intros Htruthy. rewrite Htok, Htruthy in Hrun. cbn [negb] in Hrun. exact Hrun.
  - intros Htoken Haccess.
    unfold token_or_access_token in Hrun. cbn [py_get] in Hrun.
    rewrite Htoken, Haccess in Hrun. cbn [truthy negb] in Hrun.
    eexists. split; [exact Hrun|].
    destruct (reaches_api_world _ _ _ _ _ _ _ _ _ Hreach) as (Hb & _ & Ht).
    cbn [bucket log]. split; [exact Hb|].
    intros key body. apply (still_in_trace _ _ _ _ _ Ht); discriminate.
Qed.

(** C6. A refresh for a user id under whose key the bucket holds nothing
    fails with status 404 and the error of missing credentials. The lookup
    in the store is all that happens: no request is posted to the auth API. *)
Theorem refresh_without_record (req : request) (w : world) (data canva_user_id : value) :
  json req = Some data ->
  py_get data "canvaUserId" JNull = inr canva_user_id ->
  truthy canva_user_id = true ->
  bucket w !! filename_of canva_user_id = None ->
  exists w',
    refresh_token isoformat req w
    = (inr (failure "No stored credentials found" 404), w')
    /\ bucket w' = bucket w
    /\ trace w'
       = (if s3_client w then [S3Get (filename_of canva_user_id)] else []) ++ trace w
    /\ (forall url payload,
          In (HttpPost url payload) (trace w') -> In (HttpPost url payload) (trace w)).
Proof.
  intros Hjson Huid Htruthy Hnone.
  unfold refresh_token. py_unfold. py_step Hjson. py_step Huid. py_step Htruthy.
  rewrite get_user_credentials_eq, Hnone.
  destruct (s3_client w), (s3_up w); cbn [mbind option_bind default truthy negb];
    eexists; (split; [reflexivity|]); cbn [bucket trace log app];
    (split; [reflexivity|]); (split; [reflexivity|]);
    intros url payload H; try exact H;
    destruct H as [H|H]; [discriminate H|exact H|discriminate H|exact H].
Qed.

End AuthOutcomes.

Lemma example_login_reaches (api : value -> http_result) :
  reaches_api OpLogin example_login_request (empty_world api)
    (JStr "u1") (JStr "w1") (JStr "c1") (JStr "s1")
    "4bd7448960b23104cf3df811d4436d07790ea8fefae01545184d3c91a742dcb4"
    (empty_world api).
Proof.
  apply (login_reaches example_login_request (empty_world api)
           (JObj [ ("workspaceId", JStr "w1");
                   ("clientId", JStr "c1");
                   ("clientSecret", JStr "s1");
                   ("canvaUserId", JStr "u1") ]));
    vm_compute; reflexivity.
Defined.

Lemma example_refresh_reaches (api : value -> http_result) :
  reaches_api OpRefresh example_refresh_request (example_world api)
    (JStr "u1") (JStr "w1") (JStr "c1") (JStr "s1")
    "4bd7448960b23104cf3df811d4436d07790ea8fefae01545184d3c91a742dcb4"
    (log (S3Get "canva-catalog-app/u1.json") (example_world api)).
Proof.
  apply (refresh_reaches example_refresh_request (example_world api)
           (JObj [ ("canvaUserId", JStr "u1") ]) example_record);
    vm_compute; reflexivity.
Defined.

Lemma login_auth_rejected_witness :
  exists r w',
    login utc_isoformat example_login_request (empty_world (stub_api 403 "Forbidden"))
    = (inr r, w')
    /\ status r = 401
    /\ dict_lookup "status_code" (body r) = Some (JInt 403)
    /\ bucket w' = ∅.
Proof.
  destruct (login_auth_rejected utc_isoformat example_login_request
              (empty_world (stub_api 403 "Forbidden"))
              (JStr "u1") (JStr "w1") (JStr "c1") (JStr "s1") _ 403 "Forbidden"
              (example_login_reaches _) eq_refl) as (w' & Hrun & Hbucket & _).
  { cbn. lia. }
  eexists _, w'. split; [exact Hrun|]. repeat split. exact Hbucket.
Defined.

Lemma token_candidates_in_order_witness :
  let text := json_dumps (JObj [ ("access_token", JStr "tokB");
                                 ("token", JStr "tokA") ]) in
  fst (refresh_token utc_isoformat example_refresh_request
         (example_world (stub_api 200 text)))
  = inr (jsonify [ ("success", JBool true);
                   ("token", JStr "tokA");
                   ("expires_in", JInt 2419200);
                   ("message", JStr "Token refreshed successfully - valid for 28 days") ]
           200).
Proof.
  cbv zeta.
  destruct (token_candidates_in_order utc_isoformat OpRefresh example_refresh_request
              (example_world
                 (stub_api 200 (json_dumps (JObj [ ("access_token", JStr "tokB");
                                                   ("token", JStr "tokA") ]))))
              _ (JStr "u1") (JStr "w1") (JStr "c1") (JStr "s1") _ 200
              (json_dumps (JObj [ ("access_token", JStr "tokB");
                                  ("token", JStr "tokA") ]))
              [ ("access_token", JStr "tokB"); ("token", JStr "tokA") ]
              (example_refresh_reaches _) eq_refl) as (_ & _ & Hrun & _).
  { cbn. lia. }
  { vm_compute. reflexivity. }
  specialize (Hrun eq_refl). cbn [run] in Hrun.
  rewrite Hrun. vm_compute. reflexivity.
Defined.

Lemma refresh_without_record_witness :
  exists w',
    refresh_token utc_isoformat example_refresh_request (empty_world (stub_api 200 ""))
    = (inr (failure "No stored credentials found" 404), w')
    /\ trace w' = [S3Get "canva-catalog-app/u1.json"].
Proof.
  destruct (refresh_without_record utc_isoformat example_refresh_request
              (empty_world (stub_api 200 "")) _ (JStr "u1")
              eq_refl eq_refl eq_refl eq_refl) as (w' & Hrun & _ & Htrace & _).
  exists w'. split; [exact Hrun|exact Htrace].
Defined.

(** ** Settings *)

Section Settings.

Variable isoformat : Z -> string.
Variable fromisoformat : string -> option Z.

(** C8. A settings update whose phone number is empty, or blank once
    stripped, is refused with status 400 before anything else happens:
    the world, and with it the store and the trace of calls to it, is
    exactly what it was. For a request that names its user the error is that
    the phone number is required. *)
Theorem set_phone_empty (req : request) (w : world) (data canva_user_id : value)
      (phone_number : string) :
  method req = POST ->
  json req = Some data ->
  truthy data = true ->
  py_get data "canvaUserId" JNull = inr canva_user_id ->
  py_get data "phoneNumber" (JStr "") = inr (JStr phone_number) ->
  strip phone_number = "" ->
  user_settings isoformat fromisoformat req w
  = (inr (failure (if truthy canva_user_id then "Phone number is required"
                   else "Missing canvaUserId") 400), w).
Proof.
  intros Hmethod Hjson Hdata Huid Hphone Hstrip.
  unfold user_settings. py_unfold. rewrite Hmethod.
  py_step Hjson. py_step Hdata. py_step Huid. py_step Hphone. cbn [as_str].
  rewrite Hstrip. destruct (truthy canva_user_id); reflexivity.
Qed.

End Settings.

Lemma set_phone_empty_witness :
  let w := example_world (stub_api 200 "") in
  user_settings utc_isoformat utc_fromisoformat (set_phone_request "u1" "") w
  = (inr (failure "Phone number is required" 400), w).
Proof.
  cbv zeta.
  eapply (set_phone_empty utc_isoformat utc_fromisoformat (set_phone_request "u1" "")
            (example_world (stub_api 200 "")) _ (JStr "u1") "");
    reflexivity.
Defined.

(** A phone number made of white space only is refused in the same way. *)
Example set_phone_blank :
  fst (user_settings utc_isoformat utc_fromisoformat
         (set_phone_request "u1" "   ") (example_world (stub_api 200 "")))
  = inr (failure "Phone number is required" 400).
Proof. vm_compute. reflexivity. Qed.

(** ** An unavailable store *)

Section Unavailable.

Variable isoformat : Z -> string.
Variable fromisoformat : string -> option Z.

(** C9, as the code has it. Without a client, a get returns None, which is
    also what it returns for a missing key, a put returns False, and neither
    calls the backend; [get_token] then answers 404 with the error of missing
    credentials, and no exception leaves the handler. *)
Theorem store_unavailable (req : request) (w : world) (canva_user_id r : value)
      (u : string) :
  s3_client w = false ->
  args_get "canvaUserId" (args req) = Some u ->
  u <> "" ->
  get_user_credentials canva_user_id w = (inr JNull, w)
  /\ update_user_credentials canva_user_id r w = (inr false, w)
  /\ (forall workspace_id client_id client_secret login_token expires_in,
        store_user_credentials isoformat canva_user_id workspace_id client_id
          client_secret login_token expires_in w = (inr false, w))
  /\ get_token fromisoformat req w
     = (inr (failure "No stored credentials found" 404), w).
Proof.
  intros Hclient Hargs Hu. repeat split.
  - rewrite get_user_credentials_eq, Hclient. reflexivity.
  - rewrite update_user_credentials_eq, Hclient. reflexivity.
  - intros. rewrite store_user_credentials_eq, update_user_credentials_eq, Hclient.
    reflexivity.
  - unfold get_token. py_unfold. rewrite Hargs. cbn [missing default].
    apply String.eqb_neq in Hu. rewrite Hu.
    rewrite get_user_credentials_eq, Hclient. reflexivity.
Qed.

End Unavailable.

Lemma store_unavailable_witness :
  let w := unavailable_world (stub_api 200 "") in
  get_user_credentials (JStr "u1") w = (inr JNull, w)
  /\ get_token utc_fromisoformat example_token_request w
     = (inr (failure "No stored credentials found" 404), w).
Proof.
  cbv zeta.
  destruct (store_unavailable utc_isoformat utc_fromisoformat example_token_request
              (unavailable_world (stub_api 200 "")) (JStr "u1") JNull "u1"
              eq_refl eq_refl) as (Hget & _ & _ & Htoken).
  { discriminate. }
  split; [exact Hget|exact Htoken].
Defined.

(** With the client missing, [get_token] answers 404, not 500, and its
    response is the very one it gives, with a working client, for a user
    that has no record: the two cases cannot be told apart. *)
Lemma store_unavailable_not_distinct :
  let down := unavailable_world (stub_api 200 "") in
  let up := empty_world (stub_api 200 "") in
  s3_client down = false
  /\ s3_client up = true
  /\ bucket up !! filename_of (JStr "u1") = None
  /\ fst (get_user_credentials (JStr "u1") down)
     = fst (get_user_credentials (JStr "u1") up)
  /\ fst (get_token utc_fromisoformat example_token_request down)
     = fst (get_token utc_fromisoformat example_token_request up)
  /\ status_of (fst (get_token utc_fromisoformat example_token_request down))
     = Some 404
  /\ status_of (fst (get_token utc_fromisoformat example_token_request down))
     <> Some 500.
Proof. cbv zeta. repeat split; vm_compute; congruence. Qed.

(** ** Refresh and the phone number *)

(** C1, on the code. The stored record carries a phone number; the refresh
    succeeds; the record read back afterwards has the new token and the
    seven fields that [store_user_credentials] writes, and no phone number. *)
Theorem refresh_drops_phone_number :
  let api := stub_api 200 (json_dumps (JObj [("token", JStr "tok456")])) in
  let w := example_world api in
  let before := fst (get_user_credentials (JStr "u1") w) in
  let run := refresh_token utc_isoformat example_refresh_request w in
  let after := fst (get_user_credentials (JStr "u1") (snd run)) in
  let rewritten :=
    credentials_record utc_isoformat (JStr "u1") (JStr "w1") (JStr "c1") (JStr "s1")
      (JStr "tok456") example_now in
  before = inr example_record
  /\ py_index example_record "phoneNumber" = inr (JStr "+15550100")
  /\ status_of (fst run) = Some 200
  /\ after = inr rewritten
  /\ py_index rewritten "phoneNumber" = inl KeyError.
Proof. cbv zeta. repeat split; vm_compute; reflexivity. Qed.

(** ** No empty token is stored *)

Ltac stops_early :=
  right; eexists _, _; split; [reflexivity|cbn [trace log]; eauto].

Section TokenInvariant.

Variable isoformat : Z -> string.

(** A request either gets as far as the call to the auth API, or is
    answered before it, with at most a get sent to the store. *)
Lemma before_api (op : operation) (req : request) (w : world) :
  (exists canva_user_id workspace_id client_id client_secret sig w0,
      reaches_api op req w canva_user_id workspace_id client_id client_secret sig w0)
  \/ (exists r w',
        run isoformat op req w = (inr r, w')
        /\ (trace w' = trace w \/ exists key, trace w' = S3Get key :: trace w)).
Proof.
  destruct op; cbn [run].
  - unfold login. py_unfold.
    destruct (json req) as [data|] eqn:Hjson; [|stops_early].
    destruct (py_get data "workspaceId" JNull) as [e|workspace_id] eqn:Hws;
      [destruct e; stops_early|].
    destruct (py_get data "clientId" JNull) as [e|client_id] eqn:Hcid;
      [destruct e; stops_early|].
    destruct (py_get data "clientSecret" JNull) as [e|client_secret] eqn:Hsec;
      [destruct e; stops_early|].
    destruct (py_get data "canvaUserId" JNull) as [e|canva_user_id] eqn:Huid;
      [destruct e; stops_early|].
    destruct (forallb truthy [workspace_id; client_id; client_secret; canva_user_id])
      eqn:Hall; [|stops_early].
    destruct (create_hmac_signature workspace_id client_id client_secret)
      as [e|sig] eqn:Hsig; [destruct e; stops_early|].
    left. eexists _, _, _, _, _, _. eapply login_reaches; eassumption.
  - unfold refresh_token. py_unfold.
    destruct (json req) as [data|] eqn:Hjson; [|stops_early].
    destruct (py_get data "canvaUserId" JNull) as [e|canva_user_id] eqn:Huid;
      [stops_early|].
    destruct (truthy canva_user_id) eqn:Htruthy; [|stops_early]. cbn [negb].
    destruct (get_user_credentials canva_user_id w) as [got w0] eqn:Hget.
    pose proof Hget as Hget'. rewrite get_user_credentials_eq in Hget'.
    destruct (s3_client w) eqn:Hclient; injection Hget' as <- <-;
      [|stops_early].
    set (user_data := default JNull _) in *.
    destruct (truthy user_data) eqn:Hdata; [|stops_early]. cbn [negb].
    destruct (py_index user_data "workspace_id") as [e|workspace_id] eqn:Hws;
      [stops_early|].
    destruct (py_index user_data "client_id") as [e|client_id] eqn:Hcid;
      [stops_early|].
    destruct (py_index user_data "client_secret") as [e|client_secret] eqn:Hsec;
      [stops_early|].
    destruct (create_hmac_signature workspace_id client_id client_secret)
      as [e|sig] eqn:Hsig; [stops_early|].
    left. eexists _, _, _, _, _, _.
    eapply (refresh_reaches req w data user_data); try eassumption.
    rewrite Hget. reflexivity.
Qed.

(** Every put that login or refresh sends writes a record whose token is
    truthy. *)
Lemma put_carries_token (op : operation) (req : request) (w : world)
      (key body : string) :
  In (S3Put key body) (trace (snd (run isoformat op req w))) ->
  In (S3Put key body) (trace w)
  \/ exists canva_user_id workspace_id client_id client_secret login_token,
       truthy login_token = true
       /\ key = filename_of canva_user_id
       /\ body = json_dumps
                   (credentials_record isoformat canva_user_id workspace_id client_id
                      client_secret login_token (clock w)).
Proof.
  destruct (before_api op req w)
    as [(canva_user_id & workspace_id & client_id & client_secret & sig & w0 & Hreach)
       |(r & w' & -> & Htrace)].
  2:{ cbn [snd]. destruct Htrace as [->|[k ->]]; [auto|].
      intros [H|H]; [discriminate|auto]. }
  destruct (reaches_api_world _ _ _ _ _ _ _ _ _ Hreach) as (_ & _ & Ht).
  destruct (zotok w (auth_payload_of workspace_id client_id sig))
    as [|status_code text] eqn:Hapi.
  { rewrite (api_failed isoformat _ _ _ _ _ _ _ _ _ Hreach Hapi). cbn [snd].
    intros H. left. revert H. apply (still_in_trace _ _ _ _ _ Ht); discriminate. }
  rewrite (api_answered isoformat _ _ _ _ _ _ _ _ _ _ _ Hreach Hapi). cbv zeta.
  assert (Hkeep : In (S3Put key body)
                    (trace (log (HttpPost auth_url
                                   (auth_payload_of workspace_id client_id sig)) w0)) ->
                  In (S3Put key body) (trace w)).
  { apply (still_in_trace _ _ _ _ _ Ht); discriminate. }
  destruct (rejected status_code); [cbn [snd]; auto|].
  destruct (json_loads text) as [auth_data|]; [|cbn [snd]; auto].
  destruct (token_or_access_token auth_data) as [e|login_token]; [cbn [snd]; auto|].
  destruct (truthy login_token) eqn:Htoken; [|cbn [snd]; auto]. cbn [negb].
  rewrite update_user_credentials_eq. cbn [s3_client s3_up log].
  destruct (s3_client w0); [|cbn [snd]; auto]. cbv zeta.
  assert (Hput : In (S3Put key body)
                   (S3Put (filename_of canva_user_id)
                      (json_dumps
                         (credentials_record isoformat canva_user_id workspace_id
                            client_id client_secret login_token (clock w)))
                    :: trace (log (HttpPost auth_url
                                     (auth_payload_of workspace_id client_id sig)) w0)) ->
                 In (S3Put key body) (trace w)
                 \/ exists canva_user_id workspace_id client_id client_secret login_token,
                      truthy login_token = true
                      /\ key = filename_of canva_user_id
                      /\ body = json_dumps
                                  (credentials_record isoformat canva_user_id
                                     workspace_id client_id client_secret login_token
                                     (clock w))).
  { intros [H|H]; [|auto]. injection H as <- <-. right.
    exists canva_user_id, workspace_id, client_id, client_secret, login_token. auto. }
  destruct (s3_up w0); cbn [snd trace set_bucket log]; exact Hput.
Qed.

(** C10. Every record that login or refresh writes has a login token that
    is truthy, hence not the empty string. A response in which each of
    [token] and [access_token] is absent or the empty string makes the
    operation fail with status 401 and the error of a missing token, and
    nothing is stored: an empty field counts like a missing one. *)
Theorem empty_token_never_stored (op : operation) (req : request) (w : world) :
  (forall key body,
      In (S3Put key body) (trace (snd (run isoformat op req w))) ->
      ~ In (S3Put key body) (trace w) ->
      exists record login_token,
        body = json_dumps record
        /\ py_index record "login_token" = inr login_token
        /\ truthy login_token = true
        /\ login_token <> JStr "")
  /\ (forall canva_user_id workspace_id client_id client_secret sig w0
             status_code text fields,
        reaches_api op req w canva_user_id workspace_id client_id client_secret sig w0 ->
        zotok w (auth_payload_of workspace_id client_id sig)
        = HttpResponse status_code text ->
        In status_code [200; 201; 202] ->
        json_loads text = Some (JObj fields) ->
        (forall name, In name ["token"; "access_token"] ->
                      dict_lookup name fields = None
                      \/ dict_lookup name fields = Some (JStr "")) ->
        exists w',
          run isoformat op req w = (inr (failure (no_token_message op) 401), w')
          /\ bucket w' = bucket w
          /\ (forall key body,
                In (S3Put key body) (trace w') -> In (S3Put key body) (trace w))).
Proof.
  split.
  - intros key body Hin Hnew.
    destruct (put_carries_token op req w key body Hin)
      as [H|(canva_user_id & workspace_id & client_id & client_secret & login_token
             & Htoken & _ & ->)]; [contradiction|].
    eexists _, login_token. split; [reflexivity|]. split; [reflexivity|].
    split; [exact Htoken|]. intros ->. discriminate.
  - intros canva_user_id workspace_id client_id client_secret sig w0
           status_code text fields Hreach Hapi Hstatus Hjson Hempty.
    pose proof (api_answered isoformat _ _ _ _ _ _ _ _ _ _ _ Hreach Hapi) as Hrun.
    assert (Hrej : rejected status_code = false).
    { unfold rejected. cbn [In] in Hstatus.
      destruct Hstatus as [<-|[<-|[<-|[]]]]; reflexivity. }
    rewrite Hrej, Hjson in Hrun. cbv zeta in Hrun.
    assert (Htok : exists v, token_or_access_token (JObj fields) = inr v
                             /\ truthy v = false).
    { unfold token_or_access_token. cbn [py_get].
      destruct (Hempty "token") as [->| ->]; [cbn; auto|..]; cbn [truthy String.eqb negb];
        (destruct (Hempty "access_token") as [->| ->]; [cbn; auto|..]);
        eexists; split; reflexivity. }
    destruct Htok as (v & Hv & Hfalsy). rewrite Hv, Hfalsy in Hrun. cbn [negb] in Hrun.
    eexists. split; [exact Hrun|].
    destruct (reaches_api_world _ _ _ _ _ _ _ _ _ Hreach) as (Hb & _ & Ht).
    cbn [bucket log]. split; [exact Hb|].
    intros key body. apply (still_in_trace _ _ _ _ _ Ht); discriminate.
Qed.

End TokenInvariant.

Lemma empty_token_never_stored_witness :
  let api := stub_api 200 (json_dumps (JObj [("token", JStr "")])) in
  exists w',
    login utc_isoformat example_login_request (empty_world api)
    = (inr (failure "No token received from Zotok API" 401), w')
    /\ bucket w' = ∅.
Proof.
  cbv zeta.
  destruct (empty_token_never_stored utc_isoformat OpLogin example_login_request
              (empty_world (stub_api 200 (json_dumps (JObj [("token", JStr "")])))))
    as [_ H].
  destruct (H (JStr "u1") (JStr "w1") (JStr "c1") (JStr "s1") _ _ 200
              (json_dumps (JObj [("token", JStr "")])) [("token", JStr "")]
              (example_login_reaches _) eq_refl) as (w' & Hrun & Hbucket & _).
  - cbn. lia.
  - vm_compute. reflexivity.
  - intros name [<-|[<-|[]]]; [right|left]; reflexivity.
  - exists w'. split; [exact Hrun|exact Hbucket].
Defined.

(** ** The scenario of the specification

    A login for user u1 against a stub of the auth API that answers 200 with
    the token tok123: the stored record has that token and a time to live
    of 2,419,200 seconds, and [get_token], asked at once, returns the token
    with all of that time remaining. *)
Example login_then_get_token :
  let api := stub_api 200 (json_dumps (JObj [("token", JStr "tok123")])) in
  let w1 := snd (login utc_isoformat example_login_request (empty_world api)) in
  fst (login utc_isoformat example_login_request (empty_world api))
  = inr (jsonify [ ("success", JBool true);
                   ("token", JStr "tok123");
                   ("expires_in", JInt 2419200);
                   ("message", JStr "Authentication successful - token valid for 28 days") ]
                 200)
  /\ fst (get_user_credentials (JStr "u1") w1)
     = inr (JObj [ ("canva_user_id", JStr "u1");
                   ("workspace_id", JStr "w1");
                   ("client_id", JStr "c1");
                   ("client_secret", JStr "s1");
                   ("login_token", JStr "tok123");
                   ("token_timestamp", JStr "2024-11-03T21:00:00+00:00");
                   ("token_expires_in", JInt 2419200) ])
  /\ fst (get_token utc_fromisoformat example_token_request w1)
     = inr (jsonify [ ("success", JBool true);
                      ("token", JStr "tok123");
                      ("remaining_seconds", JInt 2419200) ] 200).
Proof. cbv zeta. repeat split; vm_compute; reflexivity. Qed.

(** * Further properties of the modelled code *)

(** ** Keys and isolation between users *)

Lemma chars_inj (a b : string) : chars a = chars b -> a = b.
Proof. intros H. rewrite <- (string_of_chars a), <- (string_of_chars b), H. reflexivity. Qed.

Lemma filename_of_str_inj (a b : string) :
  filename_of (JStr a) = filename_of (JStr b) -> a = b.
Proof.
  unfold filename_of. cbn [py_str]. intros H. apply (f_equal chars) in H.
  rewrite !chars_append in H. apply app_inv_head in H. apply app_inv_tail in H.
  apply chars_inj, H.
Qed.

(** X1. Whatever a put for one user does, it leaves what a get returns for
    another user as it was: user ids that are distinct strings have
    distinct keys. *)
Theorem put_leaves_other_users (a b : string) (r : value) (w : world) :
  a <> b ->
  fst (get_user_credentials (JStr b) (snd (update_user_credentials (JStr a) r w)))
  = fst (get_user_credentials (JStr b) w).
Proof.
  intros Hab. rewrite update_user_credentials_eq, !get_user_credentials_eq.
  destruct (s3_client w) eqn:Hclient; cbv zeta; [|cbn [snd]; rewrite Hclient; reflexivity].
  destruct (s3_up w) eqn:Hup; cbn [snd s3_client s3_up bucket set_bucket log];
    rewrite Hclient, Hup; [|reflexivity].
  rewrite lookup_insert_ne; [reflexivity|].
  intros H. apply Hab, filename_of_str_inj, H.
Qed.

Lemma put_leaves_other_users_witness :
  fst (get_user_credentials (JStr "u1")
         (snd (update_user_credentials (JStr "u2") (JObj [("login_token", JStr "other")])
                 (example_world (stub_api 200 "")))))
  = inr example_record.
Proof.
  rewrite (put_leaves_other_users "u2" "u1" (JObj [("login_token", JStr "other")])
             (example_world (stub_api 200 ""))).
  - vm_compute. reflexivity.
  - discriminate.
Defined.

(** ** The signature and the underscore *)

Lemma append_assoc (a b c : string) : (a +:+ b) +:+ c = a +:+ (b +:+ c).
Proof.
  apply chars_inj. rewrite !chars_append, app_assoc. reflexivity.
Qed.

(** X2. The message joins the two ids with an underscore and nothing marks where
    one ends: moving an underscore-separated part from the end of the
    workspace id to the start of the client id leaves the signature as it was. *)
Theorem signature_ignores_the_split (a b c : string) (client_secret : value) :
  create_hmac_signature (JStr (a +:+ "_" +:+ b)) (JStr c) client_secret
  = create_hmac_signature (JStr a) (JStr (b +:+ "_" +:+ c)) client_secret.
Proof.
  unfold create_hmac_signature. cbn [py_str].
  rewrite !append_assoc. reflexivity.
Qed.

(** ** Dicts *)

Lemma dict_lookup_set_eq (k : string) (v : value) (d : list (string * value)) :
  dict_lookup k (dict_set k v d) = Some v.
Proof.
  induction d as [|[k' v'] d IH]; cbn [dict_set dict_lookup].
  - rewrite String.eqb_refl. reflexivity.
  - destruct (String.eqb k k') eqn:E; cbn [dict_lookup]; rewrite ?String.eqb_refl, ?E;
      [reflexivity|exact IH].
Qed.

Lemma dict_lookup_set_ne (k k0 : string) (v : value) (d : list (string * value)) :
  k0 <> k -> dict_lookup k0 (dict_set k v d) = dict_lookup k0 d.
Proof.
  intros Hne. apply String.eqb_neq in Hne.
  induction d as [|[k' v'] d IH]; cbn [dict_set dict_lookup].
  - rewrite Hne. reflexivity.
  - destruct (String.eqb k k') eqn:E; cbn [dict_lookup].
    + apply String.eqb_eq in E as <-. rewrite Hne. reflexivity.
    + rewrite IH. reflexivity.
Qed.

Lemma existsb_keys_dict_set (k k0 : string) (v : value) (d : list (string * value)) :
  String.eqb k0 k = false ->
  existsb (String.eqb k0) (map fst (dict_set k v d))
  = existsb (String.eqb k0) (map fst d).
Proof.
  intros Hne. induction d as [|[k' v'] d IH]; cbn [dict_set map fst existsb].
  - rewrite Hne. reflexivity.
  - destruct (String.eqb k k') eqn:E; cbn [map fst existsb].
    + apply String.eqb_eq in E as <-. reflexivity.
    + rewrite IH. reflexivity.
Qed.

Lemma nodup_keys_dict_set (k : string) (v : value) (d : list (string * value)) :
  nodup_keys (map fst d) = true -> nodup_keys (map fst (dict_set k v d)) = true.
Proof.
  induction d as [|[k' v'] d IH]; cbn [dict_set map fst nodup_keys]; [reflexivity|].
  intros H. apply andb_true_iff in H as [Hk Hd].
  destruct (String.eqb k k') eqn:E; cbn [map fst nodup_keys].
  - apply String.eqb_eq in E as <-. rewrite Hk, Hd. reflexivity.
  - rewrite existsb_keys_dict_set by (rewrite String.eqb_sym; exact E).
    rewrite Hk, IH by exact Hd. reflexivity.
Qed.

Lemma forallb_wf_dict_set (k : string) (v : value) (d : list (string * value)) :
  wf v = true ->
  forallb (fun kv => wf (snd kv)) d = true ->
  forallb (fun kv => wf (snd kv)) (dict_set k v d) = true.
Proof.
  intros Hv. induction d as [|[k' v'] d IH]; cbn [dict_set forallb snd].
  - intros _. rewrite Hv. reflexivity.
  - intros H. apply andb_true_iff in H as [H1 H2].
    destruct (String.eqb k k'); cbn [forallb snd].
    + rewrite Hv, H2. reflexivity.
    + rewrite H1, IH by exact H2. reflexivity.
Qed.

Lemma wf_dict_set (k : string) (v : value) (d : list (string * value)) :
  wf v = true -> wf (JObj d) = true -> wf (JObj (dict_set k v d)) = true.
Proof.
  cbn [wf]. intros Hv H. apply andb_true_iff in H as [H1 H2].
  rewrite nodup_keys_dict_set, forallb_wf_dict_set by assumption. reflexivity.
Qed.

(** ** What the decoder returns is well-formed *)

Lemma wf_fold_dict_set (kvs acc : list (string * value)) :
  wf (JObj acc) = true ->
  forallb (fun kv => wf (snd kv)) kvs = true ->
  wf (JObj (fold_left (fun d kv => dict_set (fst kv) (snd kv) d) kvs acc)) = true.
Proof.
  revert acc. induction kvs as [|[k v] kvs IH]; intros acc Hacc Hkvs; [exact Hacc|].
  cbn [forallb snd] in Hkvs. apply andb_true_iff in Hkvs as [Hv Hkvs].
  cbn [fold_left fst snd]. apply IH; [|exact Hkvs]. apply wf_dict_set; assumption.
Qed.

Section decoded_wf.

Variable scan : list ascii -> option (value * list ascii).
Hypothesis scan_wf : forall s v r, scan s = Some (v, r) -> wf v = true.

Lemma scan_items_wf (n : nat) (s : list ascii) (vs : list value) (r : list ascii) :
  scan_items scan n s = Some (vs, r) -> forallb wf vs = true.
Proof.
  revert s vs r. induction n as [|n IH]; intros s vs r; cbn [scan_items]; [discriminate|].
  destruct (scan s) as [[v r1]|] eqn:Hscan; [|discriminate].
  destruct (skip_ws r1) as [|c r2]; [discriminate|].
  destruct (Ascii.eqb c "]").
  - intros [= <- <-]. cbn [forallb]. rewrite (scan_wf _ _ _ Hscan). reflexivity.
  - destruct (Ascii.eqb c ","); [|discriminate].
    destruct (scan_items scan n (skip_ws r2)) as [[vs' r3]|] eqn:Hrest; [|discriminate].
    intros [= <- <-]. cbn [forallb].
    rewrite (scan_wf _ _ _ Hscan), (IH _ _ _ Hrest). reflexivity.
Qed.

Lemma scan_members_wf (n : nat) (s : list ascii) (kvs : list (string * value))
      (r : list ascii) :
  scan_members scan n s = Some (kvs, r) -> forallb (fun kv => wf (snd kv)) kvs = true.
Proof.
  revert s kvs r. induction n as [|n IH]; intros s kvs r; cbn [scan_members];
    [discriminate|].
  destruct s as [|q s]; [discriminate|].
  destruct (Ascii.eqb q dquote); [|discriminate].
  destruct (scanstring s) as [[k r1]|]; [|discriminate].
  destruct (skip_ws r1) as [|c r2]; [discriminate|].
  destruct (Ascii.eqb c ":"); [|discriminate].
  destruct (scan (skip_ws r2)) as [[v r3]|] eqn:Hscan; [|discriminate].
  destruct (skip_ws r3) as [|c' r4]; [discriminate|].
  destruct (Ascii.eqb c' "}").
  - intros [= <- <-]. cbn [forallb snd]. rewrite (scan_wf _ _ _ Hscan). reflexivity.
  - destruct (Ascii.eqb c' ","); [|discriminate].
    destruct (scan_members scan n (skip_ws r4)) as [[kvs' r5]|] eqn:Hrest;
      [|discriminate].
    intros [= <- <-]. cbn [forallb snd].
    rewrite (scan_wf _ _ _ Hscan), (IH _ _ _ Hrest). reflexivity.
Qed.

End decoded_wf.

Lemma scan_number_wf (s : list ascii) (v : value) (r : list ascii) :
  scan_number s = Some (v, r) -> wf v = true.
Proof.
  unfold scan_number.
  destruct (match s with
            | [] => (false, s)
            | c :: r0 => if Ascii.eqb c "-" then (true, r0) else (false, s)
            end) as [neg s1].
  destruct (scan_digits s1) as [u r1].
  destruct u as [|u|u|u|u|u|u|u|u|u|u]; try discriminate;
    try (destruct u; try discriminate);
    repeat match goal with
           | |- context [if ?b then _ else _] => destruct b
           end;
    try discriminate; intros [= <- <-]; reflexivity.
Qed.

Lemma scan_once_wf (fuel : nat) (s : list ascii) (v : value) (r : list ascii) :
  scan_once fuel s = Some (v, r) -> wf v = true.
Proof.
  revert s v r. induction fuel as [|fuel IH]; intros s v r; cbn [scan_once];
    [discriminate|].
  destruct s as [|c s]; [discriminate|].
  destruct (Ascii.eqb c dquote).
  { destruct (scanstring s) as [[cs r']|]; [|discriminate].
    intros [= <- <-]. reflexivity. }
  destruct (Ascii.eqb c "{").
  { destruct (skip_ws s) as [|c' r']; [discriminate|].
    destruct (Ascii.eqb c' "}"); [intros [= <- <-]; reflexivity|].
    destruct (scan_members (scan_once fuel) fuel (c' :: r')) as [[kvs r'']|] eqn:Hm;
      [|discriminate].
    intros [= <- <-]. apply (wf_fold_dict_set kvs []); [reflexivity|].
    apply (scan_members_wf _ IH _ _ _ _ Hm). }
  destruct (Ascii.eqb c "[").
  { destruct (skip_ws s) as [|c' r']; [discriminate|].
    destruct (Ascii.eqb c' "]"); [intros [= <- <-]; reflexivity|].
    destruct (scan_items (scan_once fuel) fuel (c' :: r')) as [[vs r'']|] eqn:Hi;
      [|discriminate].
    intros [= <- <-]. cbn [wf]. apply (scan_items_wf _ IH _ _ _ _ Hi). }
  destruct (strip_prefix (chars "null") (c :: s)); [intros [= <- <-]; reflexivity|].
  destruct (strip_prefix (chars "true") (c :: s)); [intros [= <- <-]; reflexivity|].
  destruct (strip_prefix (chars "false") (c :: s)); [intros [= <- <-]; reflexivity|].
  apply scan_number_wf.
Qed.

(** Every value that [json.loads] returns has dicts with distinct keys. *)
Lemma json_loads_wf (text : string) (v : value) :
  json_loads text = Some v -> wf v = true.
Proof.
  unfold json_loads.
  destruct (scan_once _ _) as [[v' r]|] eqn:Hscan; [|discriminate].
  destruct (skip_ws r); [|discriminate]. intros [= <-].
  apply (scan_once_wf _ _ _ _ Hscan).
Qed.

(** ** More on the validity check *)

Section ValidityMore.

Variable fromisoformat : string -> option Z.

(** The check in one equation, for a record that is a dict. *)
Lemma is_token_valid_eq (d : list (string * value)) (w : world) :
  is_token_valid fromisoformat (JObj d) w
  = (inr match dict_lookup "token_timestamp" d with
         | Some (JStr ts) =>
             match fromisoformat (replace_Z ts) with
             | Some issued =>
                 match as_number (default (JInt TOKEN_EXPIRY_SECONDS)
                                    (dict_lookup "token_expires_in" d)) with
                 | inr ttl =>
                     match float_of_int ttl with
                     | inr _ => Qltb (total_seconds (clock w - issued)) (inject_Z ttl)
                     | inl _ => false
                     end
                 | inl _ => false
                 end
             | None => false
             end
         | _ => false
         end, w).
Proof.
  unfold is_token_valid, parse_timestamp. py_unfold. cbn [py_index py_get].
  destruct (dict_lookup "token_timestamp" d) as [[ | | |ts| | ]|]; try reflexivity.
  cbn [as_str]. destruct (fromisoformat (replace_Z ts)); [|reflexivity].
  destruct (dict_lookup "token_expires_in" d) as [v|].
  - change (default (JInt TOKEN_EXPIRY_SECONDS) (Some v)) with v.
    destruct (as_number v) as [e|n]; [reflexivity|].
    destruct (float_of_int n); reflexivity.
  - change (default (JInt TOKEN_EXPIRY_SECONDS) None) with (JInt TOKEN_EXPIRY_SECONDS).
    cbn [as_number]. destruct (float_of_int TOKEN_EXPIRY_SECONDS); reflexivity.
Qed.

Lemma is_token_valid_not_dict (user_data : value) (w : world) :
  match user_data with JObj _ => False | _ => True end ->
  is_token_valid fromisoformat user_data w = (inr false, w).
Proof. destruct user_data; intros H; try contradiction; reflexivity. Qed.

(** X3. Validity only ever goes from true to false as time passes: a record
    that is valid at some instant is valid at every earlier one, so once a
    token has expired it stays expired. *)
Theorem validity_is_monotone (user_data : value) (w : world) (t1 t2 : Z) :
  t1 <= t2 ->
  fst (is_token_valid fromisoformat user_data (with_clock t2 w)) = inr true ->
  fst (is_token_valid fromisoformat user_data (with_clock t1 w)) = inr true.
Proof.
  intros Hle. destruct user_data as [ | b | n | s | items | d];
    try (rewrite !is_token_valid_not_dict by exact I; discriminate).
  rewrite !is_token_valid_eq. cbn [fst clock with_clock].
  destruct (dict_lookup "token_timestamp" d) as [[ | | |ts| | ]|]; try discriminate.
  destruct (fromisoformat (replace_Z ts)) as [issued|]; [|discriminate].
  destruct (as_number _) as [e|ttl]; [discriminate|].
  destruct (float_of_int ttl); [discriminate|].
  intros [= H]. f_equal. apply Qltb_lt in H. apply Qltb_lt.
  assert (L : (t1 - issued # 1000000 <= t2 - issued # 1000000)%Q)
    by (unfold Qle; cbn [Qnum Qden]; lia).
  apply to_double_le in L. unfold total_seconds in *. lra.
Qed.

(** X4. The default of 28 days stands in for a missing [token_expires_in]
    only. A field that is present with a value that is no number (null, a
    string, a list, a dict) makes the record invalid at every instant. *)
Theorem ttl_that_is_no_number (d : list (string * value)) (v : value) (w : world) :
  dict_lookup "token_expires_in" d = Some v ->
  match v with JInt _ | JBool _ => False | _ => True end ->
  is_token_valid fromisoformat (JObj d) w = (inr false, w).
Proof.
  intros Hv Hkind. rewrite is_token_valid_eq, Hv.
  change (default (JInt TOKEN_EXPIRY_SECONDS) (Some v)) with v.
  destruct (dict_lookup "token_timestamp" d) as [[ | | |ts| | ]|]; try reflexivity.
  destruct (fromisoformat (replace_Z ts)); [|reflexivity].
  destruct v; try contradiction; reflexivity.
Qed.

End ValidityMore.

Lemma validity_is_monotone_witness :
  fst (is_token_valid utc_fromisoformat example_record
         (with_clock 1730664000000000 (example_world (stub_api 200 ""))))
  = inr true.
Proof.
  apply (validity_is_monotone utc_fromisoformat example_record
           (example_world (stub_api 200 "")) 1730664000000000 example_now).
  - vm_compute. discriminate.
  - vm_compute. reflexivity.
Defined.

Lemma ttl_that_is_no_number_witness :
  let d := [ ("login_token", JStr "tok123");
             ("token_timestamp", JStr "2024-11-03T20:00:00+00:00");
             ("token_expires_in", JNull) ] in
  let w := example_world (stub_api 200 "") in
  is_token_valid utc_fromisoformat (JObj d) w = (inr false, w).
Proof.
  cbv zeta.
  apply (ttl_that_is_no_number utc_fromisoformat
           [ ("login_token", JStr "tok123");
             ("token_timestamp", JStr "2024-11-03T20:00:00+00:00");
             ("token_expires_in", JNull) ] JNull
           (example_world (stub_api 200 ""))).
  - reflexivity.
  - exact I.
Defined.

(** ** The successful path of login and refresh, and what follows it *)

Lemma token_or_access_token_obj (fields : list (string * value)) :
  token_or_access_token (JObj fields)
  = inr (try_candidates ["token"; "access_token"] fields).
Proof.
  unfold token_or_access_token. cbn [py_get try_candidates].
  destruct (dict_lookup "token" fields); cbn [default];
    destruct (truthy _); reflexivity.
Qed.

Lemma dict_lookup_wf (k : string) (d : list (string * value)) (v : value) :
  wf (JObj d) = true -> dict_lookup k d = Some v -> wf v = true.
Proof.
  cbn [wf]. intros H. apply andb_true_iff in H as [_ H].
  induction d as [|[k' v'] d IH]; cbn [dict_lookup]; [discriminate|].
  cbn [forallb snd] in H. apply andb_true_iff in H as [Hv Hd].
  destruct (String.eqb k k'); [intros [= <-]; exact Hv|apply IH, Hd].
Qed.

Lemma try_candidates_wf (fields : list (string * value)) :
  wf (JObj fields) = true ->
  wf (try_candidates ["token"; "access_token"] fields) = true.
Proof.
  intros Hwf. cbn [try_candidates].
  assert (Hk : forall k, wf (default JNull (dict_lookup k fields)) = true).
  { intros k. destruct (dict_lookup k fields) as [v|] eqn:E; [|reflexivity].
    apply (dict_lookup_wf _ _ _ Hwf E). }
  destruct (truthy _); apply Hk.
Qed.

Lemma reaches_api_flags (op : operation) (req : request) (w w0 : world)
      (canva_user_id workspace_id client_id client_secret : value) (sig : string) :
  reaches_api op req w canva_user_id workspace_id client_id client_secret sig w0 ->
  s3_client w0 = s3_client w /\ s3_up w0 = s3_up w /\ bucket w0 = bucket w.
Proof. destruct 1; cbn [s3_client s3_up bucket log]; auto. Qed.

Lemma get_user_credentials_with_clock (canva_user_id : value) (t : Z) (w : world) :
  fst (get_user_credentials canva_user_id (with_clock t w))
  = fst (get_user_credentials canva_user_id w).
Proof.
  rewrite !get_user_credentials_eq. cbn [s3_client s3_up bucket with_clock].
  destruct (s3_client w); reflexivity.
Qed.

Section AuthSuccess.

Variable isoformat : Z -> string.
Variable fromisoformat : string -> option Z.

(** The successful path in one equation. *)
Lemma auth_success_eq (op : operation) (req : request) (w w0 : world)
      (canva_user_id workspace_id client_id client_secret : value) (sig : string)
      (status_code : Z) (text : string) (fields : list (string * value)) :
  reaches_api op req w canva_user_id workspace_id client_id client_secret sig w0 ->
  zotok w (auth_payload_of workspace_id client_id sig) = HttpResponse status_code text ->
  In status_code [200; 201; 202] ->
  json_loads text = Some (JObj fields) ->
  truthy (try_candidates ["token"; "access_token"] fields) = true ->
  s3_client w = true ->
  s3_up w = true ->
  let login_token := try_candidates ["token"; "access_token"] fields in
  let record := credentials_record isoformat canva_user_id workspace_id client_id
                  client_secret login_token (clock w) in
  let key := filename_of canva_user_id in
  run isoformat op req w
  = (inr (stored_response op login_token),
     set_bucket (<[key := json_dumps record]> (bucket w))
       (log (S3Put key (json_dumps record))
          (log (HttpPost auth_url (auth_payload_of workspace_id client_id sig)) w0))).
Proof.
  intros Hreach Hapi Hstatus Hjson Htoken Hclient Hup. cbv zeta.
  rewrite (api_answered isoformat _ _ _ _ _ _ _ _ _ _ _ Hreach Hapi).
  assert (Hrej : rejected status_code = false).
  { unfold rejected. cbn [In] in Hstatus.
    destruct Hstatus as [<-|[<-|[<-|[]]]]; reflexivity. }
  rewrite Hrej, Hjson, token_or_access_token_obj, Htoken. cbv zeta. cbn [negb].
  destruct (reaches_api_flags _ _ _ _ _ _ _ _ _ Hreach) as (Hc & Hu & Hb).
  rewrite update_user_credentials_eq. cbn [s3_client s3_up bucket log].
  rewrite Hc, Hu, Hclient, Hup, Hb. reflexivity.
Qed.

(** X5. After a successful login or refresh the answer is 200 with the new token
    and a time to live of 2,419,200 seconds, and the record read back for
    that user is the seven-field record made of the credentials that were
    signed, the new token, the time of the call and that time to live. *)
Theorem successful_auth_stores_record (op : operation) (req : request) (w w0 : world)
      (canva_user_id workspace_id client_id client_secret : value) (sig : string)
      (status_code : Z) (text : string) (fields : list (string * value)) :
  reaches_api op req w canva_user_id workspace_id client_id client_secret sig w0 ->
  zotok w (auth_payload_of workspace_id client_id sig) = HttpResponse status_code text ->
  In status_code [200; 201; 202] ->
  json_loads text = Some (JObj fields) ->
  truthy (try_candidates ["token"; "access_token"] fields) = true ->
  s3_client w = true ->
  s3_up w = true ->
  forallb wf [canva_user_id; workspace_id; client_id; client_secret] = true ->
  let login_token := try_candidates ["token"; "access_token"] fields in
  fst (run isoformat op req w)
  = inr (jsonify [ ("success", JBool true);
                   ("token", login_token);
                   ("expires_in", JInt 2419200);
                   ("message", JStr (stored_message op)) ] 200)
  /\ fst (get_user_credentials canva_user_id (snd (run isoformat op req w)))
     = inr (JObj [ ("canva_user_id", canva_user_id);
                   ("workspace_id", workspace_id);
                   ("client_id", client_id);
                   ("client_secret", client_secret);
                   ("login_token", login_token);
                   ("token_timestamp", JStr (isoformat (clock w)));
                   ("token_expires_in", JInt 2419200) ]).
Proof.
  intros Hreach Hapi Hstatus Hjson Htoken Hclient Hup Hwf. cbv zeta.
  rewrite (auth_success_eq _ _ _ _ _ _ _ _ _ _ _ _ Hreach Hapi Hstatus Hjson Htoken
             Hclient Hup).
  cbn [fst snd]. split; [reflexivity|].
  rewrite get_user_credentials_eq. cbn [s3_client s3_up bucket set_bucket log].
  destruct (reaches_api_flags _ _ _ _ _ _ _ _ _ Hreach) as (Hc & Hu & _).
  rewrite Hc, Hu, Hclient, Hup, lookup_insert_eq. cbn [mbind option_bind fst].
  rewrite json_loads_dumps; [reflexivity|].
  pose proof (try_candidates_wf fields (json_loads_wf _ _ Hjson)) as Htok.
  cbn [forallb] in Hwf. unfold credentials_record. cbn [wf map fst snd forallb].
  destruct (wf canva_user_id), (wf workspace_id), (wf client_id),
    (wf client_secret); try discriminate.
  rewrite Htok. reflexivity.
Qed.

(** [get_token] on a stored record whose timestamp reads as an instant. *)
Lemma get_token_record (req : request) (w : world) (u : string)
      (d : list (string * value)) (ts : string) (issued ttl : Z) :
  args_get "canvaUserId" (args req) = Some u ->
  u <> "" ->
  fst (get_user_credentials (JStr u) w) = inr (JObj d) ->
  truthy (JObj d) = true ->
  dict_lookup "token_timestamp" d = Some (JStr ts) ->
  fromisoformat (replace_Z ts) = Some issued ->
  as_number (default (JInt TOKEN_EXPIRY_SECONDS) (dict_lookup "token_expires_in" d))
  = inr ttl ->
  0 < ttl <= 2 ^ 31 ->
  0 <= clock w - issued ->
  fst (get_token fromisoformat req w)
  = inr (if clock w - issued <? ttl * 1000000
         then match dict_lookup "login_token" d with
              | Some login_token =>
                  token_response login_token
                    (Z.quot (ttl * 1000000 - (clock w - issued)) 1000000)
              | None => failure "Error retrieving token" 500
              end
         else failure "Stored token has expired" 401).
Proof.
  intros Hargs Hu Hget Htruthy Hts Hiso Hnum Httl Hage.
  assert (Hsmall : Z.abs ttl <= 2 ^ 31) by lia.
  unfold get_token. py_unfold. rewrite Hargs. cbn [missing].
  change (default "" (Some u)) with u.
  apply String.eqb_neq in Hu. rewrite Hu.
  rewrite (get_user_credentials_truthy _ _ _ Hget Htruthy). cbv beta iota zeta.
  rewrite Htruthy. cbn [negb].
  rewrite is_token_valid_eq, Hts, Hiso, Hnum. cbn [clock log].
  rewrite (float_of_int_small _ Hsmall), (age_below _ _ Hsmall).
  destruct (clock w - issued <? ttl * 1000000) eqn:Hlt; [|reflexivity].
  apply Z.ltb_lt in Hlt.
  unfold parse_timestamp. py_unfold. cbn [py_index py_get]. rewrite Hts. cbn [as_str].
  rewrite Hiso.
  replace (match dict_lookup "token_expires_in" d with
           | Some v => v
           | None => JInt TOKEN_EXPIRY_SECONDS
           end) with (default (JInt TOKEN_EXPIRY_SECONDS)
                        (dict_lookup "token_expires_in" d))
    by (destruct (dict_lookup "token_expires_in" d); reflexivity).
  rewrite Hnum. cbn [clock log]. rewrite (float_of_int_small _ Hsmall).
  cbv beta iota zeta.
  destruct (dict_lookup "login_token" d); [|reflexivity].
  cbn [fst]. rewrite (remaining_seconds_exact _ _ Httl (conj Hage Hlt)). reflexivity.
Qed.

(** X6. A token that login or refresh has stored is served by [get_token] for
    28 days and refused from then on: asked at a later time [t] for the same
    user, it answers 200 with the token and the whole seconds that remain of
    the 2,419,200 while less than that has passed since the call, and 401
    'Stored token has expired' afterwards. The seconds that remain are
    computed on doubles and are those of the exact difference. The platform
    is assumed to read back the timestamps it writes. *)
Theorem token_served_until_expiry (op : operation) (req treq : request) (w w0 : world)
      (u : string) (workspace_id client_id client_secret : value) (sig : string)
      (status_code : Z) (text : string) (fields : list (string * value)) (t : Z) :
  reaches_api op req w (JStr u) workspace_id client_id client_secret sig w0 ->
  zotok w (auth_payload_of workspace_id client_id sig) = HttpResponse status_code text ->
  In status_code [200; 201; 202] ->
  json_loads text = Some (JObj fields) ->
  truthy (try_candidates ["token"; "access_token"] fields) = true ->
  s3_client w = true ->
  s3_up w = true ->
  forallb wf [workspace_id; client_id; client_secret] = true ->
  fromisoformat (replace_Z (isoformat (clock w))) = Some (clock w) ->
  args_get "canvaUserId" (args treq) = Some u ->
  u <> "" ->
  clock w <= t ->
  fst (get_token fromisoformat treq (with_clock t (snd (run isoformat op req w))))
  = inr (if t - clock w <? 2419200 * 1000000
         then jsonify
                [ ("success", JBool true);
                  ("token", try_candidates ["token"; "access_token"] fields);
                  ("remaining_seconds",
                   JInt (Z.quot (2419200 * 1000000 - (t - clock w)) 1000000)) ] 200
         else failure "Stored token has expired" 401).
Proof.
  intros Hreach Hapi Hstatus Hjson Htoken Hclient Hup Hwf Hiso Hargs Hu Hlater.
  assert (Hget : fst (get_user_credentials (JStr u)
                        (with_clock t (snd (run isoformat op req w))))
                 = inr (credentials_record isoformat (JStr u) workspace_id client_id
                          client_secret
                          (try_candidates ["token"; "access_token"] fields) (clock w))).
  { rewrite get_user_credentials_with_clock.
    rewrite (auth_success_eq _ _ _ _ _ _ _ _ _ _ _ _ Hreach Hapi Hstatus Hjson Htoken
               Hclient Hup).
    cbn [snd]. rewrite get_user_credentials_eq.
    cbn [s3_client s3_up bucket set_bucket log].
    destruct (reaches_api_flags _ _ _ _ _ _ _ _ _ Hreach) as (Hc & Hu' & _).
    rewrite Hc, Hu', Hclient, Hup, lookup_insert_eq. cbn [mbind option_bind fst].
    rewrite json_loads_dumps; [reflexivity|].
    pose proof (try_candidates_wf fields (json_loads_wf _ _ Hjson)) as Htok.
    cbn [forallb] in Hwf. unfold credentials_record. cbn [wf map fst snd forallb].
    destruct (wf workspace_id), (wf client_id), (wf client_secret); try discriminate.
    rewrite Htok. reflexivity. }
  unfold credentials_record in Hget.
  rewrite (get_token_record treq _ u _ (isoformat (clock w)) (clock w)
             TOKEN_EXPIRY_SECONDS Hargs Hu Hget eq_refl eq_refl Hiso eq_refl).
  - cbn [clock with_clock]. reflexivity.
  - unfold TOKEN_EXPIRY_SECONDS. lia.
  - cbn [clock with_clock]. lia.
Qed.

End AuthSuccess.

Lemma successful_auth_stores_record_witness :
  let api := stub_api 201 (json_dumps (JObj [("access_token", JStr "tok789")])) in
  let w := empty_world api in
  fst (get_user_credentials (JStr "u1") (snd (login utc_isoformat example_login_request w)))
  = inr (JObj [ ("canva_user_id", JStr "u1");
                ("workspace_id", JStr "w1");
                ("client_id", JStr "c1");
                ("client_secret", JStr "s1");
                ("login_token", JStr "tok789");
                ("token_timestamp", JStr "2024-11-03T21:00:00+00:00");
                ("token_expires_in", JInt 2419200) ]).
Proof.
  cbv zeta.
  destruct (successful_auth_stores_record utc_isoformat OpLogin example_login_request
              (empty_world (stub_api 201 (json_dumps (JObj [("access_token", JStr "tok789")]))))
              _ (JStr "u1") (JStr "w1") (JStr "c1") (JStr "s1") _ 201
              (json_dumps (JObj [("access_token", JStr "tok789")]))
              [("access_token", JStr "tok789")]
              (example_login_reaches _) eq_refl) as [_ H].
  - cbn. lia.
  - vm_compute. reflexivity.
  - reflexivity.
  - reflexivity.
  - reflexivity.
  - reflexivity.
  - exact H.
Defined.

Lemma token_served_until_expiry_witness :
  let api := stub_api 200 (json_dumps (JObj [("token", JStr "tok123")])) in
  let w1 := snd (login utc_isoformat example_login_request (empty_world api)) in
  fst (get_token utc_fromisoformat example_token_request
         (with_clock (example_now + 86400 * 1000000) w1))
  = inr (token_response (JStr "tok123") 2332800)
  /\ fst (get_token utc_fromisoformat example_token_request
            (with_clock (example_now + 2419200 * 1000000) w1))
     = inr (failure "Stored token has expired" 401).
Proof.
  cbv zeta.
  assert (H : forall t, example_now <= t ->
    fst (get_token utc_fromisoformat example_token_request
           (with_clock t
              (snd (login utc_isoformat example_login_request
                      (empty_world
                         (stub_api 200 (json_dumps (JObj [("token", JStr "tok123")]))))))))
    = inr (if t - example_now <? 2419200 * 1000000
           then jsonify
                  [ ("success", JBool true);
                    ("token", JStr "tok123");
                    ("remaining_seconds",
                     JInt (Z.quot (2419200 * 1000000 - (t - example_now)) 1000000)) ] 200
           else failure "Stored token has expired" 401)).
  { intros t Hlater.
    apply (token_served_until_expiry utc_isoformat utc_fromisoformat OpLogin
             example_login_request example_token_request
             (empty_world (stub_api 200 (json_dumps (JObj [("token", JStr "tok123")]))))
             _ "u1" (JStr "w1") (JStr "c1") (JStr "s1") _ 200
             (json_dumps (JObj [("token", JStr "tok123")])) [("token", JStr "tok123")] t
             (example_login_reaches _) eq_refl).
    - cbn. lia.
    - vm_compute. reflexivity.
    - reflexivity.
    - reflexivity.
    - reflexivity.
    - reflexivity.
    - vm_compute. reflexivity.
    - reflexivity.
    - discriminate.
    - exact Hlater. }
  split; (rewrite H; [vm_compute; reflexivity | unfold example_now; lia]).
Defined.

(** ** Writes happen on success only *)

Ltac answered_early :=
  right; eexists; first [left; reflexivity | right; eexists; reflexivity].

Section WritesOnSuccess.

Variable isoformat : Z -> string.

(** Before the call to the API the world changes by at most one get. *)
Lemma before_api_world (op : operation) (req : request) (w : world) :
  (exists canva_user_id workspace_id client_id client_secret sig w0,
      reaches_api op req w canva_user_id workspace_id client_id client_secret sig w0)
  \/ (exists r,
        run isoformat op req w = (inr r, w)
        \/ exists key, run isoformat op req w = (inr r, log (S3Get key) w)).
Proof.
  destruct op; cbn [run].
  - unfold login. py_unfold.
    destruct (json req) as [data|] eqn:Hjson; [|answered_early].
    destruct (py_get data "workspaceId" JNull) as [e|workspace_id] eqn:Hws;
      [destruct e; answered_early|].
    destruct (py_get data "clientId" JNull) as [e|client_id] eqn:Hcid;
      [destruct e; answered_early|].
    destruct (py_get data "clientSecret" JNull) as [e|client_secret] eqn:Hsec;
      [destruct e; answered_early|].
    destruct (py_get data "canvaUserId" JNull) as [e|canva_user_id] eqn:Huid;
      [destruct e; answered_early|].
    destruct (forallb truthy [workspace_id; client_id; client_secret; canva_user_id])
      eqn:Hall; [|answered_early].
    destruct (create_hmac_signature workspace_id client_id client_secret)
      as [e|sig] eqn:Hsig; [destruct e; answered_early|].
    left. eexists _, _, _, _, _, _. eapply login_reaches; eassumption.
  - unfold refresh_token. py_unfold.
    destruct (json req) as [data|] eqn:Hjson; [|answered_early].
    destruct (py_get data "canvaUserId" JNull) as [e|canva_user_id] eqn:Huid;
      [answered_early|].
    destruct (truthy canva_user_id) eqn:Htruthy; [|answered_early]. cbn [negb].
    destruct (get_user_credentials canva_user_id w) as [got w0] eqn:Hget.
    pose proof Hget as Hget'. rewrite get_user_credentials_eq in Hget'.
    destruct (s3_client w) eqn:Hclient; injection Hget' as <- <-;
      [|answered_early].
    set (user_data := default JNull _) in *.
    destruct (truthy user_data) eqn:Hdata; [|answered_early]. cbn [negb].
    destruct (py_index user_data "workspace_id") as [e|workspace_id] eqn:Hws;
      [answered_early|].
    destruct (py_index user_data "client_id") as [e|client_id] eqn:Hcid;
      [answered_early|].
    destruct (py_index user_data "client_secret") as [e|client_secret] eqn:Hsec;
      [answered_early|].
    destruct (create_hmac_signature workspace_id client_id client_secret)
      as [e|sig] eqn:Hsig; [answered_early|].
    left. eexists _, _, _, _, _, _.
    eapply (refresh_reaches req w data user_data); try eassumption.
    rewrite Hget. reflexivity.
Qed.

(** X7. Login and refresh change the bucket only when they answer 200: after
    any other answer (a missing field, a rejected or failed call to the API,
    a body that is no JSON or has no token, a store that refuses the put)
    the bucket holds what it held before. *)
Theorem bucket_changes_only_on_200 (op : operation) (req : request) (w : world) :
  status_of (fst (run isoformat op req w)) <> Some 200 ->
  bucket (snd (run isoformat op req w)) = bucket w.
Proof.
  destruct (before_api_world op req w)
    as [(canva_user_id & workspace_id & client_id & client_secret & sig & w0 & Hreach)
       |(r & [-> | (k & ->)])]; [|reflexivity..].
  destruct (reaches_api_flags _ _ _ _ _ _ _ _ _ Hreach) as (_ & _ & Hb).
  destruct (zotok w (auth_payload_of workspace_id client_id sig))
    as [|status_code text] eqn:Hapi.
  { rewrite (api_failed isoformat _ _ _ _ _ _ _ _ _ Hreach Hapi). intros _. exact Hb. }
  rewrite (api_answered isoformat _ _ _ _ _ _ _ _ _ _ _ Hreach Hapi). cbv zeta.
  destruct (rejected status_code); [intros _; exact Hb|].
  destruct (json_loads text) as [auth_data|]; [|intros _; exact Hb].
  destruct (token_or_access_token auth_data) as [e|login_token]; [intros _; exact Hb|].
  destruct (truthy login_token); [|intros _; exact Hb]. cbn [negb].
  rewrite update_user_credentials_eq. cbn [s3_client s3_up log].
  destruct (s3_client w0); [|intros _; exact Hb]. cbv zeta.
  destruct (s3_up w0); [|intros _; exact Hb].
  cbn [fst status_of status jsonify]. congruence.
Qed.

(** X8. A login request that is a JSON object in which one of the four fields
    is missing or falsy (the empty string included) is refused with status
    400, and nothing at all is done: no call to the API, no access to the
    store. *)
Theorem login_missing_field (req : request) (w : world) (d : list (string * value)) :
  json req = Some (JObj d) ->
  forallb truthy
    (map (fun k => default JNull (dict_lookup k d))
         ["workspaceId"; "clientId"; "clientSecret"; "canvaUserId"]) = false ->
  login isoformat req w = (inr (failure "Missing required credentials" 400), w).
Proof.
  intros Hjson Hall. unfold login. py_unfold. rewrite Hjson. cbn [py_get].
  cbn [map] in Hall.
  change (forallb truthy
            [ match dict_lookup "workspaceId" d with Some v => v | None => JNull end;
              match dict_lookup "clientId" d with Some v => v | None => JNull end;
              match dict_lookup "clientSecret" d with Some v => v | None => JNull end;
              match dict_lookup "canvaUserId" d with Some v => v | None => JNull end ]
          = false) in Hall.
  rewrite Hall. reflexivity.
Qed.

End WritesOnSuccess.

Lemma bucket_changes_only_on_200_witness :
  let w := example_world (stub_api 200 (json_dumps (JObj [("token", JNull)]))) in
  bucket (snd (refresh_token utc_isoformat example_refresh_request w)) = bucket w.
Proof.
  cbv zeta.
  apply (bucket_changes_only_on_200 utc_isoformat OpRefresh example_refresh_request
           (example_world (stub_api 200 (json_dumps (JObj [("token", JNull)]))))).
  vm_compute. discriminate.
Defined.

Lemma login_missing_field_witness :
  let req := Request POST [] None
               (Some (JObj [ ("workspaceId", JStr "w1");
                             ("clientId", JStr "");
                             ("clientSecret", JStr "s1");
                             ("canvaUserId", JStr "u1") ])) in
  let w := empty_world (stub_api 200 "") in
  login utc_isoformat req w = (inr (failure "Missing required credentials" 400), w).
Proof.
  cbv zeta.
  apply (login_missing_field utc_isoformat _ _
           [ ("workspaceId", JStr "w1");
             ("clientId", JStr "");
             ("clientSecret", JStr "s1");
             ("canvaUserId", JStr "u1") ]); reflexivity.
Defined.

(** ** Settings: read, modify, write *)

Lemma get_user_credentials_wf (canva_user_id v : value) (w : world) :
  fst (get_user_credentials canva_user_id w) = inr v -> wf v = true.
Proof.
  rewrite get_user_credentials_eq.
  destruct (s3_client w); cbn [fst]; [|intros [= <-]; reflexivity].
  destruct (if s3_up w then bucket w !! filename_of canva_user_id else None)
    as [content|]; cbn [mbind option_bind]; [|intros [= <-]; reflexivity].
  destruct (json_loads content) as [v'|] eqn:E; [|intros [= <-]; reflexivity].
  intros [= <-]. apply (json_loads_wf _ _ E).
Qed.

Lemma get_user_credentials_truthy_flags (canva_user_id v : value) (w : world) :
  fst (get_user_credentials canva_user_id w) = inr v ->
  truthy v = true ->
  s3_client w = true /\ s3_up w = true.
Proof.
  rewrite get_user_credentials_eq.
  destruct (s3_client w); cbn [fst]; [|intros [= <-]; discriminate].
  destruct (s3_up w); [auto|]. cbn [mbind option_bind]. intros [= <-]. discriminate.
Qed.

Section SettingsMore.

Variable isoformat : Z -> string.
Variable fromisoformat : string -> option Z.

Lemma is_token_valid_same_fields (d d' : list (string * value)) (w w' : world) :
  dict_lookup "token_timestamp" d' = dict_lookup "token_timestamp" d ->
  dict_lookup "token_expires_in" d' = dict_lookup "token_expires_in" d ->
  clock w' = clock w ->
  fst (is_token_valid fromisoformat (JObj d') w')
  = fst (is_token_valid fromisoformat (JObj d) w).
Proof.
  intros H1 H2 H3. rewrite !is_token_valid_eq, H1, H2, H3. reflexivity.
Qed.

(** A settings update that goes through, in one equation. *)
Lemma set_phone_eq (req : request) (w : world) (data canva_user_id : value)
      (phone_number : string) (d : list (string * value)) :
  method req = POST ->
  json req = Some data ->
  truthy data = true ->
  py_get data "canvaUserId" JNull = inr canva_user_id ->
  truthy canva_user_id = true ->
  py_get data "phoneNumber" (JStr "") = inr (JStr phone_number) ->
  strip phone_number <> "" ->
  missing (authorization req) = false ->
  fst (get_user_credentials canva_user_id w) = inr (JObj d) ->
  truthy (JObj d) = true ->
  fst (is_token_valid fromisoformat (JObj d) w) = inr true ->
  let d' := dict_set "settings_updated" (JStr (isoformat (clock w)))
              (dict_set "phoneNumber" (JStr (strip phone_number)) d) in
  let key := filename_of canva_user_id in
  user_settings isoformat fromisoformat req w
  = (inr (jsonify [ ("success", JBool true);
                    ("message", JStr "Settings saved successfully");
                    ("phoneNumber", JStr (strip phone_number)) ] 200),
     set_bucket (<[key := json_dumps (JObj d')]> (bucket w))
       (log (S3Put key (json_dumps (JObj d'))) (log (S3Get key) w))).
Proof.
  intros Hmethod Hjson Hdata Huid Htruthy Hphone Hstrip Hauth Hget Hrec Hvalid.
  cbv zeta.
  destruct (get_user_credentials_truthy_flags _ _ _ Hget Hrec) as [Hclient Hup].
  unfold user_settings. py_unfold. rewrite Hmethod.
  py_step Hjson. py_step Hdata. py_step Huid. py_step Hphone. cbn [as_str].
  py_step Htruthy. apply String.eqb_neq in Hstrip. py_step Hstrip. py_step Hauth.
  rewrite (get_user_credentials_truthy _ _ _ Hget Hrec). cbv beta iota zeta.
  py_step Hrec.
  destruct (is_token_valid_pure fromisoformat (JObj d)
              (log (S3Get (filename_of canva_user_id)) w)) as (valid & Hv).
  assert (valid = true) as ->.
  { pose proof (is_token_valid_same_fields d d
                  w (log (S3Get (filename_of canva_user_id)) w) eq_refl eq_refl eq_refl)
      as Hsame.
    rewrite Hv, Hvalid in Hsame. cbn [fst] in Hsame. congruence. }
  rewrite Hv. cbv beta iota zeta. cbn [negb py_setitem clock log].
  rewrite update_user_credentials_eq. cbn [s3_client s3_up bucket log].
  rewrite Hclient, Hup. reflexivity.
Qed.

(** X9. A settings update that goes through rewrites the record it read with
    two fields set, [phoneNumber] to the stripped number and
    [settings_updated] to the time of the call: every other field, the
    token and its timestamp among them, is read back as it was. *)
Theorem set_phone_keeps_other_fields (req : request) (w : world)
      (data canva_user_id : value) (phone_number : string)
      (d : list (string * value)) :
  method req = POST ->
  json req = Some data ->
  truthy data = true ->
  py_get data "canvaUserId" JNull = inr canva_user_id ->
  truthy canva_user_id = true ->
  py_get data "phoneNumber" (JStr "") = inr (JStr phone_number) ->
  strip phone_number <> "" ->
  missing (authorization req) = false ->
  fst (get_user_credentials canva_user_id w) = inr (JObj d) ->
  truthy (JObj d) = true ->
  fst (is_token_valid fromisoformat (JObj d) w) = inr true ->
  exists d',
    fst (get_user_credentials canva_user_id
           (snd (user_settings isoformat fromisoformat req w))) = inr (JObj d')
    /\ dict_lookup "phoneNumber" d' = Some (JStr (strip phone_number))
    /\ dict_lookup "settings_updated" d' = Some (JStr (isoformat (clock w)))
    /\ (forall k, k <> "phoneNumber" -> k <> "settings_updated" ->
                  dict_lookup k d' = dict_lookup k d).
Proof.
  intros Hmethod Hjson Hdata Huid Htruthy Hphone Hstrip Hauth Hget Hrec Hvalid.
  rewrite (set_phone_eq _ _ _ _ _ _ Hmethod Hjson Hdata Huid Htruthy Hphone Hstrip
             Hauth Hget Hrec Hvalid).
  destruct (get_user_credentials_truthy_flags _ _ _ Hget Hrec) as [Hclient Hup].
  eexists. split; [|split; [|split]].
  - cbn [snd]. rewrite get_user_credentials_eq.
    cbn [s3_client s3_up bucket set_bucket log].
    rewrite Hclient, Hup, lookup_insert_eq. cbn [mbind option_bind fst].
    rewrite json_loads_dumps; [reflexivity|].
    apply wf_dict_set; [reflexivity|]. apply wf_dict_set; [reflexivity|].
    apply (get_user_credentials_wf _ _ _ Hget).
  - rewrite dict_lookup_set_ne by discriminate. apply dict_lookup_set_eq.
  - apply dict_lookup_set_eq.
  - intros k Hk1 Hk2. rewrite !dict_lookup_set_ne by assumption. reflexivity.
Qed.

(** X10. What a settings update has stored, a settings query returns: after an
    update that went through, the query for the same user, under any
    Authorization header that is not empty, answers 200 with the stripped
    phone number. *)
Theorem set_phone_then_get_phone (req qreq : request) (w : world) (data : value)
      (u phone_number : string) (d : list (string * value)) :
  method req = POST ->
  json req = Some data ->
  truthy data = true ->
  py_get data "canvaUserId" JNull = inr (JStr u) ->
  u <> "" ->
  py_get data "phoneNumber" (JStr "") = inr (JStr phone_number) ->
  strip phone_number <> "" ->
  missing (authorization req) = false ->
  fst (get_user_credentials (JStr u) w) = inr (JObj d) ->
  truthy (JObj d) = true ->
  fst (is_token_valid fromisoformat (JObj d) w) = inr true ->
  method qreq = GET ->
  args_get "canvaUserId" (args qreq) = Some u ->
  missing (authorization qreq) = false ->
  fst (user_settings isoformat fromisoformat qreq
         (snd (user_settings isoformat fromisoformat req w)))
  = inr (jsonify [ ("success", JBool true);
                   ("phoneNumber", JStr (strip phone_number)) ] 200).
Proof.
  intros Hmethod Hjson Hdata Huid Hu Hphone Hstrip Hauth Hget Hrec Hvalid
         Hqmethod Hqargs Hqauth.
  assert (Htruthy : truthy (JStr u) = true).
  { cbn [truthy]. apply String.eqb_neq in Hu. rewrite Hu. reflexivity. }
  rewrite (set_phone_eq _ _ _ _ _ _ Hmethod Hjson Hdata Huid Htruthy Hphone Hstrip
             Hauth Hget Hrec Hvalid).
  destruct (get_user_credentials_truthy_flags _ _ _ Hget Hrec) as [Hclient Hup].
  cbn [snd]. unfold user_settings at 1. py_unfold. rewrite Hqmethod, Hqargs.
  cbn [missing]. apply String.eqb_neq in Hu. rewrite Hu, Hqauth.
  change (default "" (Some u)) with u.
  rewrite get_user_credentials_eq. cbn [s3_client s3_up bucket set_bucket log].
  rewrite Hclient, Hup, lookup_insert_eq. cbn [mbind option_bind].
  rewrite json_loads_dumps.
  2:{ apply wf_dict_set; [reflexivity|]. apply wf_dict_set; [reflexivity|].
      apply (get_user_credentials_wf _ _ _ Hget). }
  change (default JNull (Some ?v)) with v.
  match goal with
  | |- context [truthy (JObj ?x)] =>
      assert (Hne : truthy (JObj x) = true)
        by (cbn [truthy]; destruct d as [|[k v] d0]; [discriminate Hrec|];
            cbn [dict_set]; repeat (destruct (String.eqb _ _); cbn [dict_set]);
            reflexivity)
  end.
  rewrite Hne. cbn [negb].
  match goal with
  | |- context [is_token_valid fromisoformat (JObj ?x) ?w'] =>
      destruct (is_token_valid_pure fromisoformat (JObj x) w') as (valid & Hv);
      pose proof (is_token_valid_same_fields d x w w') as Hsame
  end.
  rewrite Hv, Hvalid in Hsame. cbn [fst] in Hsame.
  assert (valid = true) as ->.
  { symmetry. assert (H : inr valid = (inr true : exn + bool)); [|congruence].
    apply Hsame; [| |reflexivity];
      rewrite !dict_lookup_set_ne by discriminate; reflexivity. }
  rewrite Hv. cbv beta iota zeta. cbn [negb py_get fst].
  rewrite dict_lookup_set_ne by discriminate. rewrite dict_lookup_set_eq.
  reflexivity.
Qed.

(** X11. The Authorization header is only tested for being there: the settings
    endpoint answers the same, and does the same, under any two headers
    that are not empty, whatever token is stored. *)
Theorem authorization_value_is_ignored (req : request) (w : world) (a1 a2 : string) :
  a1 <> "" ->
  a2 <> "" ->
  user_settings isoformat fromisoformat (with_authorization (Some a1) req) w
  = user_settings isoformat fromisoformat (with_authorization (Some a2) req) w.
Proof.
  intros H1 H2. apply String.eqb_neq in H1, H2.
  unfold user_settings, with_authorization.
  cbn [method args authorization json missing]. rewrite H1, H2. reflexivity.
Qed.

(** X12. The two reading endpoints never write and never call the API: whatever
    the request, [get_token] and a settings query leave the world as it was,
    but for at most one get sent to the store. *)
Theorem reads_never_write (req : request) (w : world) :
  (exists r,
      get_token fromisoformat req w = (inr r, w)
      \/ exists key, get_token fromisoformat req w = (inr r, log (S3Get key) w))
  /\ (method req = GET ->
      exists r,
        user_settings isoformat fromisoformat req w = (inr r, w)
        \/ exists key,
             user_settings isoformat fromisoformat req w
             = (inr r, log (S3Get key) w)).
Proof.
  split.
  - unfold get_token. py_unfold.
    destruct (missing _); [eexists; left; reflexivity|].
    rewrite get_user_credentials_eq.
    destruct (s3_client w); [|eexists; left; reflexivity].
    match goal with
    | |- context [truthy ?x] => destruct x as [ | b | n | s | items | d] eqn:Hud
    end;
      try (destruct (truthy _); cbn [negb];
           [rewrite is_token_valid_not_dict by exact I|];
           eexists; right; eexists; reflexivity).
    destruct (truthy (JObj d)); cbn [negb]; [|eexists; right; eexists; reflexivity].
    rewrite is_token_valid_eq. unfold parse_timestamp. py_unfold. cbn [py_index py_get].
    destruct (dict_lookup "token_timestamp" d) as [[ | | |ts| | ]|];
      try (eexists; right; eexists; reflexivity).
    cbn [as_str]. destruct (fromisoformat (replace_Z ts));
      [|eexists; right; eexists; reflexivity].
    destruct (as_number _) as [e|ttl] eqn:Hnum;
      [eexists; right; eexists; reflexivity|].
    destruct (float_of_int ttl) as [e|limit_float];
      [eexists; right; eexists; reflexivity|].
    destruct (Qltb _ _); [|eexists; right; eexists; reflexivity].
    destruct (dict_lookup "login_token" d); eexists; right; eexists; reflexivity.
  - intros Hmethod. unfold user_settings. py_unfold. rewrite Hmethod.
    destruct (missing (args_get _ _)); [eexists; left; reflexivity|].
    destruct (missing (authorization req)); [eexists; left; reflexivity|].
    rewrite get_user_credentials_eq.
    destruct (s3_client w); [|eexists; left; reflexivity].
    match goal with
    | |- context [truthy ?x] => destruct (truthy x)
    end; cbn [negb]; [|eexists; right; eexists; reflexivity].
    match goal with
    | |- context [is_token_valid fromisoformat ?x ?w'] =>
        destruct (is_token_valid_pure fromisoformat x w') as (valid & ->)
    end.
    destruct valid; cbn [negb]; [|eexists; right; eexists; reflexivity].
    match goal with
    | |- context [py_get ?x ?k ?dflt] => destruct (py_get x k dflt)
    end; eexists; right; eexists; reflexivity.
Qed.

End SettingsMore.

Lemma set_phone_keeps_other_fields_witness :
  let w := example_world (stub_api 200 "") in
  let req := set_phone_request "u1" " +15550199 " in
  exists d',
    fst (get_user_credentials (JStr "u1")
           (snd (user_settings utc_isoformat utc_fromisoformat req w))) = inr (JObj d')
    /\ dict_lookup "phoneNumber" d' = Some (JStr "+15550199")
    /\ dict_lookup "login_token" d' = Some (JStr "tok123")
    /\ dict_lookup "token_timestamp" d' = Some (JStr "2024-11-03T20:00:00+00:00").
Proof.
  cbv zeta.
  assert (Hstrip : strip " +15550199 " <> "") by (vm_compute; discriminate).
  assert (Hstored : fst (get_user_credentials (JStr "u1")
                           (example_world (stub_api 200 "")))
                    = inr (JObj example_fields)) by (vm_compute; reflexivity).
  assert (Hvalid : fst (is_token_valid utc_fromisoformat (JObj example_fields)
                          (example_world (stub_api 200 ""))) = inr true)
    by (vm_compute; reflexivity).
  destruct (set_phone_keeps_other_fields utc_isoformat utc_fromisoformat
              (set_phone_request "u1" " +15550199 ") (example_world (stub_api 200 ""))
              (JObj [ ("canvaUserId", JStr "u1"); ("phoneNumber", JStr " +15550199 ") ])
              (JStr "u1") " +15550199 " example_fields
              eq_refl eq_refl eq_refl eq_refl eq_refl eq_refl Hstrip eq_refl Hstored
              eq_refl Hvalid)
    as (d' & Hget & Hphone & _ & Hother).
  assert (Hnumber : strip " +15550199 " = "+15550199") by (vm_compute; reflexivity).
  rewrite Hnumber in Hphone.
  exists d'. split; [exact Hget|]. split; [exact Hphone|].
  rewrite !Hother by discriminate. split; reflexivity.
Defined.

Lemma set_phone_then_get_phone_witness :
  let w := example_world (stub_api 200 "") in
  fst (user_settings utc_isoformat utc_fromisoformat
         (get_phone_request "u1" (Some "Bearer whatever"))
         (snd (user_settings utc_isoformat utc_fromisoformat
                 (set_phone_request "u1" " +15550199 ") w)))
  = inr (jsonify [ ("success", JBool true); ("phoneNumber", JStr "+15550199") ] 200).
Proof.
  cbv zeta.
  assert (Hstrip : strip " +15550199 " <> "") by (vm_compute; discriminate).
  assert (Hstored : fst (get_user_credentials (JStr "u1")
                           (example_world (stub_api 200 "")))
                    = inr (JObj example_fields)) by (vm_compute; reflexivity).
  assert (Hvalid : fst (is_token_valid utc_fromisoformat (JObj example_fields)
                          (example_world (stub_api 200 ""))) = inr true)
    by (vm_compute; reflexivity).
  assert (Hu : "u1" <> "") by discriminate.
  assert (Hnumber : "+15550199" = strip " +15550199 ") by (vm_compute; reflexivity).
  rewrite Hnumber.
  exact (set_phone_then_get_phone utc_isoformat utc_fromisoformat
           (set_phone_request "u1" " +15550199 ")
           (get_phone_request "u1" (Some "Bearer whatever"))
           (example_world (stub_api 200 ""))
           (JObj [ ("canvaUserId", JStr "u1"); ("phoneNumber", JStr " +15550199 ") ])
           "u1" " +15550199 " example_fields
           eq_refl eq_refl eq_refl eq_refl Hu eq_refl Hstrip eq_refl Hstored eq_refl
           Hvalid eq_refl eq_refl eq_refl).
Defined.

Lemma authorization_value_is_ignored_witness :
  let w := example_world (stub_api 200 "") in
  user_settings utc_isoformat utc_fromisoformat
    (with_authorization (Some "Bearer tok123") (get_phone_request "u1" None)) w
  = user_settings utc_isoformat utc_fromisoformat
      (with_authorization (Some "Bearer of-someone-else") (get_phone_request "u1" None)) w.
Proof.
  cbv zeta.
  apply (authorization_value_is_ignored utc_isoformat utc_fromisoformat
           (get_phone_request "u1" None) (example_world (stub_api 200 ""))
           "Bearer tok123" "Bearer of-someone-else"); discriminate.
Defined.

Lemma reads_never_write_witness :
  let w := example_world (stub_api 200 "") in
  exists r,
    user_settings utc_isoformat utc_fromisoformat
      (get_phone_request "u1" (Some "Bearer tok123")) w = (inr r, w)
    \/ exists key,
         user_settings utc_isoformat utc_fromisoformat
           (get_phone_request "u1" (Some "Bearer tok123")) w
         = (inr r, log (S3Get key) w).
Proof.
  cbv zeta.
  destruct (reads_never_write utc_isoformat utc_fromisoformat
              (get_phone_request "u1" (Some "Bearer tok123"))
              (example_world (stub_api 200 ""))) as [_ H].
  apply H. reflexivity.
Defined.

(** ** Refresh signs with what login stored *)

Section RefreshAfterLogin.

Variable isoformat : Z -> string.



End RefreshAfterLogin.


(** * The CORS hooks and the proxy endpoints *)

(** ** Prefixes, suffixes and substrings *)

Lemma starts_with_spec (p s : list ascii) :
  starts_with p s = true <-> exists r, s = p ++ r.
Proof.
  revert s. induction p as [|a p IH]; intros s; cbn [starts_with].
  - split; [intros _; exists s; reflexivity | reflexivity].
  - destruct s as [|b s].
    + split; [discriminate | intros [r Hr]; discriminate].
    + rewrite andb_true_iff, Ascii.eqb_eq, IH. split.
      * intros [-> [r ->]]. exists r. reflexivity.
      * intros [r Hr]. injection Hr as -> ->. split; [reflexivity | exists r; reflexivity].
Qed.

Lemma endswith_spec (s suffix : string) :
  endswith s suffix = true <-> exists p, s = p +:+ suffix.
Proof.
  unfold endswith. rewrite starts_with_spec. split.
  - intros [r Hr]. exists (string_of_list_ascii (rev r)).
    apply chars_inj. rewrite chars_append, chars_of_string.
    rewrite <- (rev_involutive (chars s)), Hr, rev_app_distr, rev_involutive.
    reflexivity.
  - intros [p ->]. exists (rev (chars p)).
    rewrite chars_append, rev_app_distr. reflexivity.
Qed.

Lemma contains_spec (needle s : list ascii) :
  contains needle s = true <-> exists a b, s = a ++ needle ++ b.
Proof.
  induction s as [|c s IH]; cbn [contains]; rewrite orb_true_iff, starts_with_spec.
  - split.
    + intros [[r Hr]|H]; [|discriminate]. exists [], r. exact Hr.
    + intros [a [b H]]. left. destruct a; [exists b; exact H | discriminate].
  - rewrite IH. split.
    + intros [[r Hr]|[a [b ->]]].
      * exists [], r. exact Hr.
      * exists (c :: a), b. reflexivity.
    + intros [a [b H]]. destruct a as [|c' a].
      * left. exists b. exact H.
      * right. injection H as -> ->. exists a, b. reflexivity.
Qed.

Lemma existsb_eqb_In (x : string) (l : list string) :
  existsb (String.eqb x) l = true <-> In x l.
Proof.
  rewrite existsb_exists. split.
  - intros [y [Hy E]]. apply String.eqb_eq in E. subst. exact Hy.
  - intros H. exists x. split; [exact H | apply String.eqb_refl].
Qed.

(** ** Which origins the hooks accept *)

(** X14. An origin is accepted exactly when it is one of the three listed
    origins, compared as a whole, or ends in one of the three domain
    suffixes. Nothing else of the origin is looked at: any scheme, host
    prefix or other text before the suffix is accepted. *)
Theorem origin_allowed_iff (origin : string) :
  origin_allowed origin = true
  <-> In origin allowed_origins
      \/ exists prefix domain, In domain allowed_domains /\ origin = prefix +:+ domain.
Proof.
  unfold origin_allowed. rewrite orb_true_iff, existsb_eqb_In, existsb_exists.
  split.
  - intros [H|[d [Hd E]]]; [left; exact H|right].
    apply endswith_spec in E. destruct E as [p ->]. exists p, d. split; [exact Hd | reflexivity].
  - intros [H|[p [d [Hd ->]]]]; [left; exact H|right].
    exists d. split; [exact Hd|]. apply endswith_spec. exists p. reflexivity.
Qed.

(** ** What the after-request hook writes *)

Lemma header_get_set (a b v : string) (h : headers) :
  header_get a (header_set b v h)
  = if decide (lower b = lower a) then Some v else header_get a h.
Proof. unfold header_get, header_set. apply lookup_insert. Qed.

Lemma after_request_headers (origin : option string) (r : flask_response) :
  response_headers (after_request origin r)
  = header_set "Access-Control-Max-Age" "3600"
      (header_set "Access-Control-Allow-Headers"
         "Content-Type, Authorization, X-Requested-With, Accept, Origin"
         (header_set "Access-Control-Allow-Methods" "GET, POST, OPTIONS, PUT, DELETE"
            (if negb (missing origin) && origin_allowed (default "" origin)
             then header_set "Access-Control-Allow-Credentials" "true"
                    (header_set "Access-Control-Allow-Origin" (default "" origin)
                       (response_headers r))
             else response_headers r))).
Proof.
  unfold after_request.
  destruct (negb (missing origin)); [|reflexivity].
  destruct (origin_allowed (default "" origin)); reflexivity.
Qed.

Lemma after_request_rest (origin : option string) (r : flask_response) :
  response_status (after_request origin r) = response_status r
  /\ response_content (after_request origin r) = response_content r.
Proof.
  unfold after_request.
  destruct (negb (missing origin)); [|split; reflexivity].
  destruct (origin_allowed (default "" origin)); split; reflexivity.
Qed.


Lemma lower_cors_names :
  lower "Access-Control-Allow-Origin" = "access-control-allow-origin"
  /\ lower "Access-Control-Allow-Credentials" = "access-control-allow-credentials"
  /\ lower "Access-Control-Allow-Methods" = "access-control-allow-methods"
  /\ lower "Access-Control-Allow-Headers" = "access-control-allow-headers"
  /\ lower "Access-Control-Max-Age" = "access-control-max-age".
Proof. repeat split; vm_compute; reflexivity. Qed.

Lemma lookup_insert_eqb (k k' v : string) (h : gmap string string) :
  <[k := v]> h !! k' = if String.eqb k k' then Some v else h !! k'.
Proof.
  destruct (String.eqb k k') eqn:E.
  - apply String.eqb_eq in E. subst. apply lookup_insert_eq.
  - apply String.eqb_neq in E. apply lookup_insert_ne. exact E.
Qed.

Ltac lower_names :=
  destruct lower_cors_names as (Lo & Lc & Lm & Lh & La);
  unfold header_get, header_set, headers in *;
  rewrite ?Lo, ?Lc, ?Lm, ?Lh, ?La; clear Lo Lc Lm Lh La.

Ltac header_cases :=
  rewrite ?lookup_insert_eqb;
  repeat match goal with
         | |- context [String.eqb ?a ?b] => destruct (String.eqb a b) eqn:?
         end;
  try reflexivity; try discriminate.

Ltac other_name :=
  repeat match goal with
         | E : String.eqb _ _ = true |- _ => apply String.eqb_eq in E; rewrite <- E
         end;
  cbn [In]; tauto.

Lemma accepted_origin (origin : option string) :
  negb (missing origin) && origin_allowed (default "" origin) = true ->
  origin = Some (default "" origin).
Proof. destruct origin; [reflexivity | discriminate]. Qed.

(** X15. The after-request hook echoes an accepted origin, exactly as it
    was sent, in Access-Control-Allow-Origin and sets
    Access-Control-Allow-Credentials to true; for a missing, empty or
    refused origin it leaves both headers as the view set them. Status,
    content and every header other than the five CORS headers are
    untouched. *)
Theorem after_request_reflects_origin (origin : option string) (r : flask_response) :
  let r' := after_request origin r in
  let accepted := negb (missing origin) && origin_allowed (default "" origin) in
  response_status r' = response_status r
  /\ response_content r' = response_content r
  /\ header_get "Access-Control-Allow-Origin" (response_headers r')
     = (if accepted then origin
        else header_get "Access-Control-Allow-Origin" (response_headers r))
  /\ header_get "Access-Control-Allow-Credentials" (response_headers r')
     = (if accepted then Some "true"
        else header_get "Access-Control-Allow-Credentials" (response_headers r))
  /\ forall name,
       ~ In (lower name)
            [ "access-control-allow-origin"; "access-control-allow-credentials";
              "access-control-allow-methods"; "access-control-allow-headers";
              "access-control-max-age" ] ->
       header_get name (response_headers r') = header_get name (response_headers r).
Proof.
  cbv zeta.
  destruct (after_request_rest origin r) as [Hs Hc].
  split; [exact Hs|]. split; [exact Hc|].
  rewrite after_request_headers.
  pose proof (accepted_origin origin) as Ho.
  destruct (negb (missing origin) && origin_allowed (default "" origin)).
  - lower_names. repeat split.
    + header_cases. symmetry. apply Ho. reflexivity.
    + header_cases.
    + intros name Hn. header_cases; exfalso; apply Hn; other_name.
  - lower_names. repeat split.
    + header_cases.
    + header_cases.
    + intros name Hn. header_cases; exfalso; apply Hn; other_name.
Qed.

Lemma cors_headers_absorbed (origin : option string) (r : flask_response) :
  response_headers (after_request origin (after_request origin r))
  = response_headers (after_request origin r).
Proof.
  rewrite (after_request_headers origin (after_request origin r)).
  rewrite (after_request_headers origin r).
  lower_names.
  destruct (negb (missing origin) && origin_allowed (default "" origin));
    apply map_eq; intros k; header_cases.
Qed.

Lemma same_response (a b : flask_response) :
  response_status a = response_status b ->
  response_headers a = response_headers b ->
  response_content a = response_content b ->
  a = b.
Proof. destruct a, b. cbn. intros -> -> ->. reflexivity. Qed.

(** X16. Applying the after-request hook twice is the same as applying it
    once, whatever the view's response was: what the hook writes depends on
    the origin of the request alone. *)
Theorem after_request_idempotent (origin : option string) (r : flask_response) :
  after_request origin (after_request origin r) = after_request origin r.
Proof.
  destruct (after_request_rest origin (after_request origin r)) as [Hs Hc].
  apply same_response.
  - exact Hs.
  - apply cors_headers_absorbed.
  - exact Hc.
Qed.

(** X17. The before-request hook answers a request exactly when its method
    is OPTIONS, with status 200; the answer is what the after-request hook
    makes of the plain OK document, so the hook that runs after it leaves
    it as it is. *)
Theorem preflight_answer_is_final (method : string) (origin : option string)
    (p : flask_response) :
  handle_preflight method origin = Some p ->
  method = "OPTIONS"
  /\ response_status p = 200
  /\ p = after_request origin (make_response (jsonify [("status", JStr "OK")] 200))
  /\ after_request origin p = p.
Proof.
  unfold handle_preflight. destruct (String.eqb method "OPTIONS") eqn:M; [|discriminate].
  apply String.eqb_eq in M. intros H. injection H as <-.
  change (method = "OPTIONS"
          /\ response_status (after_request origin (make_response (jsonify [("status", JStr "OK")] 200))) = 200
          /\ after_request origin (make_response (jsonify [("status", JStr "OK")] 200))
             = after_request origin (make_response (jsonify [("status", JStr "OK")] 200))
          /\ after_request origin (after_request origin (make_response (jsonify [("status", JStr "OK")] 200)))
             = after_request origin (make_response (jsonify [("status", JStr "OK")] 200))).
  split; [exact M|]. split; [|split; [reflexivity|]].
  - rewrite (proj1 (after_request_rest _ _)). reflexivity.
  - destruct (after_request_rest origin
                (after_request origin
                   (make_response (jsonify [("status", JStr "OK")] 200))))
      as [Hs Hc].
    apply same_response; [exact Hs | apply cors_headers_absorbed | exact Hc].
Qed.

Lemma preflight_answer_is_final_witness :
  handle_preflight "OPTIONS" (Some "https://www.canva.com")
  = Some (after_request (Some "https://www.canva.com")
            (make_response (jsonify [("status", JStr "OK")] 200)))
  /\ after_request (Some "https://www.canva.com")
       (after_request (Some "https://www.canva.com")
          (make_response (jsonify [("status", JStr "OK")] 200)))
     = after_request (Some "https://www.canva.com")
         (make_response (jsonify [("status", JStr "OK")] 200)).
Proof.
  assert (H : handle_preflight "OPTIONS" (Some "https://www.canva.com")
              = Some (after_request (Some "https://www.canva.com")
                        (make_response (jsonify [("status", JStr "OK")] 200))))
    by reflexivity.
  split; [exact H|].
  exact (proj2 (proj2 (proj2 (preflight_answer_is_final _ _ _ H)))).
Defined.

(** ** Which image URLs are accepted *)

Section ImageUrls.

Variable urlparse : string -> option (string * string * string).

Lemma contains_append (a d b : string) :
  contains (chars d) (chars (a +:+ d +:+ b)) = true.
Proof.
  apply contains_spec. exists (chars a), (chars b).
  rewrite !chars_append. reflexivity.
Qed.

Lemma existsb_endswith (path : string) (exts : list string) :
  existsb (endswith path) exts = true
  <-> exists stem ext, In ext exts /\ path = stem +:+ ext.
Proof.
  rewrite existsb_exists. split.
  - intros [ext [Hin E]]. apply endswith_spec in E. destruct E as [stem ->].
    exists stem, ext. split; [exact Hin | reflexivity].
  - intros [stem [ext [Hin ->]]]. exists ext. split; [exact Hin|].
    apply endswith_spec. exists stem. reflexivity.
Qed.

Lemma existsb_contains (netloc : string) (domains : list string) :
  existsb (fun domain => contains (chars domain) (chars netloc)) domains = true
  <-> exists a domain b, In domain domains /\ netloc = a +:+ domain +:+ b.
Proof.
  rewrite existsb_exists. split.
  - intros [d [Hin E]]. apply contains_spec in E. destruct E as [a [b E]].
    exists (string_of_list_ascii a), d, (string_of_list_ascii b).
    split; [exact Hin|]. apply chars_inj.
    rewrite !chars_append, !chars_of_string. exact E.
  - intros [a [d [b [Hin ->]]]]. exists d. split; [exact Hin | apply contains_append].
Qed.

(** X18. [is_valid_image_url] accepts exactly the strs that [urlparse]
    splits into the scheme http or https, a non-empty network location,
    and either a path that ends, case apart, in one of the seven image
    extensions or a network location in which one of the five trusted
    domains occurs. Everything that is not a str, and every str on which
    [urlparse] raises, is refused. *)
Theorem valid_image_url_iff (url : value) :
  is_valid_image_url urlparse url = true
  <-> exists s scheme netloc path,
        url = JStr s
        /\ urlparse s = Some (scheme, netloc, path)
        /\ (scheme = "http" \/ scheme = "https")
        /\ netloc <> ""
        /\ ((exists stem ext,
               In ext [".jpg"; ".jpeg"; ".png"; ".gif"; ".bmp"; ".webp"; ".svg"]
               /\ lower path = stem +:+ ext)
            \/ (exists a domain b,
                  In domain ["api-qa.zono.digital"; "images-qa.zono.digital";
                             "images.unsplash.com"; "cdn.shopify.com"; "example.com"]
                  /\ netloc = a +:+ domain +:+ b)).
Proof.
  split.
  - destruct url as [| | |s| |]; try discriminate. cbn [is_valid_image_url].
    destruct (urlparse s) as [[[scheme netloc] path]|] eqn:P; [|discriminate].
    destruct (existsb (String.eqb scheme) ["http"; "https"]) eqn:S; [|discriminate].
    cbn [negb]. destruct (String.eqb netloc "") eqn:N; [discriminate|].
    cbv zeta. intros H. exists s, scheme, netloc, path.
    split; [reflexivity|]. split; [exact P|].
    apply existsb_eqb_In in S. apply String.eqb_neq in N.
    split; [cbn [In] in S; intuition|]. split; [exact N|].
    apply orb_true_iff in H. destruct H as [H|H].
    + left. apply existsb_endswith. exact H.
    + right. apply existsb_contains. exact H.
  - intros (s & scheme & netloc & path & -> & P & S & N & H).
    cbn [is_valid_image_url]. rewrite P.
    assert (S' : existsb (String.eqb scheme) ["http"; "https"] = true)
      by (apply existsb_eqb_In; cbn [In]; intuition).
    rewrite S'. cbn [negb].
    apply String.eqb_neq in N. rewrite N. cbv zeta.
    apply orb_true_iff. destruct H as [H|H].
    + left. apply existsb_endswith. exact H.
    + right. apply existsb_contains. exact H.
Qed.

Lemma append_nonempty (a d b : string) : d <> "" -> a +:+ d +:+ b <> "".
Proof.
  intros Hd E. apply (f_equal chars) in E. rewrite !chars_append in E.
  apply app_eq_nil in E. destruct E as [_ E].
  apply app_eq_nil in E. destruct E as [E _].
  apply Hd. apply chars_inj. exact E.
Qed.

(** X19. Trust is by substring: a URL of scheme http or https is accepted
    as soon as one of the trusted domains occurs anywhere in its network
    location, whatever stands before or after it there (another host
    name of which the domain is only a part, a port, user information)
    and whatever its path. *)
Theorem trusted_domain_anywhere_in_host (s scheme a domain b path : string) :
  urlparse s = Some (scheme, a +:+ domain +:+ b, path) ->
  In scheme ["http"; "https"] ->
  In domain ["api-qa.zono.digital"; "images-qa.zono.digital";
             "images.unsplash.com"; "cdn.shopify.com"; "example.com"] ->
  is_valid_image_url urlparse (JStr s) = true.
Proof.
  intros P S D. cbn [is_valid_image_url]. rewrite P.
  apply existsb_eqb_In in S. rewrite S. cbn [negb].
  assert (N : String.eqb (a +:+ domain +:+ b) "" = false).
  { apply String.eqb_neq. apply append_nonempty.
    cbn [In] in D. intuition (subst; discriminate). }
  rewrite N. cbv zeta. apply orb_true_iff. right.
  apply existsb_contains. exists a, domain, b. split; [exact D | reflexivity].
Qed.

End ImageUrls.

Lemma trusted_domain_anywhere_in_host_witness :
  plain_urlparse "https://example.com.evil.net/x"
  = Some ("https", "" +:+ "example.com" +:+ ".evil.net", "/x")
  /\ is_valid_image_url plain_urlparse (JStr "https://example.com.evil.net/x") = true.
Proof.
  assert (P : plain_urlparse "https://example.com.evil.net/x"
              = Some ("https", "" +:+ "example.com" +:+ ".evil.net", "/x"))
    by (vm_compute; reflexivity).
  split; [exact P|].
  apply (trusted_domain_anywhere_in_host plain_urlparse _ _ _ _ _ _ P);
    cbn [In]; tauto.
Defined.

(** ** Base64 *)


Lemma b64_index_char (i : Z) :
  0 <= i < 64 -> b64_index (b64_char i) = Some i.
Proof.
  intros H.
  assert (A : forallb (fun n => match b64_index (b64_char (Z.of_nat n)) with
                                | Some j => j =? Z.of_nat n
                                | None => false
                                end) (seq 0 64) = true) by (vm_compute; reflexivity).
  rewrite forallb_forall in A. specialize (A (Z.to_nat i)).
  rewrite Z2Nat.id in A by lia.
  assert (I : In (Z.to_nat i) (seq 0 64)) by (apply in_seq; lia).
  specialize (A I). destruct (b64_index (b64_char i)); [|discriminate].
  apply Z.eqb_eq in A. subst. reflexivity.
Qed.

Lemma b64_index_pad : b64_index "="%char = None.
Proof. vm_compute. reflexivity. Qed.

Lemma b64_bytes_chars (n : nat) (bs : list Z) :
  (length bs <= n)%nat -> Forall is_byte bs -> b64_bytes (b64_chars bs) = Some bs.
Proof.
  revert bs. induction n as [|n IH]; intros bs Hn Hb.
  - destruct bs; [reflexivity | cbn in Hn; lia].
  - destruct bs as [|a [|b [|c rest]]]; [reflexivity|..].
    + inversion Hb as [|? ? Ha _]; subst. unfold is_byte in Ha.
      cbn [b64_chars b64_bytes].
      rewrite !b64_index_char by (Z.div_mod_to_equations; lia).
      rewrite b64_index_pad. cbv zeta. f_equal. f_equal.
      Z.div_mod_to_equations; lia.
    + inversion Hb as [|? ? Ha Hb']; subst. inversion Hb' as [|? ? Hb0 _]; subst.
      unfold is_byte in Ha, Hb0.
      cbn [b64_chars b64_bytes].
      rewrite !b64_index_char by (Z.div_mod_to_equations; lia).
      rewrite b64_index_pad. cbv zeta. f_equal. f_equal; [|f_equal].
      all: Z.div_mod_to_equations; lia.
    + inversion Hb as [|? ? Ha Hb']; subst. inversion Hb' as [|? ? Hb0 Hb'']; subst.
      inversion Hb'' as [|? ? Hc Hr]; subst.
      unfold is_byte in Ha, Hb0, Hc.
      cbn [b64_chars b64_bytes].
      rewrite !b64_index_char by (Z.div_mod_to_equations; lia).
      cbv zeta. rewrite IH; [|cbn in Hn; lia|exact Hr].
      f_equal. f_equal; [|f_equal; [|f_equal]].
      all: Z.div_mod_to_equations; lia.
Qed.

Lemma b64_chars_length (n : nat) (bs : list Z) :
  (length bs <= n)%nat ->
  Z.of_nat (length (b64_chars bs)) = 4 * ((Z.of_nat (length bs) + 2) / 3).
Proof.
  revert bs. induction n as [|n IH]; intros bs Hn.
  - destruct bs; [reflexivity | cbn in Hn; lia].
  - destruct bs as [|a [|b [|c rest]]]; [reflexivity..|].
    cbn [b64_chars]. cbn [length] in *. rewrite !Nat2Z.inj_succ.
    rewrite IH by lia. Z.div_mod_to_equations; lia.
Qed.

(** ** The image endpoints *)

Section Images.

Variable urlparse : string -> option (string * string * string).
Variable unquote : string -> string.
Variable describe : exn -> string.
Variable http_error_text : get_reply -> string.
Variable web : get_call -> get_result.

Lemma is_valid_image_url_str (v : value) :
  is_valid_image_url urlparse v = true -> exists u, v = JStr u.
Proof. destruct v; try discriminate. intros _. eexists. reflexivity. Qed.

(** X20. The base64 endpoint sends at most one request, and only to a URL
    that [is_valid_image_url] accepted: whenever it fetches, the body was
    a JSON object whose [url] is a str that passed the check, and the one
    request goes to that str. An answer with status 400 means that nothing
    was fetched. *)
Theorem base64_fetches_only_validated_urls (data : option value) :
  let out := proxy_image_base64 urlparse describe web data in
  (snd out = []
   \/ exists d u,
        data = Some (JObj d)
        /\ dict_lookup "url" d = Some (JStr u)
        /\ is_valid_image_url urlparse (JStr u) = true
        /\ snd out = [GetCall u [("User-Agent", "ZotokCanvaApp/1.0");
                                 ("Accept", "image/*")] []])
  /\ (status (fst out) = 400 -> snd out = []).
Proof.
  cbv zeta. unfold proxy_image_base64.
  destruct data as [data|]; [|split; [left|]; reflexivity].
  destruct (truthy data); cbn [negb]; [|split; [left|]; reflexivity].
  destruct (py_in "url" data) as [e|[|]] eqn:Hin; try (split; [left|]; reflexivity).
  destruct (py_index data "url") as [e|image_url] eqn:Hidx;
    [split; [left|]; reflexivity|].
  destruct (is_valid_image_url urlparse image_url) eqn:Hv; cbn [negb];
    [|split; [left|]; reflexivity].
  destruct (is_valid_image_url_str _ Hv) as [u ->].
  destruct data as [| | | | |d]; try discriminate.
  cbn [py_index] in Hidx.
  destruct (dict_lookup "url" d) as [v|] eqn:Hd; [|discriminate].
  injection Hidx as ->.
  split.
  - right. exists d, u. split; [reflexivity|]. split; [exact Hd|].
    split; [exact Hv|].
    destruct (web _); [reflexivity|].
    destruct (negb _); reflexivity.
  - destruct (web _); [cbn; discriminate|].
    destruct (negb _); cbn; discriminate.
Qed.

(** X21. Once the URL is accepted and the server answers, only the status
    200 counts as success: the answer then carries the bytes in base64
    behind the content type (image/jpeg when the server names none) and
    their number; any other status, 2xx and 3xx included, gives 404 with
    the status in the message. *)
Theorem base64_answer (d : list (string * value)) (u : string) (resp : get_reply) :
  dict_lookup "url" d = Some (JStr u) ->
  is_valid_image_url urlparse (JStr u) = true ->
  web (GetCall u [("User-Agent", "ZotokCanvaApp/1.0"); ("Accept", "image/*")] [])
  = GetAnswered resp ->
  let content_type := default "image/jpeg" (reply_content_type resp) in
  fst (proxy_image_base64 urlparse describe web (Some (JObj d)))
  = if reply_status resp =? 200 then
      jsonify [ ("success", JBool true);
                ("data_url",
                 JStr ("data:" +:+ content_type +:+ ";base64,"
                       +:+ b64encode (reply_content resp)));
                ("content_type", JStr content_type);
                ("size", JInt (Z.of_nat (length (reply_content resp)))) ] 200
    else
      failure ("Failed to fetch image: HTTP " +:+ py_str (JInt (reply_status resp)))
              404.
Proof.
  intros Hd Hv Hw. cbv zeta. unfold proxy_image_base64.
  assert (T : truthy (JObj d) = true) by (destruct d; [discriminate | reflexivity]).
  rewrite T. cbn [negb py_in py_index]. rewrite Hd, Hv. cbn [negb].
  rewrite Hw. destruct (reply_status resp =? 200); reflexivity.
Qed.

(** X22. The encoding of the image loses nothing and has the size of
    base64: a list of bytes is recovered from its encoding, and n bytes
    give 4 * ceil(n / 3) characters. *)
Theorem b64encode_lossless (bs : list Z) :
  Forall is_byte bs ->
  b64_bytes (chars (b64encode bs)) = Some bs
  /\ Z.of_nat (String.length (b64encode bs)) = 4 * ((Z.of_nat (length bs) + 2) / 3).
Proof.
  intros Hb. unfold b64encode. rewrite chars_of_string. split.
  - apply (b64_bytes_chars (length bs)); [lia | exact Hb].
  - rewrite <- (b64_chars_length (length bs)) by lia.
    f_equal. rewrite <- (chars_of_string (b64_chars bs)) at 2.
    unfold chars. generalize (string_of_list_ascii (b64_chars bs)).
    induction s as [|c s IH]; [reflexivity|]. cbn. f_equal. exact IH.
Qed.

(** X23. The streaming image proxy fetches whatever non-empty [url] it is
    given, once, after unquoting; [is_valid_image_url] is not consulted.
    The answer is either a 400, or the upstream answer passed on: the
    upstream status, which is then outside 400..599, and the raw bytes. *)
Theorem proxy_image_fetches_any_url (u : string) :
  u <> "" ->
  let call := GetCall (unquote u) [("User-Agent", "Mozilla/5.0")] [] in
  let out := proxy_image unquote http_error_text web (Some u) in
  snd out = [call]
  /\ (response_status (fst out) = 400
      \/ exists resp,
           web call = GetAnswered resp
           /\ ~ (400 <= reply_status resp < 600)
           /\ response_status (fst out) = reply_status resp
           /\ response_content (fst out) = RawContent (reply_raw resp)).
Proof.
  intros Hu. cbv zeta. unfold proxy_image.
  apply String.eqb_neq in Hu. cbn [missing]. rewrite Hu.
  change (default "" (Some u)) with u.
  destruct (web _) as [m|resp] eqn:Hw; [split; [|left]; reflexivity|].
  destruct ((400 <=? reply_status resp) && (reply_status resp <? 600)) eqn:R;
    [split; [|left]; reflexivity|].
  split; [reflexivity|]. right. exists resp.
  split; [reflexivity|]. split; [|split; reflexivity].
  apply andb_false_iff in R. destruct R as [R|R]; lia.
Qed.

Lemma lower_other_names :
  lower "Content-Type" = "content-type"
  /\ lower "Cache-Control" = "cache-control".
Proof. split; vm_compute; reflexivity. Qed.

(** X24. What a browser sees of the image proxy after the after-request
    hook: for an accepted origin the wildcard that the proxy wrote is
    replaced by the origin, with credentials allowed; for any other
    origin, or none, the wildcard stays and credentials are not mentioned.
    The content type is the upstream one, image/jpeg by default. *)
Theorem image_proxy_cors (u : string) (resp : get_reply) (origin : option string) :
  u <> "" ->
  web (GetCall (unquote u) [("User-Agent", "Mozilla/5.0")] []) = GetAnswered resp ->
  ~ (400 <= reply_status resp < 600) ->
  let served :=
    after_request origin (fst (proxy_image unquote http_error_text web (Some u))) in
  let accepted := negb (missing origin) && origin_allowed (default "" origin) in
  header_get "Access-Control-Allow-Origin" (response_headers served)
  = (if accepted then origin else Some "*")
  /\ header_get "Access-Control-Allow-Credentials" (response_headers served)
     = (if accepted then Some "true" else None)
  /\ header_get "Content-Type" (response_headers served)
     = Some (default "image/jpeg" (reply_content_type resp)).
Proof.
  intros Hu Hw Hr. cbv zeta.
  rewrite after_request_headers.
  unfold proxy_image. apply String.eqb_neq in Hu. cbn [missing]. rewrite Hu.
  change (default "" (Some u)) with u. rewrite Hw.
  assert (R : (400 <=? reply_status resp) && (reply_status resp <? 600) = false).
  { apply andb_false_iff. destruct (400 <=? reply_status resp) eqn:A; [right|left; reflexivity].
    apply Z.leb_le in A. apply Z.ltb_ge. lia. }
  rewrite R. cbn [fst response_headers].
  pose proof (accepted_origin origin) as Ho.
  destruct lower_other_names as [Lt Lcc].
  destruct (negb (missing origin) && origin_allowed (default "" origin)).
  - lower_names. rewrite ?Lt, ?Lcc.
    split; [|split]; header_cases. symmetry. apply Ho. reflexivity.
  - lower_names. rewrite ?Lt, ?Lcc.
    split; [|split]; header_cases.
Qed.

End Images.

Lemma base64_answer_witness :
  fst (proxy_image_base64 plain_urlparse (fun _ => "no text") (image_server png_reply)
         (Some (JObj [("url", JStr "https://a/b.PNG")])))
  = jsonify [ ("success", JBool true);
              ("data_url", JStr "data:image/png;base64,iVBORw==");
              ("content_type", JStr "image/png");
              ("size", JInt 4) ] 200.
Proof.
  exact (base64_answer plain_urlparse (fun _ => "no text") (image_server png_reply)
           [("url", JStr "https://a/b.PNG")] "https://a/b.PNG" png_reply
           eq_refl eq_refl eq_refl).
Defined.

Lemma b64encode_lossless_witness :
  b64_bytes (chars (b64encode [137; 80; 78; 71])) = Some [137; 80; 78; 71]
  /\ Z.of_nat (String.length (b64encode [137; 80; 78; 71])) = 4 * ((4 + 2) / 3).
Proof.
  apply (b64encode_lossless [137; 80; 78; 71]).
  repeat constructor; unfold is_byte; lia.
Defined.

Lemma proxy_image_fetches_any_url_witness :
  snd (proxy_image (fun u => u) (fun _ => "no text") (image_server png_reply)
         (Some "http://intranet.local/report.html"))
  = [GetCall "http://intranet.local/report.html" [("User-Agent", "Mozilla/5.0")] []]
  /\ is_valid_image_url plain_urlparse (JStr "http://intranet.local/report.html") = false.
Proof.
  split; [|vm_compute; reflexivity].
  refine (proj1 (proxy_image_fetches_any_url (fun u => u) (fun _ => "no text")
                   (image_server png_reply) "http://intranet.local/report.html" _)).
  discriminate.
Defined.

Lemma image_proxy_cors_witness :
  header_get "Access-Control-Allow-Origin"
    (response_headers
       (after_request (Some "https://attacker.example")
          (fst (proxy_image (fun u => u) (fun _ => "no text") (image_server png_reply)
                  (Some "https://a/b.png")))))
  = Some "*".
Proof.
  refine (proj1 (image_proxy_cors (fun u => u) (fun _ => "no text")
                   (image_server png_reply) "https://a/b.png" png_reply
                   (Some "https://attacker.example") _ eq_refl _)).
  - discriminate.
  - cbn. lia.
Defined.

(** ** The Zotok API proxies *)

Section ZotokProxy.

Variable web : get_call -> get_result.

(** X25. Without an Authorization header, or with an empty one, each of
    the three proxy endpoints answers 401 and sends nothing to the Zotok
    API. *)
Theorem proxies_require_authorization (auth_header : option string)
    (args : list (string * string)) (product_id : string) :
  missing auth_header = true ->
  proxy_products web auth_header args
  = (failure "Authorization header missing" 401, [])
  /\ proxy_product_detail web auth_header product_id
     = (failure "Authorization header missing" 401, [])
  /\ test_zotok_connection web auth_header
     = (failure "Authorization header missing" 401, []).
Proof.
  intros H. unfold proxy_products, proxy_product_detail, test_zotok_connection.
  rewrite H. repeat split.
Qed.

Lemma present (auth : string) : auth <> "" -> missing (Some auth) = false.
Proof. intros H. apply String.eqb_neq in H. exact H. Qed.

(** X26. The products proxy does not look at the status of the upstream
    answer. Whatever that status, a JSON body that is a list, or an object
    with a list under [products], or, when it has no [products], a list
    under [data], gives 200 with that list, its length as [total] and
    [page] and [limit] as integers; an object with neither key, and any
    other JSON value, gives 200 with an empty list. The one request made
    carries the Authorization header as it was received. *)
Theorem products_upstream_status_is_ignored (auth : string)
    (args : list (string * string)) (resp : get_reply) (v : value)
    (items : list value) (p l : Z) :
  auth <> "" ->
  web (GetCall products_url (zotok_headers auth) (products_params args))
  = GetAnswered resp ->
  json_loads (reply_text resp) = Some v ->
  (v = JArr items
   \/ (exists d, v = JObj d /\ dict_lookup "products" d = Some (JArr items))
   \/ (exists d, v = JObj d /\ dict_lookup "products" d = None
                 /\ dict_lookup "data" d = Some (JArr items))
   \/ (items = []
       /\ match v with
          | JArr _ => False
          | JObj d => dict_lookup "products" d = None /\ dict_lookup "data" d = None
          | _ => True
          end)) ->
  int_of_str (default "1" (args_get "page" args)) = inr p ->
  int_of_str (default "20" (args_get "limit" args)) = inr l ->
  proxy_products web (Some auth) args
  = (jsonify [ ("success", JBool true);
               ("data", JObj [ ("products", JArr items);
                               ("page", JInt p);
                               ("limit", JInt l);
                               ("total", JInt (Z.of_nat (length items))) ]) ] 200,
     [GetCall products_url (zotok_headers auth) (products_params args)]).
Proof.
  intros Ha Hw Hj Hv Hp Hl. unfold proxy_products.
  rewrite (present _ Ha). change (default "" (Some auth)) with auth.
  cbv zeta. rewrite Hw, Hj.
  destruct Hv as [->|[[d [-> Hd]]|[[d [-> [Hd Hd']]]|[-> Hv]]]].
  - cbn [py_len]. rewrite Hp, Hl. reflexivity.
  - rewrite Hd. cbn [py_len]. rewrite Hp, Hl. reflexivity.
  - rewrite Hd, Hd'. cbn [py_len]. rewrite Hp, Hl. reflexivity.
  - destruct v as [| | | | |d]; try contradiction;
      try (cbn [py_len]; rewrite Hp, Hl; reflexivity).
    destruct Hv as [Hd Hd']. rewrite Hd, Hd'. cbn [py_len]. rewrite Hp, Hl. reflexivity.
Qed.

(** X27. A [page] or [limit] that [int] does not accept is found out only
    after the upstream request was made and answered: the answer is 500
    'Invalid response from Zotok API' with the upstream body as details,
    although that body was a valid JSON list. *)
Theorem products_bad_page (auth : string) (args : list (string * string))
    (resp : get_reply) (items : list value) :
  auth <> "" ->
  web (GetCall products_url (zotok_headers auth) (products_params args))
  = GetAnswered resp ->
  json_loads (reply_text resp) = Some (JArr items) ->
  int_of_str (default "1" (args_get "page" args)) = inl ValueError
  \/ int_of_str (default "20" (args_get "limit" args)) = inl ValueError ->
  proxy_products web (Some auth) args
  = (jsonify [ ("success", JBool false);
               ("error", JStr "Invalid response from Zotok API");
               ("details", JStr (reply_text resp)) ] 500,
     [GetCall products_url (zotok_headers auth) (products_params args)]).
Proof.
  intros Ha Hw Hj Hbad. unfold proxy_products.
  rewrite (present _ Ha). change (default "" (Some auth)) with auth.
  cbv zeta. rewrite Hw, Hj. cbn [py_len].
  destruct Hbad as [Hp|Hl].
  - rewrite Hp. reflexivity.
  - rewrite Hl. destruct (int_of_str (default "1" (args_get "page" args))); reflexivity.
Qed.

(** X28. The product-detail proxy passes an upstream status other than 200
    on as its own status, with the upstream body as details; a 200 answer
    whose body is JSON is returned as [data] with status 200. *)
Theorem product_detail_passes_status (auth product_id : string) (resp : get_reply) :
  auth <> "" ->
  web (GetCall (products_url +:+ "/" +:+ product_id) (zotok_headers auth) [])
  = GetAnswered resp ->
  let out := proxy_product_detail web (Some auth) product_id in
  snd out = [GetCall (products_url +:+ "/" +:+ product_id) (zotok_headers auth) []]
  /\ (reply_status resp <> 200 ->
      fst out
      = jsonify [ ("success", JBool false);
                  ("error", JStr ("Product not found or API error: "
                                  +:+ py_str (JInt (reply_status resp))));
                  ("details", JStr (reply_text resp)) ] (reply_status resp))
  /\ (reply_status resp = 200 ->
      forall product_data, json_loads (reply_text resp) = Some product_data ->
      fst out = jsonify [("success", JBool true); ("data", product_data)] 200).
Proof.
  intros Ha Hw. cbv zeta. unfold proxy_product_detail.
  rewrite (present _ Ha). change (default "" (Some auth)) with auth.
  cbv zeta. rewrite Hw.
  destruct (reply_status resp =? 200) eqn:S.
  - apply Z.eqb_eq in S. split; [|split].
    + destruct (json_loads _); reflexivity.
    + intros N. contradiction.
    + intros _ v Hv. rewrite Hv. reflexivity.
  - apply Z.eqb_neq in S. split; [reflexivity|]. split.
    + intros _. reflexivity.
    + intros E. contradiction.
Qed.

(** X29. The connectivity test reports success for every upstream answer,
    whatever its status: it answers 200 exactly when the request got an
    answer at all, and then reports the upstream status in [status_code];
    a request that failed gives 500. *)
Theorem test_connection_reports_any_answer (auth : string) :
  auth <> "" ->
  let call := GetCall products_url (zotok_headers auth) [("limit", "1")] in
  let out := test_zotok_connection web (Some auth) in
  snd out = [call]
  /\ (status (fst out) = 200 <-> exists resp, web call = GetAnswered resp)
  /\ (forall resp, web call = GetAnswered resp ->
      dict_lookup "success" (body (fst out)) = Some (JBool true)
      /\ dict_lookup "status_code" (body (fst out)) = Some (JInt (reply_status resp)))
  /\ (forall message, web call = GetFailed message ->
      fst out = failure "Failed to connect to Zotok API" 500).
Proof.
  intros Ha. cbv zeta. unfold test_zotok_connection.
  rewrite (present _ Ha). change (default "" (Some auth)) with auth.
  cbv zeta. destruct (web _) as [m|resp] eqn:Hw.
  - split; [reflexivity|]. split; [|split].
    + split; [cbn; discriminate | intros [r Hr]; discriminate].
    + intros r Hr. discriminate.
    + intros m' _. reflexivity.
  - split; [reflexivity|]. split; [|split].
    + split; [intros _; exists resp; reflexivity | reflexivity].
    + intros r Hr. injection Hr as <-. split; reflexivity.
    + intros m' Hr. discriminate.
Qed.

End ZotokProxy.

Lemma proxies_require_authorization_witness :
  proxy_products (image_server png_reply) None [("page", "2")]
  = (failure "Authorization header missing" 401, [])
  /\ proxy_product_detail (image_server png_reply) None "p1"
     = (failure "Authorization header missing" 401, [])
  /\ test_zotok_connection (image_server png_reply) None
     = (failure "Authorization header missing" 401, []).
Proof.
  exact (proxies_require_authorization (image_server png_reply) None [("page", "2")]
           "p1" eq_refl).
Defined.

Lemma products_upstream_status_is_ignored_witness :
  fst (proxy_products (image_server (json_reply 503 "[1, 2, 3]")) (Some "Bearer t")
         [("page", " 2"); ("search", "pen")])
  = jsonify [ ("success", JBool true);
              ("data", JObj [ ("products", JArr [JInt 1; JInt 2; JInt 3]);
                              ("page", JInt 2);
                              ("limit", JInt 20);
                              ("total", JInt 3) ]) ] 200.
Proof.
  assert (Hj : json_loads (reply_text (json_reply 503 "[1, 2, 3]"))
               = Some (JArr [JInt 1; JInt 2; JInt 3])) by (vm_compute; reflexivity).
  assert (Hp : int_of_str (default "1" (args_get "page" [("page", " 2"); ("search", "pen")]))
               = inr 2) by (vm_compute; reflexivity).
  assert (Hl : int_of_str (default "20" (args_get "limit" [("page", " 2"); ("search", "pen")]))
               = inr 20) by (vm_compute; reflexivity).
  assert (Ha : "Bearer t" <> "") by discriminate.
  exact (f_equal fst
           (products_upstream_status_is_ignored
              (image_server (json_reply 503 "[1, 2, 3]")) "Bearer t"
              [("page", " 2"); ("search", "pen")] (json_reply 503 "[1, 2, 3]")
              (JArr [JInt 1; JInt 2; JInt 3]) [JInt 1; JInt 2; JInt 3] 2 20
              Ha eq_refl Hj (or_introl eq_refl) Hp Hl)).
Defined.

Lemma products_bad_page_witness :
  proxy_products (image_server (json_reply 200 "[1, 2, 3]")) (Some "Bearer t")
    [("page", "two")]
  = (jsonify [ ("success", JBool false);
               ("error", JStr "Invalid response from Zotok API");
               ("details", JStr "[1, 2, 3]") ] 500,
     [GetCall products_url (zotok_headers "Bearer t") [("page", "two"); ("limit", "20")]]).
Proof.
  assert (Hj : json_loads (reply_text (json_reply 200 "[1, 2, 3]"))
               = Some (JArr [JInt 1; JInt 2; JInt 3])) by (vm_compute; reflexivity).
  assert (Hp : int_of_str (default "1" (args_get "page" [("page", "two")]))
               = inl ValueError) by (vm_compute; reflexivity).
  assert (Ha : "Bearer t" <> "") by discriminate.
  exact (products_bad_page (image_server (json_reply 200 "[1, 2, 3]")) "Bearer t"
           [("page", "two")] (json_reply 200 "[1, 2, 3]") [JInt 1; JInt 2; JInt 3]
           Ha eq_refl Hj (or_introl Hp)).
Defined.

Lemma product_detail_passes_status_witness :
  status (fst (proxy_product_detail (image_server (json_reply 403 "denied"))
                 (Some "Bearer t") "p1"))
  = 403.
Proof.
  assert (Ha : "Bearer t" <> "") by discriminate.
  assert (Hs : reply_status (json_reply 403 "denied") <> 200) by (cbn; lia).
  rewrite (proj1 (proj2 (product_detail_passes_status
                           (image_server (json_reply 403 "denied")) "Bearer t" "p1"
                           (json_reply 403 "denied") Ha eq_refl)) Hs).
  reflexivity.
Defined.

Lemma test_connection_reports_any_answer_witness :
  status (fst (test_zotok_connection (image_server (json_reply 500 "down"))
                 (Some "Bearer t")))
  = 200.
Proof.
  assert (Ha : "Bearer t" <> "") by discriminate.
  apply (proj2 (proj1 (proj2 (test_connection_reports_any_answer
                                (image_server (json_reply 500 "down")) "Bearer t" Ha)))).
  exists (json_reply 500 "down"). reflexivity.
Defined.
